(** * A2E avatar pipeline: the job pollers and the URL extractor of [main.py]

    A shallow embedding of the polling loops [wait_until_avatar_ready] and
    [wait_until_video_ready], of the extractor [_first_url_from] and of the
    driver [run_pipeline], with the properties the specification states
    about them.

    Modelling conventions.
    - A Python [str] is a Rocq [string] whose characters are the code points
      below 256; the regular expression class [\s] and [str.lower] are
      written out for that range.
    - A JSON value as [r.json()] returns it is a [value]; a [dict] keeps its
      items in insertion order (the extractor walks them in that order).
      A tuple is not among them: [r.json()] yields none.
    - The outside world (remote service, clock, console) is an [env] read by
      the program and a [world] it changes: the clock reading and the log of
      everything the program did, newest event first.
    - The clock is a mocked one with whole seconds: a call to the remote
      takes the latency the remote states, a sleep takes its length, and
      nothing else takes time.
    - A printed line is logged as its format text, without the leading line
      break, and the values that fill it.
    - A path is the text [pathlib] makes of it on a POSIX system; what
      [Path.resolve()] answers is the file system's to say, and is read
      from the [env].
    - A loop runs on fuel, one unit per iteration; [OutOfFuel] is the answer
      of a run that was given too little. *)

From Stdlib Require Import ZArith String Ascii List Bool Lia SpecFloat.
From stdpp Require Import base gmap strings list.

Open Scope string_scope.
Open Scope Z_scope.

Set Warnings "-clear-no-such-hyp".

(** [++] on strings unfolds on a constructor, as in the Standard Library. *)
#[local] Arguments String.append !s1 s2 : simpl nomatch.

(* ================================================================== *)
(** * Strings *)
(* ================================================================== *)

Module Str.

(** [str.isspace] / the class [\s] of [re] on code points below 256:
    TAB..CR, FS..US, space, NEL and NBSP. *)
Definition is_space (c : ascii) : bool :=
  let n := nat_of_ascii c in
  ((9 <=? n) && (n <=? 13) || (28 <=? n) && (n <=? 32)
   || (n =? 133) || (n =? 160))%nat.

(** [str.lower] on one code point below 256: A..Z and the upper-case
    letters of Latin-1 (all of U+00C0..U+00DE but the sign U+00D7). *)
Definition lower_char (c : ascii) : ascii :=
  let n := nat_of_ascii c in
  if ((65 <=? n) && (n <=? 90)
      || (192 <=? n) && (n <=? 222) && negb (n =? 215))%nat
  then ascii_of_nat (n + 32) else c.

Fixpoint lower (s : string) : string :=
  match s with
  | EmptyString => EmptyString
  | String c r => String (lower_char c) (lower r)
  end.

(** [s.split("?", 1)[0]]: what stands before the first question mark. *)
Fixpoint before_query (s : string) : string :=
  match s with
  | EmptyString => EmptyString
  | String c r => if Ascii.eqb c "?" then EmptyString
                  else String c (before_query r)
  end.

(** [s.endswith(suf)]: [suf] is [s] itself or ends the tail of [s]. *)
Fixpoint endswith (s suf : string) : bool :=
  String.eqb s suf
  || match s with
     | EmptyString => false
     | String _ r => endswith r suf
     end.

(** [s.strip()]. *)
Fixpoint lstrip (s : string) : string :=
  match s with
  | EmptyString => EmptyString
  | String c r => if is_space c then lstrip r else s
  end.

Fixpoint rev (s : string) : string :=
  match s with
  | EmptyString => EmptyString
  | String c r => rev r ++ String c EmptyString
  end.

Definition strip (s : string) : string := rev (lstrip (rev (lstrip s))).

(** [" " in s]. *)
Fixpoint has_blank (s : string) : bool :=
  match s with
  | EmptyString => false
  | String c r => Ascii.eqb c " " || has_blank r
  end.

End Str.

(* ================================================================== *)
(** * Paths

    [pathlib.Path] on a POSIX system, as far as the driver uses it: the
    name and the suffix of a path given as a text (the rule of Python 3.8
    to 3.13). *)
(* ================================================================== *)

Module Pathlib.

(** [s.split("/")], the piece being read in [cur]. *)
Fixpoint split_slash (cur s : string) : list string :=
  match s with
  | EmptyString => [cur]
  | String c r =>
      if Ascii.eqb c "/" then cur :: split_slash EmptyString r
      else split_slash (cur ++ String c EmptyString) r
  end.

(** The components of a path below its root: the pieces between slashes
    but the empty ones and the single dots. *)
Definition parts (s : string) : list string :=
  List.filter (fun x => negb (String.eqb x "" || String.eqb x "."))
    (split_slash EmptyString s).

(** [Path(s).name]: the last component, or the empty text. *)
Definition name (s : string) : string := List.last (parts s) "".

(** [s.rfind(".")], [None] for [-1]. *)
Fixpoint rfind_dot (s : string) : option nat :=
  match s with
  | EmptyString => None
  | String c r =>
      match rfind_dot r with
      | Some i => Some (S i)
      | None => if Ascii.eqb c "." then Some O else None
      end
  end.

(** [Path(s).suffix]: the name from its last dot on, when that dot is
    neither the first nor the last character of the name. *)
Definition suffix (s : string) : string :=
  let nm := name s in
  match rfind_dot nm with
  | Some i =>
      if ((0 <? i) && (i <? String.length nm - 1))%nat
      then String.substring i (String.length nm - i) nm
      else ""
  | None => ""
  end.

End Pathlib.

(* ================================================================== *)
(** * The URL pattern and [re.findall]

    The pattern of the source reads: [http], an optional [s], [://], then
    one or more characters that are neither white space nor a double quote
    nor an apostrophe. *)
(* ================================================================== *)

Module Re.

(** The character class of the pattern: no white space, no double quote
    (code 34), no apostrophe. *)
Definition url_char (c : ascii) : bool :=
  negb (Str.is_space c || Ascii.eqb c "034" || Ascii.eqb c "'").

(** The longest run of [url_char]s at the head of [s] (the greedy [+]). *)
Fixpoint take_url_chars (s : string) : string :=
  match s with
  | EmptyString => EmptyString
  | String c r => if url_char c then String c (take_url_chars r)
                  else EmptyString
  end.

(** The text left once a scheme [http://] or [https://] is read off the
    head of [s]. [s?] is greedy, and only one of the two can match. *)
Definition after_scheme (s : string) : option (string * string) :=
  if String.prefix "https://" s
  then Some ("https://", String.substring 8 (String.length s - 8) s)
  else if String.prefix "http://" s
  then Some ("http://", String.substring 7 (String.length s - 7) s)
  else None.

(** A match of the pattern that starts at the head of [s]. *)
Definition match_here (s : string) : option string :=
  match after_scheme s with
  | Some (scheme, rest) =>
      match take_url_chars rest with
      | EmptyString => None
      | body => Some (scheme ++ body)
      end
  | None => None
  end.

(** [re.findall]: scan from the left; after a match go on behind it,
    otherwise one character further. [skip] counts the characters of the
    last match that are still to be passed. *)
Fixpoint scan (skip : nat) (s : string) : list string :=
  match s with
  | EmptyString => []
  | String _ r =>
      match skip with
      | S k => scan k r
      | O => match match_here s with
             | Some m => m :: scan (String.length m - 1) r
             | None => scan 0 r
             end
      end
  end.

Definition findall (s : string) : list string := scan 0 s.

End Re.

(* ================================================================== *)
(** * JSON values and the Python operations the source applies to them *)
(* ================================================================== *)

#[warnings="-register-all"]
Inductive value : Type :=
| VNone
| VBool (b : bool)
| VInt (n : Z)
| VFloat (f : spec_float)
| VStr (s : string)
| VList (items : list value)
| VDict (items : list (string * value)).

Inductive exn : Type :=
| RuntimeError (text : string) (args : list value)
| TimeoutError (text : string) (args : list value)
| TypeError
| IndexError
| KeyError
| AttributeError
| ValueError
| EOFError
| RequestsError.

(** What a piece of code comes to: a value, an exception, or no answer
    within the number of loop iterations it was given. *)
Inductive outcome (A : Type) : Type :=
| Ret (a : A)
| Raise (e : exn)
| OutOfFuel.
Arguments Ret {A} a.
Arguments Raise {A} e.
Arguments OutOfFuel {A}.

Module Py.

(** [bool(v)]. *)
Definition truthy (v : value) : bool :=
  match v with
  | VNone => false
  | VBool b => b
  | VInt n => negb (n =? 0)
  | VFloat f => match f with S754_zero _ => false | _ => true end
  | VStr s => negb (String.eqb s "")
  | VList l => match l with [] => false | _ => true end
  | VDict l => match l with [] => false | _ => true end
  end.

(** [a or b]. *)
Definition or_ (a b : value) : value := if truthy a then a else b.

(** [v == 0], as [!=] and [in (0, None)] decide it: [False] and [0.0]
    equal [0]. *)
Definition eq_zero (v : value) : bool :=
  match v with
  | VBool b => negb b
  | VInt n => n =? 0
  | VFloat (S754_zero _) => true
  | _ => false
  end.

Definition is_none (v : value) : bool :=
  match v with VNone => true | _ => false end.

Definition is_dict (v : value) : bool :=
  match v with VDict _ => true | _ => false end.

Fixpoint lookup (k : string) (items : list (string * value)) : option value :=
  match items with
  | [] => None
  | (k', v) :: rest => if String.eqb k k' then Some v else lookup k rest
  end.

(** [o.get(k)]: only a dict has the method. *)
Definition get (o : value) (k : string) : outcome value :=
  match o with
  | VDict items => Ret (match lookup k items with Some v => v | None => VNone end)
  | _ => Raise AttributeError
  end.

(** [o[0]]. The keys of a JSON object are strings, so [0] is none of
    them. *)
Definition index0 (o : value) : outcome value :=
  match o with
  | VList (x :: _) => Ret x
  | VList [] => Raise IndexError
  | VStr (String c _) => Ret (VStr (String c EmptyString))
  | VStr EmptyString => Raise IndexError
  | VDict _ => Raise KeyError
  | _ => Raise TypeError
  end.

(** [o[k]] for a string [k]. *)
Definition item (o : value) (k : string) : outcome value :=
  match o with
  | VDict items => match lookup k items with
                   | Some v => Ret v
                   | None => Raise KeyError
                   end
  | _ => Raise TypeError
  end.

(** [v in S] for a set [S] of strings: a list or a dict cannot be
    hashed. *)
Definition in_ (v : value) (S : gset string) : outcome bool :=
  match v with
  | VStr s => Ret (bool_decide (s ∈ S))
  | VList _ | VDict _ => Raise TypeError
  | _ => Ret false
  end.

Definition of_option (o : option string) : value :=
  match o with Some s => VStr s | None => VNone end.

End Py.

(* ================================================================== *)
(** * The result extractor *)
(* ================================================================== *)

(** [collect]: the URLs of every string leaf, depth first, in the order of
    the items. *)
Fixpoint collect (o : value) : list string :=
  match o with
  | VDict items =>
      (fix values (l : list (string * value)) : list string :=
         match l with
         | [] => []
         | (_, v) :: rest => (collect v ++ values rest)%list
         end) items
  | VList items =>
      (fix each (l : list value) : list string :=
         match l with
         | [] => []
         | v :: rest => (collect v ++ each rest)%list
         end) items
  | VStr s => Re.findall s
  | _ => []
  end.

(** The test of the inner loop: [u.lower().split("?", 1)[0].endswith(ext)]. *)
Definition url_has_ext (ext u : string) : bool :=
  Str.endswith (Str.before_query (Str.lower u)) ext.

(** The two nested loops over [exts] and [urls]. *)
Fixpoint prefer (exts urls : list string) : option string :=
  match exts with
  | [] => None
  | ext :: rest =>
      match List.find (url_has_ext ext) urls with
      | Some u => Some u
      | None => prefer rest urls
      end
  end.

Definition default_exts : list string :=
  [".mp4"; ".m3u8"; ".mov"; ".webm"; ".mp3"; ".aac"; ".wav"; ".jpg"; ".jpeg"; ".png"].

Definition _first_url_from (obj : value) (exts : list string) : option string :=
  let urls := collect obj in
  match prefer exts urls with
  | Some u => Some u
  | None => List.head urls
  end.

(* ================================================================== *)
(** * The outside world and the effects of the program *)
(* ================================================================== *)

(** The calls the client sends to the remote service, one per method of
    [A2EClient] the driver uses, and the download of the picture. *)
Inductive request : Type :=
| Text2Image (name prompt : string) (width height : Z)
| StartTraining (name gender image_url : string)
| GetAvatar (avatar_id : value)
| ContinueTraining (avatar_id : value)
| SendTTS (msg voice_id : string)
| CharacterList (avatar_id : value)
| VideoGenerate (title : string) (anchor_id audio_src : value)
| AwsResult (task_id : value)
| Download (url out_path : string).

(** What a call comes back with: the decoded JSON body, or an exception of
    [requests] (bad HTTP status, connection trouble, a body that is not
    JSON). *)
Inductive reply : Type :=
| Reply (body : value)
| Failed.

Inductive event : Type :=
| EvHttp (rq : request) (latency : Z) (rp : reply)
| EvSleep (seconds : Z)
| EvPrint (text : string) (args : list value)
| EvPrintExn (text : string) (e : exn)
| EvInput (prompt : string) (answer : option string).

(** What the program reads and cannot change. The remote service and the
    console may answer by everything that happened so far, and so may the
    file system, which [Path.resolve()] asks for the working directory and
    the links on the way: [resolve] is the absolute path it answers for a
    path that was just written. *)
Record env : Type := {
  getenv : string -> option string;
  remote : list event -> request -> Z * reply;
  stdin : list event -> option string;
  resolve : list event -> string -> string
}.

(** The clock reading (seconds) and the log, newest event first. *)
Record world : Type := { now : Z; log : list event }.

Definition M (A : Type) : Type := world -> outcome A * world.

Definition ret {A} (a : A) : M A := fun w => (Ret a, w).
Definition raise {A} (e : exn) : M A := fun w => (Raise e, w).
Definition out_of_fuel {A} : M A := fun w => (OutOfFuel, w).
Definition lift {A} (o : outcome A) : M A := fun w => (o, w).

Definition bind {A B} (m : M A) (f : A -> M B) : M B :=
  fun w =>
    match m w with
    | (Ret a, w') => f a w'
    | (Raise e, w') => (Raise e, w')
    | (OutOfFuel, w') => (OutOfFuel, w')
    end.

Notation "x <- m ;; k" := (bind m (fun x => k))
  (at level 100, m at next level, k at level 200, right associativity).
Notation "m ;;; k" := (bind m (fun _ => k))
  (at level 100, k at level 200, right associativity).

(** [try: m  except Exception as e: h e]. *)
Definition try_except {A} (m : M A) (h : exn -> M A) : M A :=
  fun w =>
    match m w with
    | (Raise e, w') => h e w'
    | r => r
    end.

(** [while True: body], where the body hands back [Some r] for [return r]
    and [None] when it falls off its end. *)
Fixpoint while_true {A} (fuel : nat) (body : M (option A)) : M A :=
  match fuel with
  | O => out_of_fuel
  | S fuel' =>
      r <- body ;;
      match r with
      | Some a => ret a
      | None => while_true fuel' body
      end
  end.

Definition emit (ev : event) : M unit :=
  fun w => (Ret tt, {| now := now w; log := ev :: log w |}).

Definition print (text : string) (args : list value) : M unit :=
  emit (EvPrint text args).

(** [time.time()]. *)
Definition time_time : M Z := fun w => (Ret (now w), w).

(** [time.sleep(d)]: a negative length is a [ValueError]. *)
Definition time_sleep (d : Z) : M unit :=
  if d <? 0 then raise ValueError
  else fun w => (Ret tt, {| now := now w + d; log := EvSleep d :: log w |}).

Section Program.

Variable E : env.

(** One round trip: send, [raise_for_status()], [r.json()]. *)
Definition http (rq : request) : M value :=
  fun w =>
    let (latency, rp) := remote E (log w) rq in
    let w' := {| now := now w + latency;
                 log := EvHttp rq latency rp :: log w |} in
    match rp with
    | Reply body => (Ret body, w')
    | Failed => (Raise RequestsError, w')
    end.

(** [input(prompt)]. *)
Definition input (prompt : string) : M string :=
  fun w =>
    let a := stdin E (log w) in
    let w' := {| now := now w; log := EvInput prompt a :: log w |} in
    match a with
    | Some s => (Ret s, w')
    | None => (Raise EOFError, w')
    end.

(** ** Utilities *)

Definition _env (key : string) (default : option string) : M string :=
  match getenv E key with
  | Some v => ret v
  | None => match default with
            | Some v => ret v
            | None => raise (RuntimeError "Missing required env var: {}" [VStr key])
            end
  end.

Definition _print_json (title : string) (obj : value) : M unit :=
  print "== {} ==" [VStr title] ;;;
  print "{}" [obj].

(** ** The client *)

Record A2EClient : Type := { token : string; base : string; timeout : Z }.

Definition text2image (self : A2EClient) (name prompt : string)
    (width height : Z) : M value :=
  http (Text2Image name prompt width height).

(** The caller leaves every optional argument unset. *)
Definition start_avatar_training_from_image (self : A2EClient)
    (name gender image_url : string) : M value :=
  if Str.has_blank image_url then raise ValueError
  else
    data <- http (StartTraining name gender image_url) ;;
    match data with
    | VDict _ =>
        code <- lift (Py.get data "code") ;;
        if negb (Py.eq_zero code || Py.is_none code)
        then
          msg <- lift (Py.get data "msg") ;;
          message <- lift (Py.get data "message") ;;
          raise (RuntimeError "A2E API error (code={}): {}"
                   [code; Py.or_ msg message])
        else ret data
    | _ => ret data
    end.

Definition get_avatar (self : A2EClient) (avatar_id : value) : M value :=
  http (GetAvatar avatar_id).

Definition continue_training (self : A2EClient) (avatar_id : value) : M value :=
  http (ContinueTraining avatar_id).

Definition avatar_terminal_ok : gset string :=
  {[ "ready"; "trained"; "succeeded"; "completed" ]}.
Definition avatar_terminal_bad : gset string := {[ "failed"; "error" ]}.

(** The body of the loop of [wait_until_avatar_ready]. *)
Definition avatar_body (self : A2EClient) (avatar_id : value)
    (start timeout_s poll_s : Z) : M (option value) :=
  item <- get_avatar self avatar_id ;;
  data <- lift (Py.get item "data") ;;
  status <- lift (Py.get (Py.or_ data (VDict [])) "current_status") ;;
  print "[avatar:{}] status = {}" [avatar_id; status] ;;;
  ok <- lift (Py.in_ status avatar_terminal_ok) ;;
  if ok then ret (Some item)
  else
    bad <- lift (Py.in_ status avatar_terminal_bad) ;;
    if bad then raise (RuntimeError "Avatar training failed: {}" [item])
    else
      t <- time_time ;;
      if t - start >? timeout_s
      then raise (TimeoutError "Timed out waiting for avatar {} to be ready"
                    [avatar_id])
      else
        time_sleep poll_s ;;;
        ret None.

Definition wait_until_avatar_ready (fuel : nat) (self : A2EClient)
    (avatar_id : value) (timeout_s poll_s : Z) : M value :=
  start <- time_time ;;
  while_true fuel (avatar_body self avatar_id start timeout_s poll_s).

Definition generate_tts (self : A2EClient) (msg voice_id : string) : M value :=
  http (SendTTS msg voice_id).

Definition list_custom_anchors (self : A2EClient) (avatar_id : value) : M value :=
  http (CharacterList avatar_id).

Definition create_video (self : A2EClient) (title : string)
    (anchor_id audio_src : value) : M value :=
  http (VideoGenerate title anchor_id audio_src).

Definition video_result (self : A2EClient) (task_id : value) : M value :=
  http (AwsResult task_id).

Definition video_terminal_ok : gset string :=
  {[ "ready"; "success"; "completed" ]}.
Definition video_terminal_bad : gset string := {[ "failed"; "error" ]}.

(** The body of the loop of [wait_until_video_ready]. *)
Definition video_body (self : A2EClient) (task_id : value)
    (start timeout_s poll_s : Z) : M (option value) :=
  item <- video_result self task_id ;;
  data <- lift (Py.get item "data") ;;
  first <- lift (Py.index0 data) ;;
  status <- lift (Py.item first "status") ;;
  print "[video:{}] status = {}" [task_id; status] ;;;
  ok <- lift (Py.in_ status video_terminal_ok) ;;
  if ok then ret (Some item)
  else
    bad <- lift (Py.in_ status video_terminal_bad) ;;
    if bad then raise (RuntimeError "Video task failed: {}" [item])
    else
      t <- time_time ;;
      if t - start >? timeout_s
      then raise (TimeoutError "Timed out waiting for video task {} to be ready"
                    [task_id])
      else
        time_sleep poll_s ;;;
        ret None.

Definition wait_until_video_ready (fuel : nat) (self : A2EClient)
    (task_id : value) (timeout_s poll_s : Z) : M value :=
  start <- time_time ;;
  while_true fuel (video_body self task_id start timeout_s poll_s).

Definition download_file (url out_path : string) : M unit :=
  http (Download url out_path) ;;; ret tt.

(** [out_path.resolve()], on a path that holds a file. *)
Definition path_resolve (out_path : string) : M string :=
  fun w => (Ret (resolve E (log w) out_path), w).

End Program.

(* ================================================================== *)
(** * The driver [run_pipeline], stage by stage *)
(* ================================================================== *)

Section Pipeline.

Variable E : env.

(** The defaults of the two wait functions. *)
Definition default_timeout_s : Z := 1800.
Definition default_poll_s : Z := 20.

Definition audio_exts : list string := [".mp3"; ".aac"; ".wav"; ".m4a"].
Definition video_exts : list string := [".mp4"; ".m3u8"; ".mov"; ".webm"].

(** 1) Text to image; the picture is saved in the working directory, and
    the last line names it by its absolute path. *)
Definition stage_image (client : A2EClient) (name prompt : string)
    (width height : Z) : M string :=
  print "[1/6] Generating image from prompt…" [] ;;;
  t2i <- text2image E client name prompt width height ;;
  _print_json "text2image response" t2i ;;;
  data <- lift (Py.get t2i "data") ;;
  found <- lift (Py.get (Py.or_ data (VDict [])) "image_urls") ;;
  let image_urls := Py.or_ found (VList []) in
  if negb (Py.truthy image_urls)
  then raise (RuntimeError "No image_urls returned from text2image." [])
  else
    image_url <- lift (Py.index0 image_urls) ;;
    print "Selected image URL: {}" [image_url] ;;;
    match image_url with
    | VStr url =>
        let suffix := Pathlib.suffix url in
        let ext := if String.eqb suffix "" then ".jpg" else suffix in
        let out_path := "avatar" ++ ext in
        print "Downloading to: {} …" [VStr out_path] ;;;
        download_file E url out_path ;;;
        resolved <- path_resolve E out_path ;;
        print "Saved -> {}" [VStr resolved] ;;;
        ret url
    | _ => raise TypeError
    end.

(** 2) The approval gate: [true] to go on. *)
Definition stage_approval (auto_approve : bool) : M bool :=
  if negb auto_approve
  then
    typed <- input E "Proceed to train avatar with this image? [y/N] " ;;
    let ans := Str.lower (Str.strip typed) in
    if negb (bool_decide (ans ∈ ({[ "y"; "yes" ]} : gset string)))
    then print "Aborted by user before training." [] ;;; ret false
    else ret true
  else ret true.

(** 3) Train the avatar and wait for it. *)
Definition stage_train (fuel : nat) (client : A2EClient)
    (name gender image_url : string) : M value :=
  print "[2/6] Starting avatar training from image URL…" [] ;;;
  av_start <- start_avatar_training_from_image E client name gender image_url ;;
  _print_json "startTraining response" av_start ;;;
  code <- lift (Py.get av_start "code") ;;
  if negb (Py.eq_zero code)
  then raise (RuntimeError "Avatar startTraining failed." [])
  else
    data <- lift (Py.get av_start "data") ;;
    avatar_id <- lift (Py.get (Py.or_ data (VDict [])) "_id") ;;
    if negb (Py.truthy avatar_id)
    then raise (RuntimeError "No avatar_id returned from startTraining." [])
    else
      print "avatar_id = {}" [avatar_id] ;;;
      print "[3/6] Waiting for avatar to be ready… (this can take a while)" [] ;;;
      ready_info <- wait_until_avatar_ready E fuel client avatar_id
                      default_timeout_s default_poll_s ;;
      _print_json "avatar ready info" ready_info ;;;
      ret avatar_id.

(** 4) The optional follow-up training; a failed second wait is only
    warned about. *)
Definition stage_lip_sync (fuel : nat) (client : A2EClient)
    (lip_sync : bool) (avatar_id : value) : M unit :=
  if lip_sync
  then
    print "[4/6] Triggering follow-up lip-sync training (continueTranining)…" [] ;;;
    cont <- continue_training E client avatar_id ;;
    _print_json "continueTranining response" cont ;;;
    try_except
      (print "Re-checking avatar readiness after continueTranining…" [] ;;;
       ready_info <- wait_until_avatar_ready E fuel client avatar_id
                       default_timeout_s default_poll_s ;;
       _print_json "avatar ready info (post-continue)" ready_info)
      (fun e => emit (EvPrintExn "Warning: post-continue wait error: {}" e))
  else ret tt.

(** The audio source read off the answer of the speech synthesis: the
    [data] field, or else what the extractor finds. *)
Definition audio_src_of (tts : value) : outcome value :=
  match (if Py.is_dict tts then Py.get tts "data" else Ret VNone) with
  | Ret direct =>
      Ret (Py.or_ direct (Py.of_option (_first_url_from tts audio_exts)))
  | Raise e => Raise e
  | OutOfFuel => OutOfFuel
  end.

(** 5) Speech synthesis. *)
Definition stage_tts (client : A2EClient) (script voice_id : string) : M value :=
  print "[5/6] Generating TTS audio…" [] ;;;
  tts <- generate_tts E client script voice_id ;;
  _print_json "send_tts response" tts ;;;
  audio_src <- lift (audio_src_of tts) ;;
  if negb (Py.truthy audio_src)
  then raise (RuntimeError
                "Could not extract audioSrc from TTS response; inspect printed JSON and adjust parsing."
                [])
  else
    print "audioSrc = {}" [audio_src] ;;;
    ret audio_src.

(** 6) Anchor lookup, video generation, one fetch of the result. *)
Definition stage_video (client : A2EClient) (name : string)
    (avatar_id audio_src : value) : M unit :=
  print "[6/6] Fetching custom anchors for this avatar…" [] ;;;
  anchors <- list_custom_anchors E client avatar_id ;;
  _print_json "character_list (custom) response" anchors ;;;
  items <- (if Py.is_dict anchors
            then data <- lift (Py.get anchors "data") ;;
                 ret (Py.or_ data (VList []))
            else ret (VList [])) ;;
  if negb (Py.truthy items)
  then raise (RuntimeError
                "No custom anchors found for this avatar. Ensure your account supports custom anchors."
                [])
  else
    first <- lift (Py.index0 items) ;;
    anchor_id <- lift (Py.get first "_id") ;;
    if negb (Py.truthy anchor_id)
    then raise (RuntimeError "First custom anchor has no _id field." [])
    else
      print "anchor_id = {}" [anchor_id] ;;;
      vid <- create_video E client (name ++ " Greeting Video") anchor_id audio_src ;;
      _print_json "video generate response" vid ;;;
      code <- lift (Py.get vid "code") ;;
      if negb (Py.eq_zero code)
      then raise (RuntimeError "Video generation failed; see response above." [])
      else
        data <- lift (Py.get vid "data") ;;
        task_id <- lift (Py.get (Py.or_ data (VDict [])) "_id") ;;
        if negb (Py.truthy task_id)
        then raise (RuntimeError "No task _id returned from video generation." [])
        else
          print "video task_id = {}" [task_id] ;;;
          result <- video_result E client task_id ;;
          _print_json "video awsResult response" result ;;;
          match _first_url_from result video_exts with
          | Some video_url => print "✅ Best-guess video URL: {}" [VStr video_url]
          | None =>
              print "ℹ️ Could not auto-detect a direct video URL. Inspect the printed JSON above for downloadable links." []
          end.

Definition run_pipeline (fuel : nat) (name gender prompt script voice_id : string)
    (width height : Z) (auto_approve lip_sync : bool) : M unit :=
  token <- _env E "A2E_API_TOKEN" None ;;
  let base := match getenv E "A2E_BASE" with
              | Some b => b
              | None => "https://video.a2e.ai"
              end in
  let client := {| token := token; base := base; timeout := 60 |} in
  image_url <- stage_image client name prompt width height ;;
  proceed <- stage_approval auto_approve ;;
  if negb proceed then ret tt
  else
    avatar_id <- stage_train fuel client name gender image_url ;;
    stage_lip_sync fuel client lip_sync avatar_id ;;;
    audio_src <- stage_tts client script voice_id ;;
    stage_video client name avatar_id audio_src.

End Pipeline.

(* ================================================================== *)
(** * What the specification says, in its own words *)
(* ================================================================== *)

(** The string leaves of a value. *)
Inductive leaf : value -> string -> Prop :=
| leaf_str s : leaf (VStr s) s
| leaf_list items v s : In v items -> leaf v s -> leaf (VList items) s
| leaf_dict items k v s : In (k, v) items -> leaf v s -> leaf (VDict items) s.

(** A text that matches the URL pattern as a whole. *)
Definition url_shaped (m : string) : Prop :=
  exists body,
    (m = "http://" ++ body \/ m = "https://" ++ body)
    /\ body <> ""
    /\ Forall (fun c => Re.url_char c = true) (list_ascii_of_string body).

(** A text with a substring that matches the URL pattern. *)
Definition has_url (s : string) : Prop :=
  exists pre m post, s = pre ++ m ++ post /\ url_shaped m.

(** The path of [u] (the URL without its query string) ends with [ext],
    whatever the case of the letters on either side. *)
Definition path_ends_ci (u ext : string) : Prop :=
  exists pre, Str.lower (Str.before_query u) = pre ++ Str.lower ext.

(** The same with the extension taken as it is written. *)
Definition path_ends_as_written (u ext : string) : Prop :=
  exists pre, Str.lower (Str.before_query u) = pre ++ ext.

(** [u] is the first of [urls] with the property [P]. *)
Definition first_such (P : string -> Prop) (urls : list string) (u : string) : Prop :=
  exists before after,
    urls = (before ++ u :: after)%list /\ P u /\ Forall (fun v => ~ P v) before.

(** The selection rule: the first extension, in the order of [exts], that
    some URL ends with decides, and the first URL ending with it is the
    answer; when no URL ends with any extension the answer is the first URL
    found, if there is one. *)
Definition selection (ends : string -> string -> Prop)
    (exts urls : list string) (r : option string) : Prop :=
  (exists tried ext rest u,
      exts = (tried ++ ext :: rest)%list
      /\ (forall e v, In e tried -> In v urls -> ~ ends v e)
      /\ first_such (fun v => ends v ext) urls u
      /\ r = Some u)
  \/ ((forall e v, In e exts -> In v urls -> ~ ends v e)
      /\ r = List.head urls).

(** The claim on the extractor with the case-insensitive reading of the
    specification, for every value and every list of extensions. *)
Definition selects_case_insensitively : Prop :=
  forall obj exts,
    selection path_ends_ci exts (collect obj) (_first_url_from obj exts).

(** The three buckets of a status. *)
Inductive bucket : Type := Success | Failure | Pending.

Definition classify (ok bad : gset string) (status : string) : bucket :=
  if bool_decide (status ∈ ok) then Success
  else if bool_decide (status ∈ bad) then Failure
  else Pending.

(** Sequencing for operations that may raise. *)
Definition and_then {A B} (o : outcome A) (f : A -> outcome B) : outcome B :=
  match o with
  | Ret a => f a
  | Raise e => Raise e
  | OutOfFuel => OutOfFuel
  end.

(** Where each loop of the source reads the status in the answer:
    [(item.get("data") or {}).get("current_status")] for the avatar and
    [item.get("data")[0]['status']] for the video. *)
Definition avatar_status (item : value) : outcome value :=
  and_then (Py.get item "data") (fun data =>
  Py.get (Py.or_ data (VDict [])) "current_status").

Definition video_status (item : value) : outcome value :=
  and_then (Py.get item "data") (fun data =>
  and_then (Py.index0 data) (fun first =>
  Py.item first "status")).

(** The Poller of the specification, written once for both kinds of job:
    what to fetch, where the status is, the two vocabularies and the texts
    of the log line and of the two errors. *)
Record job : Type := {
  fetch : request;
  status_of : value -> outcome value;
  success : gset string;
  failure : gset string;
  line : string;
  failed_text : string;
  timed_out_text : string
}.

Definition avatar_job (avatar_id : value) : job := {|
  fetch := GetAvatar avatar_id;
  status_of := avatar_status;
  success := avatar_terminal_ok;
  failure := avatar_terminal_bad;
  line := "[avatar:{}] status = {}";
  failed_text := "Avatar training failed: {}";
  timed_out_text := "Timed out waiting for avatar {} to be ready"
|}.

Definition video_job (task_id : value) : job := {|
  fetch := AwsResult task_id;
  status_of := video_status;
  success := video_terminal_ok;
  failure := video_terminal_bad;
  line := "[video:{}] status = {}";
  failed_text := "Video task failed: {}";
  timed_out_text := "Timed out waiting for video task {} to be ready"
|}.

(** A status that is neither a success nor a failure: the two membership
    tests both answer no. *)
Definition pending (J : job) (status : value) : Prop :=
  Py.in_ status (success J) = Ret false /\ Py.in_ status (failure J) = Ret false.

(** The world once an answer is in and its status is printed. *)
Definition fetched (J : job) (id : value) (latency : Z) (item status : value)
    (w : world) : world :=
  {| now := now w + latency;
     log := EvPrint (line J) [id; status]
            :: EvHttp (fetch J) latency (Reply item) :: log w |}.

(** The end of an iteration on a pending status: the deadline first, then
    the sleep. *)
Definition deadline_then_sleep (J : job) (id : value) (start timeout_s poll_s : Z)
    (w : world) : outcome (option value) * world :=
  if now w - start >? timeout_s
  then (Raise (TimeoutError (timed_out_text J) [id]), w)
  else if poll_s <? 0 then (Raise ValueError, w)
  else (Ret None, {| now := now w + poll_s; log := EvSleep poll_s :: log w |}).

(** What one iteration does with the status it read. *)
Definition verdict (J : job) (id item status : value) (start timeout_s poll_s : Z)
    (w : world) : outcome (option value) * world :=
  match status with
  | VStr s =>
      match classify (success J) (failure J) s with
      | Success => (Ret (Some item), w)
      | Failure => (Raise (RuntimeError (failed_text J) [item]), w)
      | Pending => deadline_then_sleep J id start timeout_s poll_s w
      end
  | VList _ | VDict _ => (Raise TypeError, w)
  | _ => deadline_then_sleep J id start timeout_s poll_s w
  end.

Section Poller.

Variable E : env.

(** One iteration of the Poller: fetch; read the status; print it; judge
    it. An exception of the fetch or of the reading ends the iteration
    before anything is printed. *)
Definition poller_body (J : job) (id : value) (start timeout_s poll_s : Z)
    : M (option value) :=
  fun w =>
    match remote E (log w) (fetch J) with
    | (latency, Failed) =>
        (Raise RequestsError,
         {| now := now w + latency;
            log := EvHttp (fetch J) latency Failed :: log w |})
    | (latency, Reply item) =>
        match status_of J item with
        | Ret status =>
            verdict J id item status start timeout_s poll_s
              (fetched J id latency item status w)
        | Raise e =>
            (Raise e,
             {| now := now w + latency;
                log := EvHttp (fetch J) latency (Reply item) :: log w |})
        | OutOfFuel =>
            (OutOfFuel,
             {| now := now w + latency;
                log := EvHttp (fetch J) latency (Reply item) :: log w |})
        end
    end.

(** The Poller: note the time, then iterate. *)
Definition poller (fuel : nat) (J : job) (id : value) (timeout_s poll_s : Z)
    : M value :=
  fun w => while_true fuel (poller_body J id (now w) timeout_s poll_s) w.

End Poller.

(** Counting in a log. *)
Fixpoint sleeps (l : list event) : nat :=
  match l with
  | [] => 0
  | EvSleep _ :: rest => S (sleeps rest)
  | _ :: rest => sleeps rest
  end.

Fixpoint fetches (rq : request -> bool) (l : list event) : nat :=
  match l with
  | [] => 0
  | EvHttp r _ _ :: rest => if rq r then S (fetches rq rest) else fetches rq rest
  | _ :: rest => fetches rq rest
  end.

(** The time a stretch of the log took on the mocked clock: the latencies
    of its calls and the lengths of its sleeps. *)
Fixpoint elapsed (l : list event) : Z :=
  match l with
  | [] => 0
  | EvHttp _ latency _ :: rest => latency + elapsed rest
  | EvSleep d :: rest => d + elapsed rest
  | _ :: rest => elapsed rest
  end.

(** The deadline checks of a wait, read off the stretch of the log it
    wrote, newest first: one per status line of the job, with the time
    elapsed since the stretch began when the line was printed. That is the
    time the loop compares with the time-out, the membership tests between
    the line and the comparison taking none. *)
Fixpoint checks (J : job) (l : list event) : list Z :=
  match l with
  | [] => []
  | EvPrint text _ :: rest =>
      if String.eqb text (line J) then elapsed rest :: checks J rest
      else checks J rest
  | _ :: rest => checks J rest
  end.

Definition is_get_avatar (r : request) : bool :=
  match r with GetAvatar _ => true | _ => false end.
Definition is_aws_result (r : request) : bool :=
  match r with AwsResult _ => true | _ => false end.
Definition is_video_generate (r : request) : bool :=
  match r with VideoGenerate _ _ _ => true | _ => false end.
Definition any_request (r : request) : bool := true.

(* ================================================================== *)
(** * Test data, mock remotes and the statements under test *)
(* ================================================================== *)

Definition jpg_url : string := "https://x/a.jpg".
Definition mp4_url : string := "https://x/b.mp4".

Definition two_url_payload : value :=
  VDict [("cover", VStr "see https://x/a.jpg");
         ("streams", VList [VDict [("src", VStr "https://x/b.mp4")]])].

Definition no_url_payload : value :=
  VDict [("code", VInt 0);
         ("msg", VStr "queued; see ftp://x/y.mp4 or http:// later");
         ("data", VList [VNone; VStr "HTTPS://X/Z.MP4"; VDict []])].

(** Every sleep in a stretch of the log lasted [poll_s]. *)
Definition sleeps_last (poll_s : Z) (evs : list event) : Prop :=
  Forall (fun ev => match ev with EvSleep d => d = poll_s | _ => True end) evs.

(** The remote answers every fetch of the job, whatever happened before,
    with a status that is neither a success nor a failure (a text outside
    both vocabularies, or a value that is no text and can be looked up in a
    set: [None], a number, a truth value), and the clock does not run
    backwards meanwhile. *)
Definition always_pending (E : env) (J : job) : Prop :=
  forall h, exists latency item status,
    remote E h (fetch J) = (latency, Reply item)
    /\ 0 <= latency
    /\ status_of J item = Ret status
    /\ pending J status.

Definition avatar_item (status : string) : value :=
  VDict [("code", VInt 0);
         ("data", VDict [("_id", VStr "av-1"); ("current_status", VStr status)])].

Definition video_item (status : string) : value :=
  VDict [("code", VInt 0);
         ("data", VList [VDict [("_id", VStr "task-1"); ("status", VStr status);
                                ("cover", VStr "https://cdn.test/v/cover.JPG");
                                ("result", VStr "https://cdn.test/v/out.MP4?sig=1")]])].

(** A remote whose jobs stay in one status for ever, each fetch taking
    [latency] seconds. *)
Definition steady_env (latency : Z) (status : string) : env := {|
  getenv := fun _ => None;
  remote := fun _ rq =>
    match rq with
    | GetAvatar _ => (latency, Reply (avatar_item status))
    | AwsResult _ => (latency, Reply (video_item status))
    | _ => (latency, Failed)
    end;
  stdin := fun _ => None;
  resolve := fun _ p => "/work/" ++ p
|}.

(** A remote that answers every status fetch with the given body. *)
Definition fixed_env (body : value) : env := {|
  getenv := fun _ => None;
  remote := fun _ _ => (1, Reply body);
  stdin := fun _ => None;
  resolve := fun _ p => "/work/" ++ p
|}.

Definition a_client : A2EClient :=
  {| token := "secret"; base := "https://video.a2e.ai"; timeout := 60 |}.

Definition fresh_world (t : Z) : world := {| now := t; log := [] |}.

(** C4 as the specification words it, for the avatar job: whenever every
    fetch reports a pending status, the run sleeps and fetches again at
    least once and ends in the time-out error. *)
Definition pending_job_always_retries : Prop :=
  forall (E : env) (self : A2EClient) (id : value) (timeout_s poll_s : Z) (w : world),
    always_pending E (avatar_job id) ->
    exists (n : nat) w' evs,
      (forall fuel, (n <= fuel)%nat ->
         wait_until_avatar_ready E fuel self id timeout_s poll_s w
         = (Raise (TimeoutError "Timed out waiting for avatar {} to be ready" [id]),
            w'))
      /\ log w' = (evs ++ log w)%list
      /\ (1 <= sleeps evs)%nat
      /\ (2 <= fetches any_request evs)%nat.

(** The answers to a video fetch that lack the expected shape, with the
    exception Python raises on each: no [data] or a null one (subscript of
    [None]), an empty list (no index 0), a first element without the key
    [status], a first element that is no dict. *)
Inductive malformed_video : list (string * value) -> exn -> Prop :=
| data_absent fields :
    Py.lookup "data" fields = None -> malformed_video fields TypeError
| data_null fields :
    Py.lookup "data" fields = Some VNone -> malformed_video fields TypeError
| data_empty fields :
    Py.lookup "data" fields = Some (VList []) -> malformed_video fields IndexError
| status_absent fields first rest :
    Py.lookup "data" fields = Some (VList (VDict first :: rest)) ->
    Py.lookup "status" first = None ->
    malformed_video fields KeyError
| first_no_dict fields first rest :
    Py.lookup "data" fields = Some (VList (first :: rest)) ->
    Py.is_dict first = false ->
    malformed_video fields TypeError.

(** The answers to an avatar fetch without a status: no [data], a falsy
    one, or a [data] dict without the key [current_status]. *)
Inductive avatar_status_missing : list (string * value) -> Prop :=
| avatar_data_absent fields :
    Py.lookup "data" fields = None -> avatar_status_missing fields
| avatar_data_falsy fields data :
    Py.lookup "data" fields = Some data -> Py.truthy data = false ->
    avatar_status_missing fields
| avatar_status_absent fields data :
    Py.lookup "data" fields = Some (VDict data) ->
    Py.lookup "current_status" data = None ->
    avatar_status_missing fields.

Definition no_data_answer : list (string * value) :=
  [("code", VInt 0); ("msg", VStr "queued")].

Definition scenario_statuses : list string := ["training"; "training"; "ready"].

Definition envelope (data : value) : value :=
  VDict [("code", VInt 0); ("data", data)].

(** The mock remote of the scenario: every call is answered after one
    second with a success envelope; the avatar goes through the statuses of
    [scenario_statuses], one per fetch, and stays ready afterwards. The
    answers to the speech synthesis and to the fetch of the video result are
    left open. *)
Definition scenario_env (tts result : value) : env := {|
  getenv := fun key => if String.eqb key "A2E_API_TOKEN" then Some "secret" else None;
  remote := fun h rq =>
    match rq with
    | Text2Image _ _ _ _ =>
        (1, Reply (envelope (VDict [("image_urls",
                                     VList [VStr "https://cdn.test/img/face.png"])])))
    | Download _ _ => (1, Reply VNone)
    | StartTraining _ _ _ => (1, Reply (envelope (VDict [("_id", VStr "av-1")])))
    | GetAvatar _ =>
        (1, Reply (avatar_item
                     (List.nth (fetches is_get_avatar h) scenario_statuses "ready")))
    | ContinueTraining _ => (1, Reply (envelope VNone))
    | SendTTS _ _ => (1, Reply tts)
    | CharacterList _ =>
        (1, Reply (envelope (VList [VDict [("_id", VStr "anchor-1")]])))
    | VideoGenerate _ _ _ => (1, Reply (envelope (VDict [("_id", VStr "task-1")])))
    | AwsResult _ => (1, Reply result)
    end;
  stdin := fun _ => Some " Yes ";
  resolve := fun _ p => "/work/" ++ p
|}.

Definition tts_answer : value := envelope (VStr "https://cdn.test/a/speech.mp3").

(** The [data] field of an answer, [None] when the answer is no dict or
    has no such field. *)
Definition direct_data (tts : value) : value :=
  match tts with
  | VDict fields => match Py.lookup "data" fields with Some d => d | None => VNone end
  | _ => VNone
  end.

Definition tts_failure : exn :=
  RuntimeError
    "Could not extract audioSrc from TTS response; inspect printed JSON and adjust parsing."
    [].

Definition silent_tts_answer : value := envelope (VStr "").

(** An answer of the speech synthesis with a null [data] and the audio
    named in a message, after another link. *)
Definition tts_answer_in_words : value :=
  VDict [("code", VInt 0); ("data", VNone);
         ("msg", VStr "page https://cdn.test/a/player.html audio https://cdn.test/a/speech.MP3?sig=1")].

(** The events since the latest request of a kind (the whole log when
    there is none). *)
Fixpoint since (p : request -> bool) (l : list event) : list event :=
  match l with
  | [] => []
  | EvHttp rq latency rp :: rest =>
      if p rq then [] else EvHttp rq latency rp :: since p rest
  | ev :: rest => ev :: since p rest
  end.

(* ================================================================== *)
(** * Further statements and mock remotes *)
(* ================================================================== *)

(** A text ends where it stands in [s]: nothing follows, or what follows
    begins with a character the pattern does not admit. *)
Definition stops_match (post : string) : Prop :=
  post = "" \/ exists c rest, post = String c rest /\ Re.url_char c = false.

(** An event a Poller may cause: the fetch of its job, the status line with
    the job's id, or a sleep of the poll interval. *)
Definition own_event (J : job) (id : value) (poll_s : Z) (ev : event) : Prop :=
  match ev with
  | EvHttp rq _ _ => rq = fetch J
  | EvPrint text args => text = line J /\ exists status, args = [id; status]
  | EvSleep d => d = poll_s
  | _ => False
  end.

(** No answer to the request comes back before it was sent. *)
Definition never_early (E : env) (rq : request) : Prop :=
  forall h, 0 <= fst (remote E h rq).

(** A remote that answers by the request alone, after one second; the
    token, and the line typed at the prompt, are given. *)
Definition scripted_env (secret typed : option string) (answer : request -> reply)
    : env := {|
  getenv := fun key => if String.eqb key "A2E_API_TOKEN" then secret else None;
  remote := fun _ rq => (1, answer rq);
  stdin := fun _ => typed;
  resolve := fun _ p => "/work/" ++ p
|}.

(** Answers with which a run goes through: the avatar is ready at once. *)
Definition happy_answer (rq : request) : reply :=
  match rq with
  | Text2Image _ _ _ _ =>
      Reply (envelope (VDict [("image_urls",
                               VList [VStr "https://cdn.test/img/face.png"])]))
  | Download _ _ => Reply VNone
  | StartTraining _ _ _ => Reply (envelope (VDict [("_id", VStr "av-1")]))
  | GetAvatar _ => Reply (avatar_item "ready")
  | ContinueTraining _ => Reply (envelope VNone)
  | SendTTS _ _ => Reply tts_answer
  | CharacterList _ => Reply (envelope (VList [VDict [("_id", VStr "anchor-1")]]))
  | VideoGenerate _ _ _ => Reply (envelope (VDict [("_id", VStr "task-1")]))
  | AwsResult _ => Reply (video_item "completed")
  end.

(** The answers on which the avatar loop cannot read a status: an answer
    that is no dict has no [get], and neither has a [data] that is truthy
    but no dict (a list, a text, a number). *)
Inductive avatar_answer_unusable : value -> Prop :=
| answer_no_dict item :
    Py.is_dict item = false -> avatar_answer_unusable item
| data_no_dict fields data :
    Py.lookup "data" fields = Some data ->
    Py.truthy data = true -> Py.is_dict data = false ->
    avatar_answer_unusable (VDict fields).

(** The answers to the image generation that hold no picture: no [data] or
    a falsy one, no [image_urls] in it or a falsy one. *)
Inductive no_image_urls : list (string * value) -> Prop :=
| image_data_absent fields :
    Py.lookup "data" fields = None -> no_image_urls fields
| image_data_falsy fields data :
    Py.lookup "data" fields = Some data -> Py.truthy data = false ->
    no_image_urls fields
| image_urls_absent fields data :
    Py.lookup "data" fields = Some (VDict data) ->
    Py.lookup "image_urls" data = None ->
    no_image_urls fields
| image_urls_falsy fields data urls :
    Py.lookup "data" fields = Some (VDict data) ->
    Py.lookup "image_urls" data = Some urls -> Py.truthy urls = false ->
    no_image_urls fields.

(** A field of a dict as [get] reads it. *)
Definition field (key : string) (fields : list (string * value)) : value :=
  match Py.lookup key fields with Some v => v | None => VNone end.

(** The code of an answer stands for success at the client: [0] or none. *)
Definition client_accepts (code : value) : bool := Py.eq_zero code || Py.is_none code.

(** A remote like [happy_answer] but for one kind of request. *)
Definition answer_but (p : request -> bool) (rp : reply) (rq : request) : reply :=
  if p rq then rp else happy_answer rq.

Definition is_continue_training (r : request) : bool :=
  match r with ContinueTraining _ => true | _ => false end.
Definition is_text2image (r : request) : bool :=
  match r with Text2Image _ _ _ _ => true | _ => false end.
Definition is_start_training (r : request) : bool :=
  match r with StartTraining _ _ _ => true | _ => false end.
Definition is_character_list (r : request) : bool :=
  match r with CharacterList _ => true | _ => false end.
Definition is_download (r : request) : bool :=
  match r with Download _ _ => true | _ => false end.

(** The values a set cannot hold or be asked for: lists and dicts. *)
Definition unhashable (v : value) : bool :=
  match v with VList _ | VDict _ => true | _ => false end.

Definition is_text (v : value) : bool :=
  match v with VStr _ => true | _ => false end.

(** [c in s], for a character [c]. *)
Fixpoint has_char (c : ascii) (s : string) : bool :=
  match s with
  | EmptyString => false
  | String d r => Ascii.eqb d c || has_char c r
  end.

(** The file the picture of a URL is saved to: [avatar] and the suffix of
    the URL, [.jpg] when the URL has none. *)
Definition picture_file (url : string) : string :=
  "avatar" ++ (if String.eqb (Pathlib.suffix url) "" then ".jpg"
               else Pathlib.suffix url).

(** The end of step 6 of the driver, from the check of the answer to the
    video generation on (the lines of [run_pipeline] after that answer is
    printed). *)
Definition after_generation (E : env) (client : A2EClient) (vid : value) : M unit :=
  code <- lift (Py.get vid "code") ;;
  if negb (Py.eq_zero code)
  then raise (RuntimeError "Video generation failed; see response above." [])
  else
    data <- lift (Py.get vid "data") ;;
    task_id <- lift (Py.get (Py.or_ data (VDict [])) "_id") ;;
    if negb (Py.truthy task_id)
    then raise (RuntimeError "No task _id returned from video generation." [])
    else
      print "video task_id = {}" [task_id] ;;;
      result <- video_result E client task_id ;;
      _print_json "video awsResult response" result ;;;
      match _first_url_from result video_exts with
      | Some video_url => print "✅ Best-guess video URL: {}" [VStr video_url]
      | None =>
          print "ℹ️ Could not auto-detect a direct video URL. Inspect the printed JSON above for downloadable links." []
      end.

(** The last line the driver prints, by what the extractor found. *)
Definition closing_line (found : option string) : event :=
  match found with
  | Some video_url => EvPrint "✅ Best-guess video URL: {}" [VStr video_url]
  | None =>
      EvPrint "ℹ️ Could not auto-detect a direct video URL. Inspect the printed JSON above for downloadable links." []
  end.

Definition listed_status_answer : value :=
  envelope (VDict [("current_status", VList [VStr "ready"])]).

Definition numbered_status_answer : value :=
  envelope (VList [VDict [("status", VInt 2)]]).

Definition listed_data_answer : value :=
  envelope (VList [VDict [("current_status", VStr "ready")]]).

Definition codeless_answer : value := VDict [("data", VDict [("_id", VStr "av-1")])].

Definition refusal : value := VDict [("code", VInt 1001); ("msg", VStr "no credit")].

Definition failed_result : value :=
  envelope (VList [VDict [("status", VStr "failed"); ("error", VStr "render crashed")]]).

(* ================================================================== *)
(** * Lemmas on strings and on the pattern *)
(* ================================================================== *)

Example findall_two :
  Re.findall "see http://a/b.mp4?x=1 and 'https://c/d.jpg' httpx://e"
  = ["http://a/b.mp4?x=1"; "https://c/d.jpg"].
Proof. reflexivity. Qed.

Example findall_nested : Re.findall "http://http://x" = ["http://http://x"].
Proof. reflexivity. Qed.

Lemma append_nil_r (s : string) : s ++ "" = s.
Proof. induction s as [|c s IH]; simpl; [reflexivity | now rewrite IH]. Qed.

Lemma append_assoc (a b c : string) : (a ++ b) ++ c = a ++ (b ++ c).
Proof. induction a as [|x a IH]; simpl; [reflexivity | now rewrite IH]. Qed.

Lemma endswith_spec (s suf : string) :
  Str.endswith s suf = true <-> exists pre, s = pre ++ suf.
Proof.
  induction s as [|c s IH]; cbn [Str.endswith].
  - rewrite orb_false_r, String.eqb_eq. split.
    + intros <-. now exists "".
    + intros [[|x pre] H]; simpl in H; [assumption | discriminate].
  - rewrite orb_true_iff, String.eqb_eq, IH. split.
    + intros [<- | [pre ->]]; [now exists "" | now exists (String c pre)].
    + intros [[|x pre] H]; simpl in H; [now left | right].
      injection H as _ ->. now exists pre.
Qed.

Lemma lower_char_query (c : ascii) :
  Ascii.eqb (Str.lower_char c) "?" = Ascii.eqb c "?".
Proof. destruct c as [[] [] [] [] [] [] [] []]; reflexivity. Qed.

Lemma lower_before_query (u : string) :
  Str.before_query (Str.lower u) = Str.lower (Str.before_query u).
Proof.
  induction u as [|c u IH]; simpl; [reflexivity |].
  rewrite lower_char_query. destruct (Ascii.eqb c "?"); simpl; [reflexivity |].
  now rewrite IH.
Qed.

Lemma url_has_ext_spec (ext u : string) :
  url_has_ext ext u = true <-> path_ends_as_written u ext.
Proof.
  unfold url_has_ext, path_ends_as_written.
  now rewrite lower_before_query, endswith_spec.
Qed.

Lemma prefix_split (p s : string) :
  String.prefix p s = true ->
  s = p ++ String.substring (String.length p) (String.length s - String.length p) s.
Proof.
  revert s. induction p as [|c p IH]; intros s H.
  - simpl. rewrite Nat.sub_0_r. clear H.
    induction s as [|x s IHs]; simpl; [reflexivity |].
    destruct s; simpl in *; congruence.
  - destruct s as [|x s]; simpl in H; [discriminate |].
    destruct (ascii_dec c x) as [<- | ]; [| discriminate].
    simpl. f_equal. now apply IH.
Qed.

Lemma take_url_chars_split (s : string) :
  exists rest,
    s = Re.take_url_chars s ++ rest
    /\ Forall (fun c => Re.url_char c = true)
         (list_ascii_of_string (Re.take_url_chars s)).
Proof.
  induction s as [|c s (rest & Hs & Hall)]; simpl.
  - exists "". split; [reflexivity | constructor].
  - destruct (Re.url_char c) eqn:Hc; simpl.
    + exists rest. split; [now rewrite <- Hs | now constructor].
    + exists (String c s). split; [reflexivity | constructor].
Qed.

(** A match found at the head of a text is a URL-shaped prefix of it. *)
Lemma match_here_shape (s m : string) :
  Re.match_here s = Some m -> url_shaped m /\ exists post, s = m ++ post.
Proof.
  unfold Re.match_here, Re.after_scheme. intros H.
  assert (Hgen : forall scheme,
             (scheme = "http://" \/ scheme = "https://") ->
             String.prefix scheme s = true ->
             match Re.take_url_chars
                     (String.substring (String.length scheme)
                        (String.length s - String.length scheme) s) with
             | "" => None
             | body => Some (scheme ++ body)
             end = Some m ->
             url_shaped m /\ exists post, s = m ++ post).
  { clear H. intros scheme Hscheme Hp Hm. apply prefix_split in Hp.
    set (tail := String.substring (String.length scheme) _ s) in *.
    destruct (take_url_chars_split tail) as (rest & Htail & Hall).
    destruct (Re.take_url_chars tail) as [|c body] eqn:Hb; [discriminate |].
    injection Hm as <-. split.
    - exists (String c body). split; [| split; [discriminate | assumption]].
      destruct Hscheme as [-> | ->]; auto.
    - exists rest. now rewrite append_assoc, <- Htail. }
  destruct (String.prefix "https://" s) eqn:Hs.
  - apply (Hgen "https://"); auto.
  - destruct (String.prefix "http://" s) eqn:Hp; [| discriminate].
    apply (Hgen "http://"); auto.
Qed.

Lemma scan_no_match (s : string) :
  (forall pre suf, s = pre ++ suf -> Re.match_here suf = None) ->
  forall skip, Re.scan skip s = [].
Proof.
  induction s as [|c s IH]; intros Hnone skip; simpl; [reflexivity |].
  assert (Htail : forall pre suf, s = pre ++ suf -> Re.match_here suf = None).
  { intros pre suf ->. apply (Hnone (String c pre)). reflexivity. }
  destruct skip as [|k]; [| now apply IH].
  rewrite (Hnone "" (String c s) eq_refl). now apply IH.
Qed.

Lemma findall_no_url (s : string) : ~ has_url s -> Re.findall s = [].
Proof.
  intros Hno. apply scan_no_match. intros pre suf -> .
  destruct (Re.match_here suf) as [m|] eqn:Hm; [| reflexivity].
  exfalso. apply Hno. apply match_here_shape in Hm as [Hshape [post ->]].
  now exists pre, m, post.
Qed.

Lemma substring_all (s : string) : String.substring 0 (String.length s) s = s.
Proof. induction s as [|c s IH]; simpl; [reflexivity | now rewrite IH]. Qed.

Lemma take_url_chars_nonempty (body post : string) :
  body <> "" ->
  Forall (fun c => Re.url_char c = true) (list_ascii_of_string body) ->
  Re.take_url_chars (body ++ post) <> "".
Proof.
  destruct body as [|c body]; [congruence |]. intros _ Hall.
  simpl in *. inversion Hall as [|? ? Hc _]; subst. now rewrite Hc.
Qed.

(** A text that begins with a URL-shaped text has a match at its head. *)
Lemma match_here_complete (m post : string) :
  url_shaped m -> Re.match_here (m ++ post) <> None.
Proof.
  intros (body & Hm & Hne & Hall).
  pose proof (take_url_chars_nonempty body post Hne Hall) as Htake.
  unfold Re.match_here, Re.after_scheme.
  assert (Hnil : String.prefix "" (body ++ post) = true)
    by (now destruct (body ++ post)).
  destruct Hm as [-> | ->]; simpl; rewrite Nat.sub_0_r, substring_all, Hnil;
    destruct (Re.take_url_chars (body ++ post)); congruence.
Qed.

(** [findall] finds something exactly in the texts that contain a
    URL-shaped substring. *)
Lemma findall_complete (s : string) : has_url s -> Re.findall s <> [].
Proof.
  intros (pre & m & post & -> & Hshape). unfold Re.findall.
  induction pre as [|c pre IH].
  - simpl. pose proof (match_here_complete m post Hshape) as Hm.
    destruct (m ++ post) as [|x r] eqn:Hmp.
    + exfalso. now apply Hm.
    + simpl. destruct (Re.match_here (String x r)); [discriminate | contradiction].
  - simpl. destruct (Re.match_here _); [discriminate | exact IH].
Qed.

Lemma findall_empty_iff (s : string) : Re.findall s = [] <-> ~ has_url s.
Proof.
  split; [| apply findall_no_url].
  intros Hempty Hurl. now apply (findall_complete s Hurl).
Qed.

(** Induction on values, through their lists of items. *)
Lemma value_ind_nested (P : value -> Prop) :
  P VNone ->
  (forall b, P (VBool b)) ->
  (forall n, P (VInt n)) ->
  (forall f, P (VFloat f)) ->
  (forall s, P (VStr s)) ->
  (forall items, Forall P items -> P (VList items)) ->
  (forall items, Forall (fun kv => P (snd kv)) items -> P (VDict items)) ->
  forall v, P v.
Proof.
  intros HNone HBool HInt HFloat HStr HList HDict.
  fix IH 1.
  intros [ | b | n | f | s | items | items ];
    [ apply HNone | apply HBool | apply HInt | apply HFloat | apply HStr | | ].
  - apply HList.
    induction items as [|v items IHi]; constructor; [apply IH | exact IHi].
  - apply HDict.
    induction items as [|[k v] items IHi]; constructor; [apply IH | exact IHi].
Qed.

(** Every URL the walk collects was found in some string leaf. *)
Lemma collect_from_leaf (obj : value) (u : string) :
  In u (collect obj) -> exists s, leaf obj s /\ In u (Re.findall s).
Proof.
  revert u. induction obj as [ | b | n | f | s | items IH | items IH ]
    using value_ind_nested; intros u Hin; simpl in Hin; try contradiction.
  - exists s. split; [constructor | assumption].
  - induction IH as [|v items Hv _ IHitems]; [contradiction |].
    apply in_app_or in Hin as [Hin | Hin].
    + destruct (Hv _ Hin) as (s & Hleaf & Hs). exists s. split; [| assumption].
      apply (leaf_list _ v); [now left | assumption].
    + destruct (IHitems Hin) as (s & Hleaf & Hs). exists s. split; [| assumption].
      inversion Hleaf; subst. econstructor; [right |]; eassumption.
  - induction IH as [|[k v] items Hv _ IHitems]; [contradiction |].
    apply in_app_or in Hin as [Hin | Hin].
    + destruct (Hv _ Hin) as (s & Hleaf & Hs). exists s. split; [| assumption].
      apply (leaf_dict _ k v); [now left | assumption].
    + destruct (IHitems Hin) as (s & Hleaf & Hs). exists s. split; [| assumption].
      inversion Hleaf; subst. econstructor; [right |]; eassumption.
Qed.

(* ================================================================== *)
(** * The extractor *)
(* ================================================================== *)

Lemma path_ends_ci_decide (u ext : string) :
  path_ends_ci u ext
  <-> Str.endswith (Str.lower (Str.before_query u)) (Str.lower ext) = true.
Proof. unfold path_ends_ci. now rewrite endswith_spec. Qed.

Lemma find_first (f : string -> bool) (P : string -> Prop) (urls : list string) :
  (forall u, f u = true <-> P u) ->
  match List.find f urls with
  | Some u => first_such P urls u
  | None => forall v, In v urls -> ~ P v
  end.
Proof.
  intros Hf. induction urls as [|x urls IH]; simpl.
  - intros v [].
  - destruct (f x) eqn:Hx.
    + exists [], urls. split; [reflexivity |]. split; [now apply Hf | constructor].
    + assert (Hnx : ~ P x) by (rewrite <- Hf, Hx; discriminate).
      destruct (List.find f urls) as [u|].
      * destruct IH as (before & after & -> & Hu & Hbefore).
        exists (x :: before), after. split; [reflexivity |].
        split; [assumption | now constructor].
      * intros v [<- | Hv]; [assumption | now apply IH].
Qed.

(** The two loops follow the selection rule, with the extension compared as
    it is written. *)
Lemma prefer_selection (exts urls : list string) :
  match prefer exts urls with
  | Some u =>
      exists tried ext rest,
        exts = (tried ++ ext :: rest)%list
        /\ (forall e v, In e tried -> In v urls -> ~ path_ends_as_written v e)
        /\ first_such (fun v => path_ends_as_written v ext) urls u
  | None => forall e v, In e exts -> In v urls -> ~ path_ends_as_written v e
  end.
Proof.
  induction exts as [|ext exts IH]; simpl.
  - intros e v [].
  - pose proof (find_first (url_has_ext ext)
                  (fun v => path_ends_as_written v ext) urls
                  (url_has_ext_spec ext)) as Hfind.
    destruct (List.find (url_has_ext ext) urls) as [u|].
    + exists [], ext, exts. split; [reflexivity |]. split; [intros e v [] | assumption].
    + destruct (prefer exts urls) as [u|].
      * destruct IH as (tried & ext' & rest & -> & Htried & Hfirst).
        exists (ext :: tried), ext', rest. split; [reflexivity |].
        split; [| assumption].
        intros e v [<- | He] Hv; [now apply Hfind | now apply Htried].
      * intros e v [<- | He] Hv; [now apply Hfind | now apply IH].
Qed.

Lemma first_url_selection (obj : value) (exts : list string) :
  selection path_ends_as_written exts (collect obj) (_first_url_from obj exts).
Proof.
  unfold _first_url_from, selection.
  pose proof (prefer_selection exts (collect obj)) as H.
  destruct (prefer exts (collect obj)) as [u|].
  - left. destruct H as (tried & ext & rest & H1 & H2 & H3).
    now exists tried, ext, rest, u.
  - right. split; [assumption | reflexivity].
Qed.

Lemma first_such_iff (P Q : string -> Prop) (urls : list string) (u : string) :
  (forall v, P v <-> Q v) -> first_such P urls u -> first_such Q urls u.
Proof.
  intros HPQ (before & after & -> & Hu & Hbefore).
  exists before, after. split; [reflexivity |]. split; [now apply HPQ |].
  eapply List.Forall_impl; [| exact Hbefore]. intros v Hv HQ. now apply Hv, HPQ.
Qed.

Lemma selection_iff (ends ends' : string -> string -> Prop)
    (exts urls : list string) (r : option string) :
  (forall e v, In e exts -> ends v e <-> ends' v e) ->
  selection ends exts urls r -> selection ends' exts urls r.
Proof.
  intros Heq [(tried & ext & rest & u & -> & Htried & Hfirst & ->) | [Hnone ->]].
  - left. exists tried, ext, rest, u. split; [reflexivity |].
    split; [| split; [| reflexivity]].
    + intros e v He Hv Hends. apply (Htried e v He Hv).
      apply Heq; [apply in_or_app; now left | assumption].
    + eapply first_such_iff; [| exact Hfirst].
      intros v. apply Heq. apply in_or_app. right. now left.
  - right. split; [| reflexivity].
    intros e v He Hv Hends. apply (Hnone e v He Hv). now apply Heq.
Qed.

Lemma find_unique (f : string -> bool) (urls : list string) (u : string) :
  In u urls -> f u = true -> (forall v, In v urls -> f v = true -> v = u) ->
  List.find f urls = Some u.
Proof.
  induction urls as [|x urls IH]; simpl; intros Hin Hu Huniq; [contradiction |].
  destruct (f x) eqn:Hx.
  - f_equal. apply Huniq; [now left | assumption].
  - destruct Hin as [-> | Hin]; [congruence |].
    apply IH; auto.
Qed.

(** C5 (as amended). For every value and every list of extensions that
    lower-casing leaves unchanged, the extractor follows the selection rule
    over the URLs collected depth first, with the comparison that ignores
    case: the first extension of the list that the path of some URL (the URL
    before its first question mark) ends with decides, the first URL ending
    with it is returned, and with no such extension the first URL found is
    returned. For every list of extensions whatever, the same rule holds
    with the comparison the code makes, between the lower-cased path of the
    URL and the extension as the caller wrote it. A payload whose URLs are
    https://x/a.jpg and https://x/b.mp4 gives the second for the order .mp4,
    .jpg and the first for the reversed order. *)
Theorem extractor_prefers_by_extension (obj : value) (exts : list string) :
  ((forall e, In e exts -> Str.lower e = e) ->
   selection path_ends_ci exts (collect obj) (_first_url_from obj exts))
  /\ selection path_ends_as_written exts (collect obj) (_first_url_from obj exts)
  /\ ((forall u, In u (collect obj) <-> u = jpg_url \/ u = mp4_url) ->
      _first_url_from obj [".mp4"; ".jpg"] = Some mp4_url
      /\ _first_url_from obj [".jpg"; ".mp4"] = Some jpg_url).
Proof.
  split; [| split; [apply first_url_selection |]].
  - intros Hlower. eapply selection_iff; [| apply first_url_selection].
    intros e v He. unfold path_ends_as_written, path_ends_ci.
    now rewrite (Hlower e He).
  - intros Hurls. unfold _first_url_from. simpl prefer.
    assert (Hmp4 : List.find (url_has_ext ".mp4") (collect obj) = Some mp4_url).
    { apply find_unique; [apply Hurls; now right | reflexivity |].
      intros v Hv Hext. apply Hurls in Hv as [-> | ->]; [discriminate | reflexivity]. }
    assert (Hjpg : List.find (url_has_ext ".jpg") (collect obj) = Some jpg_url).
    { apply find_unique; [apply Hurls; now left | reflexivity |].
      intros v Hv Hext. apply Hurls in Hv as [-> | ->]; [reflexivity | discriminate]. }
    now rewrite Hmp4, Hjpg.
Qed.

Lemma extractor_prefers_by_extension_witness :
  selection path_ends_ci [".mp4"; ".jpg"] (collect two_url_payload)
    (_first_url_from two_url_payload [".mp4"; ".jpg"])
  /\ selection path_ends_as_written [".mp4"; ".jpg"] (collect two_url_payload)
       (_first_url_from two_url_payload [".mp4"; ".jpg"])
  /\ _first_url_from two_url_payload [".mp4"; ".jpg"] = Some mp4_url
  /\ _first_url_from two_url_payload [".jpg"; ".mp4"] = Some jpg_url.
Proof.
  destruct (extractor_prefers_by_extension two_url_payload [".mp4"; ".jpg"])
    as (H1 & H2 & H3).
  split; [apply H1 |]. 2: split; [exact H2 |]; apply H3.
  - intros e [<- | [<- | []]]; reflexivity.
  - intros u. change (collect two_url_payload) with [jpg_url; mp4_url]. simpl.
    split; [intros [<- | [<- | []]]; auto | intros [-> | ->]; auto].
Defined.

(** C5 as the specification words it fails: an extension written in upper
    case matches no URL, although the URL https://x/b.mp4 ends with .MP4
    when case is ignored; the extractor falls back to the first URL. *)
Lemma extractor_upper_case_extension :
  _first_url_from (VList [VStr jpg_url; VStr mp4_url]) [".MP4"] = Some jpg_url
  /\ ~ selects_case_insensitively.
Proof.
  split; [reflexivity |]. intros Hclaim.
  specialize (Hclaim (VList [VStr jpg_url; VStr mp4_url]) [".MP4"]).
  change (collect (VList [VStr jpg_url; VStr mp4_url])) with [jpg_url; mp4_url] in Hclaim.
  change (_first_url_from _ _) with (Some jpg_url) in Hclaim.
  destruct Hclaim as [(tried & ext & rest & u & Hexts & _ & Hfirst & Hu) | [Hnone _]].
  - injection Hu as <-.
    destruct tried as [|e tried]; simpl in Hexts.
    + injection Hexts as <- _. destruct Hfirst as (_ & _ & _ & Hends & _).
      apply path_ends_ci_decide in Hends. discriminate.
    + injection Hexts as _ Hexts. destruct tried; discriminate.
  - apply (Hnone ".MP4" mp4_url); [now left | right; now left |].
    apply path_ends_ci_decide. reflexivity.
Qed.

(** C6. A value none of whose string leaves contains a substring matching
    the URL pattern makes the extractor answer with no URL ([None]), for any
    list of extensions; nothing is raised. *)
Theorem extractor_no_url_is_none (obj : value) (exts : list string) :
  (forall s, leaf obj s -> ~ has_url s) ->
  collect obj = [] /\ _first_url_from obj exts = None.
Proof.
  intros Hno.
  assert (Hempty : collect obj = []).
  { destruct (collect obj) as [|u urls] eqn:Hc; [reflexivity | exfalso].
    destruct (collect_from_leaf obj u) as (s & Hleaf & Hin).
    { rewrite Hc. now left. }
    rewrite (findall_no_url s (Hno s Hleaf)) in Hin. contradiction. }
  split; [assumption |].
  unfold _first_url_from. rewrite Hempty.
  induction exts as [|e exts IH]; simpl; [reflexivity | exact IH].
Qed.

Lemma extractor_no_url_is_none_witness :
  collect no_url_payload = [] /\ _first_url_from no_url_payload default_exts = None.
Proof.
  apply extractor_no_url_is_none. intros s Hleaf. apply findall_empty_iff.
  inversion Hleaf as [ | | items k v s' Hin Hv ]; subst.
  destruct Hin as [Hkv | [Hkv | [Hkv | []]]]; injection Hkv as <- <-.
  - inversion Hv.
  - inversion Hv; subst. reflexivity.
  - inversion Hv as [ | items v s' Hin' Hv' | ]; subst.
    destruct Hin' as [<- | [<- | [<- | []]]]; inversion Hv'; subst.
    + reflexivity.
    + contradiction.
Defined.

(* ================================================================== *)
(** * The two wait loops are the Poller *)
(* ================================================================== *)

Ltac unfold_effects :=
  unfold get_avatar, video_result in *;
  unfold bind, lift, ret, raise, print, emit, time_time, time_sleep, http in *.

Lemma avatar_body_is_poller E self id start timeout_s poll_s w :
  avatar_body E self id start timeout_s poll_s w
  = poller_body E (avatar_job id) id start timeout_s poll_s w.
Proof.
  unfold avatar_body, poller_body, avatar_job, avatar_status, and_then,
    verdict, fetched, deadline_then_sleep, classify, Py.in_.
  unfold_effects. cbn [fetch status_of success failure line failed_text timed_out_text].
  destruct (remote E (log w) (GetAvatar id)) as [latency [item|]]; [| reflexivity].
  destruct (Py.get item "data") as [data| |]; [| reflexivity | reflexivity].
  destruct (Py.get (Py.or_ data (VDict [])) "current_status") as [status| |];
    [| reflexivity | reflexivity].
  destruct status; cbn [now log]; try reflexivity;
    try (destruct (_ >? _); [reflexivity |]; destruct (_ <? _); reflexivity).
  destruct (bool_decide (s ∈ avatar_terminal_ok)); [reflexivity |].
  destruct (bool_decide (s ∈ avatar_terminal_bad)); [reflexivity |].
  cbn [now log].
  destruct (_ >? _); [reflexivity |]; destruct (_ <? _); reflexivity.
Qed.

Lemma video_body_is_poller E self id start timeout_s poll_s w :
  video_body E self id start timeout_s poll_s w
  = poller_body E (video_job id) id start timeout_s poll_s w.
Proof.
  unfold video_body, poller_body, video_job, video_status, and_then,
    verdict, fetched, deadline_then_sleep, classify, Py.in_.
  unfold_effects. cbn [fetch status_of success failure line failed_text timed_out_text].
  destruct (remote E (log w) (AwsResult id)) as [latency [item|]]; [| reflexivity].
  destruct (Py.get item "data") as [data| |]; [| reflexivity | reflexivity].
  destruct (Py.index0 data) as [first| |]; [| reflexivity | reflexivity].
  destruct (Py.item first "status") as [status| |]; [| reflexivity | reflexivity].
  destruct status; cbn [now log]; try reflexivity;
    try (destruct (_ >? _); [reflexivity |]; destruct (_ <? _); reflexivity).
  destruct (bool_decide (s ∈ video_terminal_ok)); [reflexivity |].
  destruct (bool_decide (s ∈ video_terminal_bad)); [reflexivity |].
  cbn [now log].
  destruct (_ >? _); [reflexivity |]; destruct (_ <? _); reflexivity.
Qed.

Lemma while_true_ext {A} (body body' : M (option A)) :
  (forall w, body w = body' w) ->
  forall fuel w, while_true fuel body w = while_true fuel body' w.
Proof.
  intros Hext. induction fuel as [|fuel IH]; intros w; [reflexivity |].
  simpl. unfold bind. rewrite Hext.
  destruct (body' w) as [[[a|]| |] w']; auto.
Qed.

Lemma wait_until_avatar_ready_is_poller E fuel self id timeout_s poll_s w :
  wait_until_avatar_ready E fuel self id timeout_s poll_s w
  = poller E fuel (avatar_job id) id timeout_s poll_s w.
Proof.
  unfold wait_until_avatar_ready, poller, bind, time_time.
  apply while_true_ext. intros w'. apply avatar_body_is_poller.
Qed.

Lemma wait_until_video_ready_is_poller E fuel self id timeout_s poll_s w :
  wait_until_video_ready E fuel self id timeout_s poll_s w
  = poller E fuel (video_job id) id timeout_s poll_s w.
Proof.
  unfold wait_until_video_ready, poller, bind, time_time.
  apply while_true_ext. intros w'. apply video_body_is_poller.
Qed.

(* ================================================================== *)
(** * The Poller *)
(* ================================================================== *)

Lemma sleeps_app (a b : list event) : sleeps (a ++ b) = (sleeps a + sleeps b)%nat.
Proof.
  induction a as [|ev a IH]; simpl; [reflexivity |].
  destruct ev; simpl; now rewrite IH.
Qed.

Lemma elapsed_app (a b : list event) : elapsed (a ++ b) = elapsed a + elapsed b.
Proof.
  induction a as [|ev a IH]; simpl; [reflexivity |].
  destruct ev; simpl; rewrite ?IH; lia.
Qed.

Lemma checks_app (J : job) (a b : list event) :
  checks J (a ++ b)
  = (List.map (fun t => t + elapsed b) (checks J a) ++ checks J b)%list.
Proof.
  induction a as [|ev a IH]; simpl; [reflexivity |].
  destruct ev; simpl; try exact IH.
  destruct (String.eqb text (line J)); simpl; [| exact IH].
  now rewrite IH, elapsed_app.
Qed.

Lemma fetches_app (p : request -> bool) (a b : list event) :
  fetches p (a ++ b) = (fetches p a + fetches p b)%nat.
Proof.
  induction a as [|ev a IH]; simpl; [reflexivity |].
  destruct ev; simpl; try destruct (p rq); simpl; now rewrite IH.
Qed.

Lemma while_true_step {A} (fuel : nat) (body : M (option A)) (w : world) :
  while_true (S fuel) body w
  = match body w with
    | (Ret (Some a), w') => (Ret a, w')
    | (Ret None, w') => while_true fuel body w'
    | (Raise e, w') => (Raise e, w')
    | (OutOfFuel, w') => (OutOfFuel, w')
    end.
Proof. simpl. unfold bind. destruct (body w) as [[[a|]| |] w']; reflexivity. Qed.

Section PollerFacts.

Variable E : env.
Variable J : job.
Variables (id : value) (start timeout_s poll_s : Z).

Let body := poller_body E J id start timeout_s poll_s.

(** One iteration whose fetch is answered and whose status is read. *)
Lemma poller_body_fetched (w : world) latency item status :
  remote E (log w) (fetch J) = (latency, Reply item) ->
  status_of J item = Ret status ->
  body w = verdict J id item status start timeout_s poll_s
             (fetched J id latency item status w).
Proof. intros Hr Hs. unfold body, poller_body. now rewrite Hr, Hs. Qed.

Lemma verdict_success (w : world) item s :
  s ∈ success J ->
  verdict J id item (VStr s) start timeout_s poll_s w = (Ret (Some item), w).
Proof.
  intros Hs. unfold verdict, classify. now rewrite bool_decide_eq_true_2.
Qed.

Lemma verdict_failure (w : world) item s :
  s ∉ success J -> s ∈ failure J ->
  verdict J id item (VStr s) start timeout_s poll_s w
  = (Raise (RuntimeError (failed_text J) [item]), w).
Proof.
  intros Hok Hbad. unfold verdict, classify.
  now rewrite bool_decide_eq_false_2, bool_decide_eq_true_2.
Qed.

Lemma verdict_pending (w : world) item status :
  pending J status ->
  verdict J id item status start timeout_s poll_s w
  = deadline_then_sleep J id start timeout_s poll_s w.
Proof.
  intros [Hok Hbad]. unfold verdict, classify.
  destruct status; try reflexivity; simpl in Hok, Hbad; try discriminate.
  injection Hok as ->. injection Hbad as ->. reflexivity.
Qed.

Lemma classify_pending (s : string) :
  classify (success J) (failure J) s = Pending <-> pending J (VStr s).
Proof.
  unfold classify, pending. simpl.
  destruct (bool_decide (s ∈ success J)), (bool_decide (s ∈ failure J));
    split; intros H; try discriminate; try reflexivity; try (now split);
    destruct H; discriminate.
Qed.

(** A run that ends in the time-out error read a pending status last, and
    found the deadline passed. *)
Lemma timeout_only_when_pending (fuel : nat) (w w' : world) text args :
  (forall item t a, status_of J item <> Raise (TimeoutError t a)) ->
  while_true fuel body w = (Raise (TimeoutError text args), w') ->
  exists older latency item status,
    log w' = EvPrint (line J) [id; status]
             :: EvHttp (fetch J) latency (Reply item) :: older
    /\ status_of J item = Ret status
    /\ pending J status
    /\ timeout_s < now w' - start
    /\ text = timed_out_text J /\ args = [id].
Proof.
  intros Hstatus. revert w. induction fuel as [|fuel IH]; intros w Hrun.
  - discriminate.
  - rewrite while_true_step in Hrun. unfold body at 1, poller_body in Hrun.
    destruct (remote E (log w) (fetch J)) as [latency [item|]];
      [| discriminate].
    destruct (status_of J item) as [status| e |] eqn:Hst;
      [| injection Hrun as -> _; now destruct (Hstatus item text args)
       | discriminate].
    assert (Hdeadline :
      match deadline_then_sleep J id start timeout_s poll_s
              (fetched J id latency item status w) with
      | (Ret (Some a), w1) => (Ret a, w1)
      | (Ret None, w1) => while_true fuel body w1
      | (Raise e, w1) => (Raise e, w1)
      | (OutOfFuel, w1) => (OutOfFuel, w1)
      end = (Raise (TimeoutError text args), w') ->
      pending J status ->
      exists older latency item status,
        log w' = EvPrint (line J) [id; status]
                 :: EvHttp (fetch J) latency (Reply item) :: older
        /\ status_of J item = Ret status
        /\ pending J status
        /\ timeout_s < now w' - start
        /\ text = timed_out_text J /\ args = [id]).
    { unfold deadline_then_sleep. intros Hd Hpending.
      destruct (_ >? _) eqn:Hgt.
      - injection Hd as <- <- <-. exists (log w), latency, item, status.
        split; [reflexivity |]. split; [assumption |]. split; [assumption |].
        split; [lia | split; reflexivity].
      - destruct (poll_s <? 0); [discriminate |]. now apply IH in Hd. }
    unfold verdict in Hrun.
    destruct status as [ | b | n | f | s | l | l ]; try discriminate;
      try (apply Hdeadline; [exact Hrun | now split]).
    destruct (classify (success J) (failure J) s) eqn:Hc; try discriminate.
    apply Hdeadline; [exact Hrun | now apply classify_pending].
Qed.

(** The stretch of the log one iteration on a pending status writes
    when the deadline has passed, and the check it holds. *)
Lemma checks_last_round (latency : Z) (item status : value) :
  checks J [EvPrint (line J) [id; status]; EvHttp (fetch J) latency (Reply item)]
  = [latency + 0].
Proof. simpl. now rewrite String.eqb_refl. Qed.

(** While the status stays pending and the interval is positive, the
    loop ends in the time-out error, however late the deadline: after
    [n] more sleeps at the latest when less than [n] intervals are left.
    The error comes with the first check that finds the deadline passed:
    every check before found it not passed. *)
Lemma pending_loop_times_out :
  0 < poll_s -> always_pending E J ->
  forall (n : nat) (w : world),
    timeout_s - (now w - start) < Z.of_nat n * poll_s ->
    exists w' evs late earlier,
      (forall fuel, (n < fuel)%nat ->
         while_true fuel body w
         = (Raise (TimeoutError (timed_out_text J) [id]), w'))
      /\ log w' = (evs ++ log w)%list
      /\ now w' = now w + late
      /\ checks J evs = late :: earlier
      /\ timeout_s < now w - start + late
      /\ Forall (fun t => now w - start + t <= timeout_s) earlier
      /\ length (checks J evs) = fetches any_request evs
      /\ fetches any_request evs = S (sleeps evs)
      /\ sleeps_last poll_s evs
      /\ (exists status,
            pending J status
            /\ List.head evs = Some (EvPrint (line J) [id; status]))
      /\ (now w + fst (remote E (log w) (fetch J)) - start <= timeout_s
          <-> (1 <= sleeps evs)%nat).
Proof.
  intros Hpoll Halways. induction n as [|n IH]; intros w Hleft;
    destruct (Halways (log w)) as (latency & item & status & Hr & Hlat & Hst & Hp);
    pose proof (poller_body_fetched w latency item status Hr Hst) as Hbody;
    rewrite (verdict_pending _ _ _ Hp) in Hbody;
    unfold deadline_then_sleep in Hbody; cbn [now log fetched] in Hbody.
  - assert (Hgt : (now w + latency - start >? timeout_s) = true) by lia.
    rewrite Hgt in Hbody.
    exists (fetched J id latency item status w),
      [EvPrint (line J) [id; status]; EvHttp (fetch J) latency (Reply item)],
      (latency + 0), [].
    rewrite checks_last_round, Hr. cbn [fst].
    split; [| split; [reflexivity | split; [simpl; lia | split; [reflexivity |
      split; [lia | split; [constructor | split; [reflexivity | split;
        [reflexivity | split; [repeat constructor | split;
          [now exists status | simpl; lia]]]]]]]]]].
    intros [|fuel] Hfuel; [lia |]. rewrite while_true_step. now rewrite Hbody.
  - destruct (now w + latency - start >? timeout_s) eqn:Hgt.
    + exists (fetched J id latency item status w),
        [EvPrint (line J) [id; status]; EvHttp (fetch J) latency (Reply item)],
        (latency + 0), [].
      rewrite checks_last_round, Hr. cbn [fst].
      split; [| split; [reflexivity | split; [simpl; lia | split; [reflexivity |
        split; [lia | split; [constructor | split; [reflexivity | split;
          [reflexivity | split; [repeat constructor | split;
            [now exists status | simpl; lia]]]]]]]]]].
      intros [|fuel] Hfuel; [lia |]. rewrite while_true_step. now rewrite Hbody.
    + assert (Hneg : (poll_s <? 0) = false) by lia. rewrite Hneg in Hbody.
      match type of Hbody with _ = (_, ?w2) => destruct (IH w2) as
          (w' & evs & late & earlier & Hrun & Hlog & Hnow & Hchecks & Hlate
           & Hearlier & Hlen & Hcount & Hsleeps & (last & Hlast & Hhead) & _) end.
      { cbn [now]. lia. }
      cbn [now log] in Hlog, Hnow, Hlate, Hearlier.
      set (round := [EvSleep poll_s; EvPrint (line J) [id; status];
                     EvHttp (fetch J) latency (Reply item)]).
      assert (Hround : checks J round = [latency + 0])
        by (simpl; now rewrite String.eqb_refl).
      assert (Hel : elapsed round = poll_s + (latency + 0)) by reflexivity.
      exists w', (evs ++ round)%list, (late + elapsed round),
        (List.map (fun t => t + elapsed round) earlier ++ [latency + 0])%list.
      rewrite checks_app, Hchecks, Hround, fetches_app, sleeps_app, Hr.
      cbn [fst List.map app]. rewrite Hel.
      split; [| split; [| split; [lia | split; [reflexivity | split; [lia |
        split; [| split; [| split; [| split; [| split]]]]]]]]].
      * intros [|fuel] Hfuel; [lia |]. rewrite while_true_step, Hbody.
        apply Hrun. lia.
      * rewrite Hlog. unfold round. now rewrite <- app_assoc.
      * apply Forall_app. split.
        -- apply List.Forall_map. eapply List.Forall_impl; [| exact Hearlier].
           cbv beta. intros t Ht. lia.
        -- constructor; [lia | constructor].
      * rewrite Hchecks in Hlen. simpl in Hlen |- *.
        rewrite length_app, length_map. simpl. lia.
      * rewrite Hcount. simpl. lia.
      * apply Forall_app. split; [assumption | repeat constructor].
      * exists last. split; [assumption |].
        destruct evs as [|ev evs]; [discriminate | exact Hhead].
      * simpl. lia.
Qed.

End PollerFacts.

Lemma intervals_left (x poll_s : Z) :
  0 < poll_s -> exists n : nat, x < Z.of_nat n * poll_s.
Proof.
  intros Hpoll. exists (Z.to_nat (x / poll_s + 1)).
  destruct (Z_lt_le_dec x 0) as [Hneg | Hpos].
  - assert (0 <= Z.of_nat (Z.to_nat (x / poll_s + 1)) * poll_s) by nia. lia.
  - assert (0 <= x / poll_s) by (apply Z.div_pos; lia).
    rewrite Z2Nat.id by lia.
    pose proof (Z.mul_succ_div_gt x poll_s Hpoll). lia.
Qed.

Section PollerRuns.

Variable E : env.
Variable J : job.
Variables (id : value) (timeout_s poll_s : Z).

Lemma poller_success (fuel : nat) (w : world) latency item s :
  remote E (log w) (fetch J) = (latency, Reply item) ->
  status_of J item = Ret (VStr s) ->
  s ∈ success J ->
  forall start,
    while_true (S fuel) (poller_body E J id start timeout_s poll_s) w
    = (Ret item, fetched J id latency item (VStr s) w).
Proof.
  intros Hr Hst Hs start. rewrite while_true_step.
  rewrite (poller_body_fetched E J id start timeout_s poll_s w _ _ _ Hr Hst).
  now rewrite verdict_success.
Qed.

Lemma poller_failure (fuel : nat) (w : world) latency item s :
  remote E (log w) (fetch J) = (latency, Reply item) ->
  status_of J item = Ret (VStr s) ->
  s ∉ success J -> s ∈ failure J ->
  forall start,
    while_true (S fuel) (poller_body E J id start timeout_s poll_s) w
    = (Raise (RuntimeError (failed_text J) [item]),
       fetched J id latency item (VStr s) w).
Proof.
  intros Hr Hst Hok Hbad start. rewrite while_true_step.
  rewrite (poller_body_fetched E J id start timeout_s poll_s w _ _ _ Hr Hst).
  now rewrite verdict_failure.
Qed.

Lemma poller_times_out (w : world) :
  0 < poll_s -> always_pending E J ->
  exists (n : nat) w' evs late earlier,
    (forall fuel, (n <= fuel)%nat ->
       poller E fuel J id timeout_s poll_s w
       = (Raise (TimeoutError (timed_out_text J) [id]), w'))
    /\ log w' = (evs ++ log w)%list
    /\ timeout_s < now w' - now w
    /\ checks J evs = late :: earlier
    /\ late = now w' - now w
    /\ Forall (fun t => t <= timeout_s) earlier
    /\ length (checks J evs) = fetches any_request evs
    /\ fetches any_request evs = S (sleeps evs)
    /\ sleeps_last poll_s evs
    /\ (exists status,
          pending J status
          /\ List.head evs = Some (EvPrint (line J) [id; status]))
    /\ (fst (remote E (log w) (fetch J)) <= timeout_s
        <-> (1 <= sleeps evs)%nat /\ (2 <= fetches any_request evs)%nat)
    /\ (timeout_s < fst (remote E (log w) (fetch J)) ->
        sleeps evs = 0%nat /\ fetches any_request evs = 1%nat).
Proof.
  intros Hpoll Halways.
  destruct (intervals_left (timeout_s - (now w - now w)) poll_s Hpoll) as [n Hn].
  destruct (pending_loop_times_out E J id (now w) timeout_s poll_s
              Hpoll Halways n w Hn)
    as (w' & evs & late & earlier & Hrun & Hlog & Hnow & Hchecks & Hlate
        & Hearlier & Hlen & Hcount & Hsleeps & Hhead & Hretry).
  exists (S n), w', evs, late, earlier.
  split; [| split; [assumption | split; [lia | split; [assumption | split;
    [lia | split; [| split; [assumption | split; [assumption | split;
      [assumption | split; [assumption | split]]]]]]]]]].
  - intros fuel Hfuel. unfold poller. apply Hrun. lia.
  - eapply List.Forall_impl; [| exact Hearlier]. cbv beta. intros t Ht. lia.
  - split.
    + intros Hfirst. assert (1 <= sleeps evs)%nat by (apply Hretry; lia). lia.
    + intros [Hs _]. apply Hretry in Hs. lia.
  - intros Hslow.
    assert (~ (1 <= sleeps evs)%nat) by (intros Hs; apply Hretry in Hs; lia).
    lia.
Qed.

(** The log only grows, and an iteration begins with its fetch. *)
Lemma poller_body_log (start : Z) (w : world) :
  exists evs,
    log (snd (poller_body E J id start timeout_s poll_s w))
    = (evs ++ EvHttp (fetch J) (fst (remote E (log w) (fetch J)))
                (snd (remote E (log w) (fetch J))) :: log w)%list.
Proof.
  unfold poller_body.
  destruct (remote E (log w) (fetch J)) as [latency [item|]]; simpl;
    [| now exists []].
  destruct (status_of J item) as [status| |]; simpl;
    [| now exists [] | now exists []].
  assert (Hd : exists evs,
    log (snd (deadline_then_sleep J id start timeout_s poll_s
                (fetched J id latency item status w)))
    = (evs ++ EvHttp (fetch J) latency (Reply item) :: log w)%list).
  { unfold deadline_then_sleep, fetched; cbn [now log].
    destruct (_ >? _); [now exists [EvPrint (line J) [id; status]] |].
    destruct (_ <? _); [now exists [EvPrint (line J) [id; status]] |].
    now exists [EvSleep poll_s; EvPrint (line J) [id; status]]. }
  unfold verdict.
  destruct status; try exact Hd;
    try (now exists [EvPrint (line J) [id; VList items]]);
    try (now exists [EvPrint (line J) [id; VDict items]]).
  destruct (classify _ _ s); try exact Hd;
    now exists [EvPrint (line J) [id; VStr s]].
Qed.

Lemma while_true_log (start : Z) (fuel : nat) (w : world) :
  exists evs,
    log (snd (while_true fuel (poller_body E J id start timeout_s poll_s) w))
    = (evs ++ log w)%list.
Proof.
  revert w. induction fuel as [|fuel IH]; intros w; [now exists [] |].
  rewrite while_true_step.
  destruct (poller_body_log start w) as [evs Hevs].
  set (first := EvHttp _ _ _) in Hevs.
  destruct (poller_body E J id start timeout_s poll_s w) as [[[a|]| |] w1];
    simpl in *;
    try (exists (evs ++ [first])%list; rewrite Hevs, <- app_assoc; reflexivity).
  destruct (IH w1) as [evs' Hevs']. rewrite Hevs', Hevs.
  exists (evs' ++ evs ++ [first])%list. now rewrite <- !app_assoc.
Qed.

(** Whatever the time-out, a run with fuel for one iteration begins with
    a fetch. *)
Lemma poller_first_fetch (fuel : nat) (w : world) :
  exists evs,
    log (snd (poller E (S fuel) J id timeout_s poll_s w))
    = (evs ++ [EvHttp (fetch J) (fst (remote E (log w) (fetch J)))
                 (snd (remote E (log w) (fetch J)))] ++ log w)%list.
Proof.
  unfold poller. rewrite while_true_step.
  destruct (poller_body_log (now w) w) as [evs Hevs].
  destruct (poller_body E J id (now w) timeout_s poll_s w) as [[[a|]| |] w1];
    simpl in *; try (now exists evs).
  destruct (while_true_log (now w) fuel w1) as [evs' Hevs'].
  rewrite Hevs', Hevs. exists (evs' ++ evs)%list. now rewrite <- app_assoc.
Qed.

End PollerRuns.

Lemma avatar_status_no_timeout (item : value) (t : string) (a : list value) :
  avatar_status item <> Raise (TimeoutError t a).
Proof.
  unfold avatar_status, and_then, Py.get.
  destruct item; try discriminate. destruct (Py.or_ _ _); discriminate.
Qed.

Lemma video_status_no_timeout (item : value) (t : string) (a : list value) :
  video_status item <> Raise (TimeoutError t a).
Proof.
  unfold video_status, and_then, Py.get, Py.index0, Py.item.
  destruct item; try discriminate.
  destruct (match Py.lookup "data" items with Some v => v | None => VNone end)
    as [ | | | | [|c s] | [|x l] | l ]; try discriminate.
  destruct x; try discriminate. destruct (Py.lookup "status" items0); discriminate.
Qed.

Ltac in_vocabulary :=
  unfold avatar_terminal_ok, avatar_terminal_bad, video_terminal_ok,
    video_terminal_bad; set_solver.

(* ================================================================== *)
(** * Claims on the Poller *)
(* ================================================================== *)

Lemma classify_success (ok bad : gset string) (s : string) :
  classify ok bad s = Success <-> s ∈ ok.
Proof.
  unfold classify. destruct (bool_decide (s ∈ ok)) eqn:Hok.
  - apply bool_decide_eq_true_1 in Hok. tauto.
  - apply bool_decide_eq_false_1 in Hok.
    destruct (bool_decide (s ∈ bad)); split; intros H; try discriminate; tauto.
Qed.

Lemma classify_failure (ok bad : gset string) (s : string) :
  classify ok bad s = Failure <-> (s ∉ ok) /\ (s ∈ bad).
Proof.
  unfold classify. destruct (bool_decide (s ∈ ok)) eqn:Hok.
  - apply bool_decide_eq_true_1 in Hok. split; [discriminate | tauto].
  - apply bool_decide_eq_false_1 in Hok.
    destruct (bool_decide (s ∈ bad)) eqn:Hbad.
    + apply bool_decide_eq_true_1 in Hbad. tauto.
    + apply bool_decide_eq_false_1 in Hbad. split; [discriminate | tauto].
Qed.

(** C1. A status string falls into exactly one bucket, [classify] being a
    function: for an avatar job success is ready, trained, succeeded or
    completed and failure is failed or error; for a video job success is
    ready, success or completed and failure is failed or error; every other
    string is pending. An iteration of either loop that reads the status
    acts by the bucket: it returns the answer, raises the failure with the
    answer in it, or goes on to the deadline and the sleep. *)
Theorem status_buckets (s : string) :
  (classify avatar_terminal_ok avatar_terminal_bad s = Success
   <-> s = "ready" \/ s = "trained" \/ s = "succeeded" \/ s = "completed")
  /\ (classify avatar_terminal_ok avatar_terminal_bad s = Failure
      <-> s = "failed" \/ s = "error")
  /\ (classify video_terminal_ok video_terminal_bad s = Success
      <-> s = "ready" \/ s = "success" \/ s = "completed")
  /\ (classify video_terminal_ok video_terminal_bad s = Failure
      <-> s = "failed" \/ s = "error")
  /\ (forall E self id start timeout_s poll_s w latency item,
        remote E (log w) (GetAvatar id) = (latency, Reply item) ->
        avatar_status item = Ret (VStr s) ->
        avatar_body E self id start timeout_s poll_s w
        = let w1 := fetched (avatar_job id) id latency item (VStr s) w in
          match classify avatar_terminal_ok avatar_terminal_bad s with
          | Success => (Ret (Some item), w1)
          | Failure => (Raise (RuntimeError "Avatar training failed: {}" [item]), w1)
          | Pending =>
              deadline_then_sleep (avatar_job id) id start timeout_s poll_s w1
          end)
  /\ (forall E self id start timeout_s poll_s w latency item,
        remote E (log w) (AwsResult id) = (latency, Reply item) ->
        video_status item = Ret (VStr s) ->
        video_body E self id start timeout_s poll_s w
        = let w1 := fetched (video_job id) id latency item (VStr s) w in
          match classify video_terminal_ok video_terminal_bad s with
          | Success => (Ret (Some item), w1)
          | Failure => (Raise (RuntimeError "Video task failed: {}" [item]), w1)
          | Pending =>
              deadline_then_sleep (video_job id) id start timeout_s poll_s w1
          end).
Proof.
  repeat split.
  1-2: rewrite classify_success; unfold avatar_terminal_ok; set_solver.
  1-2: rewrite classify_failure; unfold avatar_terminal_ok, avatar_terminal_bad;
       set_solver.
  1-2: rewrite classify_success; unfold video_terminal_ok; set_solver.
  1-2: rewrite classify_failure; unfold video_terminal_ok, video_terminal_bad;
       set_solver.
  - intros E self id start timeout_s poll_s w latency item Hr Hst.
    rewrite avatar_body_is_poller.
    now rewrite (poller_body_fetched E (avatar_job id) id start timeout_s poll_s
                   w latency item (VStr s) Hr Hst).
  - intros E self id start timeout_s poll_s w latency item Hr Hst.
    rewrite video_body_is_poller.
    now rewrite (poller_body_fetched E (video_job id) id start timeout_s poll_s
                   w latency item (VStr s) Hr Hst).
Qed.

Lemma status_buckets_witness :
  avatar_body (steady_env 1 "training") a_client (VStr "av-1") 0 1800 20 (fresh_world 0)
  = deadline_then_sleep (avatar_job (VStr "av-1")) (VStr "av-1") 0 1800 20
      (fetched (avatar_job (VStr "av-1")) (VStr "av-1") 1
         (avatar_item "training") (VStr "training") (fresh_world 0))
  /\ video_body (steady_env 1 "failed") a_client (VStr "task-1") 0 1800 20 (fresh_world 0)
     = (Raise (RuntimeError "Video task failed: {}" [video_item "failed"]),
        fetched (video_job (VStr "task-1")) (VStr "task-1") 1
          (video_item "failed") (VStr "failed") (fresh_world 0)).
Proof.
  split.
  - destruct (status_buckets "training") as (_ & _ & _ & _ & Havatar & _).
    exact (Havatar (steady_env 1 "training") a_client (VStr "av-1") 0 1800 20
             (fresh_world 0) 1 (avatar_item "training") eq_refl eq_refl).
  - destruct (status_buckets "failed") as (_ & _ & _ & _ & _ & Hvideo).
    exact (Hvideo (steady_env 1 "failed") a_client (VStr "task-1") 0 1800 20
             (fresh_world 0) 1 (video_item "failed") eq_refl eq_refl).
Defined.

(** C2. When the first fetch reports a status of the success set, either
    wait function returns the fetched answer as it is; the log holds that
    one fetch and the status line, no sleep and no second fetch. *)
Theorem success_returns_at_once (E : env) (self : A2EClient) (id : value)
    (timeout_s poll_s : Z) (fuel : nat) (w : world)
    (latency : Z) (item : value) (s : string) :
  (remote E (log w) (GetAvatar id) = (latency, Reply item) ->
   avatar_status item = Ret (VStr s) ->
   s ∈ avatar_terminal_ok ->
   wait_until_avatar_ready E (S fuel) self id timeout_s poll_s w
   = (Ret item,
      {| now := now w + latency;
         log := EvPrint "[avatar:{}] status = {}" [id; VStr s]
                :: EvHttp (GetAvatar id) latency (Reply item) :: log w |}))
  /\ (remote E (log w) (AwsResult id) = (latency, Reply item) ->
      video_status item = Ret (VStr s) ->
      s ∈ video_terminal_ok ->
      wait_until_video_ready E (S fuel) self id timeout_s poll_s w
      = (Ret item,
         {| now := now w + latency;
            log := EvPrint "[video:{}] status = {}" [id; VStr s]
                   :: EvHttp (AwsResult id) latency (Reply item) :: log w |})).
Proof.
  split; intros Hr Hst Hs.
  - rewrite wait_until_avatar_ready_is_poller. unfold poller.
    now rewrite (poller_success E (avatar_job id) id timeout_s poll_s fuel w
                   latency item s Hr Hst Hs).
  - rewrite wait_until_video_ready_is_poller. unfold poller.
    now rewrite (poller_success E (video_job id) id timeout_s poll_s fuel w
                   latency item s Hr Hst Hs).
Qed.

Lemma success_returns_at_once_witness :
  wait_until_avatar_ready (steady_env 2 "trained") 1 a_client (VStr "av-1") 1800 20
    (fresh_world 100)
  = (Ret (avatar_item "trained"),
     {| now := 102;
        log := [EvPrint "[avatar:{}] status = {}" [VStr "av-1"; VStr "trained"];
                EvHttp (GetAvatar (VStr "av-1")) 2 (Reply (avatar_item "trained"))] |})
  /\ wait_until_video_ready (steady_env 2 "success") 1 a_client (VStr "task-1") 1800 20
       (fresh_world 100)
     = (Ret (video_item "success"),
        {| now := 102;
           log := [EvPrint "[video:{}] status = {}" [VStr "task-1"; VStr "success"];
                   EvHttp (AwsResult (VStr "task-1")) 2 (Reply (video_item "success"))] |}).
Proof.
  split.
  - apply (proj1 (success_returns_at_once (steady_env 2 "trained") a_client
                    (VStr "av-1") 1800 20 0 (fresh_world 100) 2 (avatar_item "trained")
                    "trained"));
      [reflexivity | reflexivity | in_vocabulary].
  - apply (proj2 (success_returns_at_once (steady_env 2 "success") a_client
                    (VStr "task-1") 1800 20 0 (fresh_world 100) 2 (video_item "success")
                    "success"));
      [reflexivity | reflexivity | in_vocabulary].
Defined.

Lemma avatar_vocabularies_disjoint (s : string) :
  s ∈ avatar_terminal_bad -> s ∉ avatar_terminal_ok.
Proof. unfold avatar_terminal_ok, avatar_terminal_bad. set_solver. Qed.

Lemma video_vocabularies_disjoint (s : string) :
  s ∈ video_terminal_bad -> s ∉ video_terminal_ok.
Proof. unfold video_terminal_ok, video_terminal_bad. set_solver. Qed.

(** C3. When a fetch reports a status of the failure set, in whatever
    iteration of the loop (any clock, any log so far, any start time), the
    loop raises the failure error with the fetched answer in it on that
    iteration: the log gains that fetch and the status line, no sleep and no
    further fetch. So does each wait function on its first fetch. *)
Theorem failure_raises_at_once (E : env) (self : A2EClient) (id : value)
    (start timeout_s poll_s : Z) (fuel : nat) (w : world)
    (latency : Z) (item : value) (s : string) :
  (remote E (log w) (GetAvatar id) = (latency, Reply item) ->
   avatar_status item = Ret (VStr s) ->
   s ∈ avatar_terminal_bad ->
   let failed :=
     (Raise (RuntimeError "Avatar training failed: {}" [item]),
      {| now := now w + latency;
         log := EvPrint "[avatar:{}] status = {}" [id; VStr s]
                :: EvHttp (GetAvatar id) latency (Reply item) :: log w |}) in
   while_true (S fuel) (avatar_body E self id start timeout_s poll_s) w = failed
   /\ wait_until_avatar_ready E (S fuel) self id timeout_s poll_s w = failed)
  /\ (remote E (log w) (AwsResult id) = (latency, Reply item) ->
      video_status item = Ret (VStr s) ->
      s ∈ video_terminal_bad ->
      let failed :=
        (Raise (RuntimeError "Video task failed: {}" [item]),
         {| now := now w + latency;
            log := EvPrint "[video:{}] status = {}" [id; VStr s]
                   :: EvHttp (AwsResult id) latency (Reply item) :: log w |}) in
      while_true (S fuel) (video_body E self id start timeout_s poll_s) w = failed
      /\ wait_until_video_ready E (S fuel) self id timeout_s poll_s w = failed).
Proof.
  split; intros Hr Hst Hs failed; subst failed.
  - pose proof (avatar_vocabularies_disjoint s Hs) as Hok. split.
    + rewrite (while_true_ext _ _ (avatar_body_is_poller E self id start timeout_s poll_s)).
      now rewrite (poller_failure E (avatar_job id) id timeout_s poll_s fuel w
                     latency item s Hr Hst Hok Hs).
    + rewrite wait_until_avatar_ready_is_poller. unfold poller.
      now rewrite (poller_failure E (avatar_job id) id timeout_s poll_s fuel w
                     latency item s Hr Hst Hok Hs).
  - pose proof (video_vocabularies_disjoint s Hs) as Hok. split.
    + rewrite (while_true_ext _ _ (video_body_is_poller E self id start timeout_s poll_s)).
      now rewrite (poller_failure E (video_job id) id timeout_s poll_s fuel w
                     latency item s Hr Hst Hok Hs).
    + rewrite wait_until_video_ready_is_poller. unfold poller.
      now rewrite (poller_failure E (video_job id) id timeout_s poll_s fuel w
                     latency item s Hr Hst Hok Hs).
Qed.

Lemma failure_raises_at_once_witness :
  wait_until_avatar_ready (steady_env 2 "failed") 5 a_client (VStr "av-1") 1800 20
    (fresh_world 100)
  = (Raise (RuntimeError "Avatar training failed: {}" [avatar_item "failed"]),
     {| now := 102;
        log := [EvPrint "[avatar:{}] status = {}" [VStr "av-1"; VStr "failed"];
                EvHttp (GetAvatar (VStr "av-1")) 2 (Reply (avatar_item "failed"))] |})
  /\ wait_until_video_ready (steady_env 2 "error") 5 a_client (VStr "task-1") 1800 20
       (fresh_world 100)
     = (Raise (RuntimeError "Video task failed: {}" [video_item "error"]),
        {| now := 102;
           log := [EvPrint "[video:{}] status = {}" [VStr "task-1"; VStr "error"];
                   EvHttp (AwsResult (VStr "task-1")) 2 (Reply (video_item "error"))] |}).
Proof.
  split.
  - apply (proj1 (failure_raises_at_once (steady_env 2 "failed") a_client
                    (VStr "av-1") 100 1800 20 4 (fresh_world 100) 2 (avatar_item "failed")
                    "failed"));
      [reflexivity | reflexivity | in_vocabulary].
  - apply (proj2 (failure_raises_at_once (steady_env 2 "error") a_client
                    (VStr "task-1") 100 1800 20 4 (fresh_world 100) 2 (video_item "error")
                    "error"));
      [reflexivity | reflexivity | in_vocabulary].
Defined.

Lemma steady_env_always_pending (latency : Z) (id : value) :
  0 <= latency ->
  always_pending (steady_env latency "training") (avatar_job id)
  /\ always_pending (steady_env latency "training") (video_job id).
Proof.
  intros Hlat. split; intros h.
  - exists latency, (avatar_item "training"), (VStr "training").
    split; [reflexivity |]. split; [assumption |]. split; [reflexivity |].
    split; vm_compute; reflexivity.
  - exists latency, (video_item "training"), (VStr "training").
    split; [reflexivity |]. split; [assumption |]. split; [reflexivity |].
    split; vm_compute; reflexivity.
Qed.

(** An answer without a status keeps the avatar job pending as well: the
    status read is [None], which is in neither vocabulary. *)
Lemma statusless_answer_always_pending (id : value) :
  always_pending (fixed_env (VDict no_data_answer)) (avatar_job id).
Proof.
  intros h. exists 1, (VDict no_data_answer), VNone.
  split; [reflexivity |]. split; [lia |]. split; [reflexivity |].
  split; reflexivity.
Qed.

(** C4 as worded fails: with a time-out of 30 seconds and a first fetch
    that takes 45, the status being pending, the loop raises the time-out
    error after that one fetch; it never sleeps and never fetches again. *)
Lemma slow_fetch_times_out_without_retry :
  (forall fuel,
     wait_until_avatar_ready (steady_env 45 "training") (S fuel) a_client
       (VStr "av-1") 30 20 (fresh_world 0)
     = (Raise (TimeoutError "Timed out waiting for avatar {} to be ready"
                 [VStr "av-1"]),
        {| now := 45;
           log := [EvPrint "[avatar:{}] status = {}" [VStr "av-1"; VStr "training"];
                   EvHttp (GetAvatar (VStr "av-1")) 45
                     (Reply (avatar_item "training"))] |}))
  /\ ~ pending_job_always_retries.
Proof.
  assert (Hrun : forall fuel,
     wait_until_avatar_ready (steady_env 45 "training") (S fuel) a_client
       (VStr "av-1") 30 20 (fresh_world 0)
     = (Raise (TimeoutError "Timed out waiting for avatar {} to be ready"
                 [VStr "av-1"]),
        {| now := 45;
           log := [EvPrint "[avatar:{}] status = {}" [VStr "av-1"; VStr "training"];
                   EvHttp (GetAvatar (VStr "av-1")) 45
                     (Reply (avatar_item "training"))] |})).
  { intros fuel. rewrite wait_until_avatar_ready_is_poller. unfold poller.
    rewrite while_true_step. reflexivity. }
  split; [exact Hrun |]. intros Hclaim.
  destruct (Hclaim (steady_env 45 "training") a_client (VStr "av-1") 30 20 (fresh_world 0))
    as (n & w' & evs & Hfuel & Hlog & Hsleeps & _).
  { apply steady_env_always_pending. lia. }
  specialize (Hfuel (S n) ltac:(lia)). rewrite Hrun in Hfuel.
  injection Hfuel as <-. simpl in Hlog. rewrite app_nil_r in Hlog. subst evs.
  simpl in Hsleeps. lia.
Qed.

(** C4 (as amended). Let every fetch report a status that is neither a
    success nor a failure, the clock not run backwards, and the poll
    interval be positive. Then the wait function ends in the time-out
    error. The deadline is checked once after every fetch, against the time
    since polling began; the error is raised at the first check that finds
    that time above the time-out, and at once: the last check, [late], is
    the time the wait took, and every check before it found the time within
    the time-out; nothing comes after the status line of the last fetch.
    Every sleep lasted the poll interval and was followed by one more
    fetch. There was a sleep and a retry exactly when the first fetch came
    back within the time-out: a first fetch that outlasts the time-out is
    followed by the error with no sleep and no second fetch. *)
Theorem pending_job_times_out (E : env) (self : A2EClient) (id : value)
    (timeout_s poll_s : Z) (w : world) :
  0 < poll_s ->
  (always_pending E (avatar_job id) ->
   exists (n : nat) w' evs late earlier,
     (forall fuel, (n <= fuel)%nat ->
        wait_until_avatar_ready E fuel self id timeout_s poll_s w
        = (Raise (TimeoutError "Timed out waiting for avatar {} to be ready" [id]),
           w'))
     /\ log w' = (evs ++ log w)%list
     /\ timeout_s < now w' - now w
     /\ checks (avatar_job id) evs = late :: earlier
     /\ late = now w' - now w
     /\ Forall (fun t => t <= timeout_s) earlier
     /\ length (checks (avatar_job id) evs) = fetches any_request evs
     /\ fetches any_request evs = S (sleeps evs)
     /\ sleeps_last poll_s evs
     /\ (exists status,
           pending (avatar_job id) status
           /\ List.head evs
              = Some (EvPrint "[avatar:{}] status = {}" [id; status]))
     /\ (fst (remote E (log w) (GetAvatar id)) <= timeout_s
         <-> (1 <= sleeps evs)%nat /\ (2 <= fetches any_request evs)%nat)
     /\ (timeout_s < fst (remote E (log w) (GetAvatar id)) ->
         sleeps evs = 0%nat /\ fetches any_request evs = 1%nat))
  /\ (always_pending E (video_job id) ->
      exists (n : nat) w' evs late earlier,
        (forall fuel, (n <= fuel)%nat ->
           wait_until_video_ready E fuel self id timeout_s poll_s w
           = (Raise (TimeoutError "Timed out waiting for video task {} to be ready"
                       [id]),
              w'))
        /\ log w' = (evs ++ log w)%list
        /\ timeout_s < now w' - now w
        /\ checks (video_job id) evs = late :: earlier
        /\ late = now w' - now w
        /\ Forall (fun t => t <= timeout_s) earlier
        /\ length (checks (video_job id) evs) = fetches any_request evs
        /\ fetches any_request evs = S (sleeps evs)
        /\ sleeps_last poll_s evs
        /\ (exists status,
              pending (video_job id) status
              /\ List.head evs
                 = Some (EvPrint "[video:{}] status = {}" [id; status]))
        /\ (fst (remote E (log w) (AwsResult id)) <= timeout_s
            <-> (1 <= sleeps evs)%nat /\ (2 <= fetches any_request evs)%nat)
        /\ (timeout_s < fst (remote E (log w) (AwsResult id)) ->
            sleeps evs = 0%nat /\ fetches any_request evs = 1%nat)).
Proof.
  intros Hpoll. split; intros Halways.
  - destruct (poller_times_out E (avatar_job id) id timeout_s poll_s w Hpoll Halways)
      as (n & w' & evs & late & earlier & Hrun & Hrest).
    exists n, w', evs, late, earlier. split; [| exact Hrest].
    intros fuel Hfuel. rewrite wait_until_avatar_ready_is_poller. now apply Hrun.
  - destruct (poller_times_out E (video_job id) id timeout_s poll_s w Hpoll Halways)
      as (n & w' & evs & late & earlier & Hrun & Hrest).
    exists n, w', evs, late, earlier. split; [| exact Hrest].
    intros fuel Hfuel. rewrite wait_until_video_ready_is_poller. now apply Hrun.
Qed.

Lemma pending_job_times_out_witness :
  exists (n : nat) w' evs late earlier,
    (forall fuel, (n <= fuel)%nat ->
       wait_until_avatar_ready (steady_env 1 "training") fuel a_client
         (VStr "av-1") 50 20 (fresh_world 0)
       = (Raise (TimeoutError "Timed out waiting for avatar {} to be ready"
                   [VStr "av-1"]),
          w'))
    /\ log w' = (evs ++ log (fresh_world 0))%list
    /\ 50 < now w' - now (fresh_world 0)
    /\ checks (avatar_job (VStr "av-1")) evs = late :: earlier
    /\ late = now w' - now (fresh_world 0)
    /\ Forall (fun t => t <= 50) earlier
    /\ length (checks (avatar_job (VStr "av-1")) evs) = fetches any_request evs
    /\ fetches any_request evs = S (sleeps evs)
    /\ sleeps_last 20 evs
    /\ (exists status,
          pending (avatar_job (VStr "av-1")) status
          /\ List.head evs
             = Some (EvPrint "[avatar:{}] status = {}" [VStr "av-1"; status]))
    /\ (fst (remote (steady_env 1 "training") (log (fresh_world 0))
               (GetAvatar (VStr "av-1"))) <= 50
        <-> (1 <= sleeps evs)%nat /\ (2 <= fetches any_request evs)%nat)
    /\ (50 < fst (remote (steady_env 1 "training") (log (fresh_world 0))
                    (GetAvatar (VStr "av-1"))) ->
        sleeps evs = 0%nat /\ fetches any_request evs = 1%nat).
Proof.
  apply (proj1 (pending_job_times_out (steady_env 1 "training") a_client
                  (VStr "av-1") 50 20 (fresh_world 0) ltac:(lia))).
  apply steady_env_always_pending. lia.
Defined.

Example pending_run_of_the_steady_remote :
  wait_until_avatar_ready (steady_env 1 "training") 4 a_client (VStr "av-1") 50 20
    (fresh_world 0)
  = (Raise (TimeoutError "Timed out waiting for avatar {} to be ready" [VStr "av-1"]),
     {| now := 64;
        log := [EvPrint "[avatar:{}] status = {}" [VStr "av-1"; VStr "training"];
                EvHttp (GetAvatar (VStr "av-1")) 1 (Reply (avatar_item "training"));
                EvSleep 20;
                EvPrint "[avatar:{}] status = {}" [VStr "av-1"; VStr "training"];
                EvHttp (GetAvatar (VStr "av-1")) 1 (Reply (avatar_item "training"));
                EvSleep 20;
                EvPrint "[avatar:{}] status = {}" [VStr "av-1"; VStr "training"];
                EvHttp (GetAvatar (VStr "av-1")) 1 (Reply (avatar_item "training"));
                EvSleep 20;
                EvPrint "[avatar:{}] status = {}" [VStr "av-1"; VStr "training"];
                EvHttp (GetAvatar (VStr "av-1")) 1 (Reply (avatar_item "training"))] |}).
Proof. vm_compute. reflexivity. Qed.

(** The deadline checks of that run, newest first: only the last one found
    more than the 50 seconds of the time-out. *)
Example checks_of_the_steady_remote :
  checks (avatar_job (VStr "av-1"))
    (log (snd (wait_until_avatar_ready (steady_env 1 "training") 4 a_client
                 (VStr "av-1") 50 20 (fresh_world 0))))
  = [64; 43; 22; 1].
Proof. vm_compute. reflexivity. Qed.

(** A run on answers without a status: the status printed is [None], and
    the run ends as above. *)
Example statusless_run_times_out :
  wait_until_avatar_ready (fixed_env (VDict no_data_answer)) 3 a_client
    (VStr "av-1") 20 20 (fresh_world 0)
  = (Raise (TimeoutError "Timed out waiting for avatar {} to be ready" [VStr "av-1"]),
     {| now := 22;
        log := [EvPrint "[avatar:{}] status = {}" [VStr "av-1"; VNone];
                EvHttp (GetAvatar (VStr "av-1")) 1 (Reply (VDict no_data_answer));
                EvSleep 20;
                EvPrint "[avatar:{}] status = {}" [VStr "av-1"; VNone];
                EvHttp (GetAvatar (VStr "av-1")) 1 (Reply (VDict no_data_answer))] |}).
Proof. vm_compute. reflexivity. Qed.

Lemma malformed_video_status (fields : list (string * value)) (e : exn) :
  malformed_video fields e ->
  video_status (VDict fields) = Raise e
  /\ (e = TypeError \/ e = IndexError \/ e = KeyError).
Proof.
  unfold video_status, and_then, Py.get.
  intros [f H | f H | f H | f first rest H Hs | f first rest H Hd]; rewrite H; simpl.
  - auto.
  - auto.
  - auto.
  - rewrite Hs. auto.
  - destruct first; try discriminate; auto.
Qed.

Lemma avatar_missing_status (fields : list (string * value)) :
  avatar_status_missing fields -> avatar_status (VDict fields) = Ret VNone.
Proof.
  unfold avatar_status, and_then, Py.get, Py.or_.
  intros [f H | f data H Hd | f data H Hs]; rewrite H.
  - reflexivity.
  - now rewrite Hd.
  - destruct data as [|kv data]; [reflexivity |].
    cbn [Py.truthy]. now rewrite Hs.
Qed.

(** C9. A video answer without the expected shape (no [data], a null
    [data], an empty list, a first element without a [status] key) makes the
    video wait function raise a structural exception ([TypeError],
    [IndexError] or [KeyError]) right after the fetch: not the failure
    error, not the time-out error, nothing printed and no sleep. An avatar
    answer without a status is read as the status [None], which is pending:
    the iteration goes on to the deadline and the sleep, and when the
    deadline has not passed it sleeps and the loop fetches again. *)
Theorem malformed_answers (E : env) (self : A2EClient) (id : value)
    (timeout_s poll_s : Z) (fuel : nat) (w : world)
    (latency : Z) (fields : list (string * value)) (e : exn) :
  (remote E (log w) (AwsResult id) = (latency, Reply (VDict fields)) ->
   malformed_video fields e ->
   (e = TypeError \/ e = IndexError \/ e = KeyError)
   /\ wait_until_video_ready E (S fuel) self id timeout_s poll_s w
      = (Raise e,
         {| now := now w + latency;
            log := EvHttp (AwsResult id) latency (Reply (VDict fields)) :: log w |}))
  /\ (remote E (log w) (GetAvatar id) = (latency, Reply (VDict fields)) ->
      avatar_status_missing fields ->
      pending (avatar_job id) VNone
      /\ (forall start,
            avatar_body E self id start timeout_s poll_s w
            = deadline_then_sleep (avatar_job id) id start timeout_s poll_s
                (fetched (avatar_job id) id latency (VDict fields) VNone w))
      /\ (latency <= timeout_s -> 0 <= poll_s ->
          wait_until_avatar_ready E (S fuel) self id timeout_s poll_s w
          = while_true fuel (avatar_body E self id (now w) timeout_s poll_s)
              {| now := now w + latency + poll_s;
                 log := EvSleep poll_s
                        :: EvPrint "[avatar:{}] status = {}" [id; VNone]
                        :: EvHttp (GetAvatar id) latency (Reply (VDict fields))
                        :: log w |})).
Proof.
  split.
  - intros Hr Hbad. destruct (malformed_video_status fields e Hbad) as [Hst He].
    split; [assumption |].
    rewrite wait_until_video_ready_is_poller. unfold poller.
    rewrite while_true_step. unfold poller_body.
    cbn [fetch status_of video_job]. now rewrite Hr, Hst.
  - intros Hr Hmissing. pose proof (avatar_missing_status fields Hmissing) as Hst.
    assert (Hpending : pending (avatar_job id) VNone) by (split; reflexivity).
    assert (Hbody : forall start,
      avatar_body E self id start timeout_s poll_s w
      = deadline_then_sleep (avatar_job id) id start timeout_s poll_s
          (fetched (avatar_job id) id latency (VDict fields) VNone w)).
    { intros start. rewrite avatar_body_is_poller.
      now rewrite (poller_body_fetched E (avatar_job id) id start timeout_s poll_s
                     w latency (VDict fields) VNone Hr Hst). }
    split; [assumption |]. split; [assumption |].
    intros Hlat Hpoll. unfold wait_until_avatar_ready, bind, time_time.
    rewrite while_true_step, Hbody. unfold deadline_then_sleep, fetched.
    cbn [now log line avatar_job].
    assert (Hgt : (now w + latency - now w >? timeout_s) = false) by lia.
    assert (Hneg : (poll_s <? 0) = false) by lia.
    now rewrite Hgt, Hneg.
Qed.

Lemma malformed_answers_witness :
  wait_until_video_ready (fixed_env (VDict no_data_answer)) 3 a_client
    (VStr "task-1") 1800 20 (fresh_world 0)
  = (Raise TypeError,
     {| now := 1;
        log := [EvHttp (AwsResult (VStr "task-1")) 1 (Reply (VDict no_data_answer))] |})
  /\ wait_until_avatar_ready (fixed_env (VDict no_data_answer)) 3 a_client
       (VStr "av-1") 1800 20 (fresh_world 0)
     = while_true 2
         (avatar_body (fixed_env (VDict no_data_answer)) a_client (VStr "av-1")
            0 1800 20)
         {| now := 21;
            log := [EvSleep 20;
                    EvPrint "[avatar:{}] status = {}" [VStr "av-1"; VNone];
                    EvHttp (GetAvatar (VStr "av-1")) 1 (Reply (VDict no_data_answer))] |}.
Proof.
  split.
  - apply (proj1 (malformed_answers (fixed_env (VDict no_data_answer)) a_client
                    (VStr "task-1") 1800 20 2 (fresh_world 0) 1 no_data_answer TypeError));
      [reflexivity | now apply data_absent].
  - apply (proj2 (malformed_answers (fixed_env (VDict no_data_answer)) a_client
                    (VStr "av-1") 1800 20 2 (fresh_world 0) 1 no_data_answer TypeError));
      [reflexivity | now apply avatar_data_absent | lia | lia].
Defined.

(** C10. Both wait functions judge the status before they look at the
    clock. Whatever the time-out, zero or negative included, a run begins
    with a fetch. A fetch that took longer than the time-out and reports a
    success status still returns the answer, and one that reports a failure
    status still raises the failure error. A run ends in the time-out error
    only when the answer fetched last carried a pending status, and then the
    time since polling began exceeds the time-out. *)
Theorem status_judged_before_deadline (E : env) (self : A2EClient) (id : value)
    (timeout_s poll_s : Z) (fuel : nat) (w : world) :
  ((exists evs,
      log (snd (wait_until_avatar_ready E (S fuel) self id timeout_s poll_s w))
      = (evs ++ [EvHttp (GetAvatar id) (fst (remote E (log w) (GetAvatar id)))
                   (snd (remote E (log w) (GetAvatar id)))] ++ log w)%list)
   /\ (forall latency item s,
         remote E (log w) (GetAvatar id) = (latency, Reply item) ->
         avatar_status item = Ret (VStr s) ->
         timeout_s < latency ->
         (s ∈ avatar_terminal_ok ->
          fst (wait_until_avatar_ready E (S fuel) self id timeout_s poll_s w)
          = Ret item)
         /\ (s ∈ avatar_terminal_bad ->
             fst (wait_until_avatar_ready E (S fuel) self id timeout_s poll_s w)
             = Raise (RuntimeError "Avatar training failed: {}" [item])))
   /\ (forall n text args w',
         wait_until_avatar_ready E n self id timeout_s poll_s w
         = (Raise (TimeoutError text args), w') ->
         exists older latency item status,
           log w' = EvPrint "[avatar:{}] status = {}" [id; status]
                    :: EvHttp (GetAvatar id) latency (Reply item) :: older
           /\ avatar_status item = Ret status
           /\ pending (avatar_job id) status
           /\ timeout_s < now w' - now w))
  /\
  ((exists evs,
      log (snd (wait_until_video_ready E (S fuel) self id timeout_s poll_s w))
      = (evs ++ [EvHttp (AwsResult id) (fst (remote E (log w) (AwsResult id)))
                   (snd (remote E (log w) (AwsResult id)))] ++ log w)%list)
   /\ (forall latency item s,
         remote E (log w) (AwsResult id) = (latency, Reply item) ->
         video_status item = Ret (VStr s) ->
         timeout_s < latency ->
         (s ∈ video_terminal_ok ->
          fst (wait_until_video_ready E (S fuel) self id timeout_s poll_s w)
          = Ret item)
         /\ (s ∈ video_terminal_bad ->
             fst (wait_until_video_ready E (S fuel) self id timeout_s poll_s w)
             = Raise (RuntimeError "Video task failed: {}" [item])))
   /\ (forall n text args w',
         wait_until_video_ready E n self id timeout_s poll_s w
         = (Raise (TimeoutError text args), w') ->
         exists older latency item status,
           log w' = EvPrint "[video:{}] status = {}" [id; status]
                    :: EvHttp (AwsResult id) latency (Reply item) :: older
           /\ video_status item = Ret status
           /\ pending (video_job id) status
           /\ timeout_s < now w' - now w)).
Proof.
  split; (split; [| split]).
  - rewrite wait_until_avatar_ready_is_poller.
    apply (poller_first_fetch E (avatar_job id)).
  - intros latency item s Hr Hst _.
    rewrite wait_until_avatar_ready_is_poller. unfold poller. split; intros Hs.
    + now rewrite (poller_success E (avatar_job id) id timeout_s poll_s fuel w
                     latency item s Hr Hst Hs).
    + now rewrite (poller_failure E (avatar_job id) id timeout_s poll_s fuel w
                     latency item s Hr Hst (avatar_vocabularies_disjoint s Hs) Hs).
  - intros n text args w' Hrun. rewrite wait_until_avatar_ready_is_poller in Hrun.
    destruct (timeout_only_when_pending E (avatar_job id) id (now w) timeout_s poll_s
                n w w' text args avatar_status_no_timeout Hrun)
      as (older & latency & item & status & H1 & H2 & H3 & H4 & _).
    now exists older, latency, item, status.
  - rewrite wait_until_video_ready_is_poller.
    apply (poller_first_fetch E (video_job id)).
  - intros latency item s Hr Hst _.
    rewrite wait_until_video_ready_is_poller. unfold poller. split; intros Hs.
    + now rewrite (poller_success E (video_job id) id timeout_s poll_s fuel w
                     latency item s Hr Hst Hs).
    + now rewrite (poller_failure E (video_job id) id timeout_s poll_s fuel w
                     latency item s Hr Hst (video_vocabularies_disjoint s Hs) Hs).
  - intros n text args w' Hrun. rewrite wait_until_video_ready_is_poller in Hrun.
    destruct (timeout_only_when_pending E (video_job id) id (now w) timeout_s poll_s
                n w w' text args video_status_no_timeout Hrun)
      as (older & latency & item & status & H1 & H2 & H3 & H4 & _).
    now exists older, latency, item, status.
Qed.

Lemma status_judged_before_deadline_witness :
  (exists evs,
     log (snd (wait_until_avatar_ready (steady_env 5 "ready") 1 a_client
                 (VStr "av-1") 0 20 (fresh_world 0)))
     = (evs ++ [EvHttp (GetAvatar (VStr "av-1")) 5 (Reply (avatar_item "ready"))]
            ++ [])%list)
  /\ fst (wait_until_avatar_ready (steady_env 5 "ready") 1 a_client
            (VStr "av-1") 0 20 (fresh_world 0))
     = Ret (avatar_item "ready")
  /\ fst (wait_until_video_ready (steady_env 5 "error") 1 a_client
            (VStr "task-1") 0 20 (fresh_world 0))
     = Raise (RuntimeError "Video task failed: {}" [video_item "error"])
  /\ (exists older latency item status,
        [EvPrint "[video:{}] status = {}" [VStr "task-1"; VStr "training"];
         EvHttp (AwsResult (VStr "task-1")) 45 (Reply (video_item "training"))]
        = EvPrint "[video:{}] status = {}" [VStr "task-1"; status]
          :: EvHttp (AwsResult (VStr "task-1")) latency (Reply item) :: older
        /\ video_status item = Ret status
        /\ pending (video_job (VStr "task-1")) status
        /\ 30 < 45 - 0).
Proof.
  destruct (status_judged_before_deadline (steady_env 5 "ready") a_client
              (VStr "av-1") 0 20 0 (fresh_world 0)) as [(Hfirst & Hjudge & _) _].
  destruct (status_judged_before_deadline (steady_env 5 "error") a_client
              (VStr "task-1") 0 20 0 (fresh_world 0)) as [_ (_ & Hjudge' & _)].
  destruct (status_judged_before_deadline (steady_env 45 "training") a_client
              (VStr "task-1") 30 20 0 (fresh_world 0)) as [_ (_ & _ & Hlate)].
  split; [exact Hfirst |]. split; [| split].
  - apply (Hjudge 5 (avatar_item "ready") "ready");
      [reflexivity | reflexivity | lia | in_vocabulary].
  - apply (Hjudge' 5 (video_item "error") "error");
      [reflexivity | reflexivity | lia | in_vocabulary].
  - apply (Hlate 3%nat "Timed out waiting for video task {} to be ready"
             [VStr "task-1"]
             {| now := 45;
                log := [EvPrint "[video:{}] status = {}"
                          [VStr "task-1"; VStr "training"];
                        EvHttp (AwsResult (VStr "task-1")) 45
                          (Reply (video_item "training"))] |}).
    vm_compute. reflexivity.
Defined.

(* ================================================================== *)
(** * The driver *)
(* ================================================================== *)

Lemma bind_run {A B} (m : M A) (f : A -> M B) (w w' : world) (a : A) :
  m w = (Ret a, w') -> bind m f w = f a w'.
Proof. intros H. unfold bind. now rewrite H. Qed.

Lemma bind_raise {A B} (m : M A) (f : A -> M B) (w w' : world) (e : exn) :
  m w = (Raise e, w') -> bind m f w = (Raise e, w').
Proof. intros H. unfold bind. now rewrite H. Qed.

(** Every match of the scan is URL-shaped, so it is not the empty text. *)
Lemma scan_shape (s : string) (skip : nat) (u : string) :
  In u (Re.scan skip s) -> url_shaped u.
Proof.
  revert skip. induction s as [|c s IH]; intros skip Hin; simpl in Hin;
    [contradiction |].
  destruct skip as [|k]; [| now apply (IH k)].
  destruct (Re.match_here (String c s)) as [m|] eqn:Hm; [| now apply (IH 0%nat)].
  destruct Hin as [<- | Hin]; [| now apply (IH _ Hin)].
  now apply match_here_shape in Hm.
Qed.

Lemma url_shaped_nonempty (u : string) : url_shaped u -> u <> "".
Proof. intros (body & [-> | ->] & _); discriminate. Qed.

Lemma collected_nonempty (obj : value) (u : string) : In u (collect obj) -> u <> "".
Proof.
  intros Hin. destruct (collect_from_leaf obj u Hin) as (s & _ & Hs).
  apply url_shaped_nonempty. exact (scan_shape s 0 u Hs).
Qed.

Lemma prefer_in (exts urls : list string) (u : string) :
  prefer exts urls = Some u -> In u urls.
Proof.
  induction exts as [|e exts IH]; simpl; [discriminate |].
  destruct (List.find (url_has_ext e) urls) as [v|] eqn:Hfind; [| exact IH].
  intros [= <-]. now apply find_some in Hfind.
Qed.

Lemma first_url_in (obj : value) (exts : list string) (u : string) :
  _first_url_from obj exts = Some u -> In u (collect obj).
Proof.
  unfold _first_url_from.
  destruct (prefer exts (collect obj)) as [v|] eqn:Hp.
  - intros [= <-]. now apply prefer_in in Hp.
  - destruct (collect obj); simpl; [discriminate | intros [= <-]; now left].
Qed.

Lemma first_url_some (obj : value) (exts : list string) :
  collect obj <> [] -> exists u, _first_url_from obj exts = Some u.
Proof.
  intros Hne. unfold _first_url_from.
  destruct (prefer exts (collect obj)) as [v|]; [now exists v |].
  destruct (collect obj) as [|u urls]; [contradiction | now exists u].
Qed.

Lemma audio_src_of_direct (tts : value) :
  audio_src_of tts
  = Ret (Py.or_ (direct_data tts) (Py.of_option (_first_url_from tts audio_exts))).
Proof. destruct tts; reflexivity. Qed.

(** Run the left-hand side in the virtual machine and take what comes out
    for the unknowns on the right. *)
Ltac run_to_unknown :=
  match goal with
  | |- ?l = _ =>
      let r := eval vm_compute in l in
      transitivity r; [vm_compute; reflexivity | reflexivity]
  end.

Ltac run_bind :=
  match goal with
  | |- bind ?m ?f ?w = _ =>
      let r := eval vm_compute in (m w) in
      lazymatch r with
      | (Ret ?a, ?w') =>
          let H := fresh in
          assert (H : m w = (Ret a, w')) by (vm_compute; reflexivity);
          rewrite (bind_run m f w w' a H); clear H; cbv beta zeta
      end
  | |- (if ?c then _ else _) ?w = _ =>
      let b := eval vm_compute in c in
      change c with b; cbv iota
  end.

(** When some URL of the payload ends with the first extension of the
    list, the first such URL is the one chosen. *)
Lemma first_extension_wins (obj : value) (ext : string) (exts : list string)
    (u : string) :
  Str.lower ext = ext ->
  _first_url_from obj (ext :: exts) = Some u ->
  (exists v, In v (collect obj) /\ path_ends_ci v ext) ->
  first_such (fun v => path_ends_ci v ext) (collect obj) u.
Proof.
  intros Hlower Hu (v & Hin & Hv). unfold _first_url_from in Hu. simpl in Hu.
  assert (Hci : forall x, url_has_ext ext x = true <-> path_ends_ci x ext).
  { intros x. rewrite url_has_ext_spec. unfold path_ends_as_written, path_ends_ci.
    now rewrite Hlower. }
  pose proof (find_first (url_has_ext ext) (fun x => path_ends_ci x ext)
                (collect obj) Hci) as Hfind.
  destruct (List.find (url_has_ext ext) (collect obj)) as [x|].
  - now injection Hu as <-.
  - exfalso. exact (Hfind v Hin Hv).
Qed.

(** C8. In the scenario (every call answered with a success envelope, the
    avatar statuses training, training, ready, the video result completed
    at its one fetch and holding some URL) the driver runs to its end; the
    last thing it prints is the URL the extractor chooses with the video
    extensions, .mp4 first; it sleeps twice, between the avatar fetches, and
    not at all once the video generation is started, whose result it
    fetches once. *)
Theorem end_to_end_scenario (result : value)
    (name gender prompt script voice_id : string) (width height : Z)
    (auto_approve lip_sync : bool) (fuel : nat) :
  (3 <= fuel)%nat ->
  Py.get result "code" = Ret (VInt 0) ->
  video_status result = Ret (VStr "completed") ->
  collect result <> [] ->
  exists u w',
    run_pipeline (scenario_env tts_answer result) fuel name gender prompt script
      voice_id width height auto_approve lip_sync (fresh_world 0)
    = (Ret tt, w')
    /\ _first_url_from result video_exts = Some u
    /\ selection path_ends_ci video_exts (collect result) (Some u)
    /\ ((exists v, In v (collect result) /\ path_ends_ci v ".mp4") ->
        first_such (fun v => path_ends_ci v ".mp4") (collect result) u)
    /\ List.head (log w') = Some (EvPrint "✅ Best-guess video URL: {}" [VStr u])
    /\ sleeps (log w') = 2%nat
    /\ sleeps_last default_poll_s (log w')
    /\ fetches is_get_avatar (log w') = (if lip_sync then 4 else 3)%nat
    /\ fetches is_video_generate (log w') = 1%nat
    /\ sleeps (since is_video_generate (log w')) = 0%nat
    /\ fetches is_aws_result (since is_video_generate (log w')) = 1%nat.
Proof.
  intros Hfuel _ _ Hurls.
  destruct (first_url_some result video_exts Hurls) as [u Hu].
  assert (Hsel : selection path_ends_ci video_exts (collect result) (Some u)).
  { rewrite <- Hu.
    eapply selection_iff; [| apply first_url_selection].
    intros e v He. unfold path_ends_as_written, path_ends_ci.
    assert (Hlower : Str.lower e = e)
      by (destruct He as [<- | [<- | [<- | [<- | []]]]]; reflexivity).
    now rewrite Hlower. }
  assert (Hmp4 : (exists v, In v (collect result) /\ path_ends_ci v ".mp4") ->
                 first_such (fun v => path_ends_ci v ".mp4") (collect result) u)
    by exact (first_extension_wins result ".mp4" [".m3u8"; ".mov"; ".webm"] u
                eq_refl Hu).
  destruct fuel as [|[|[|fuel]]]; try lia.
  exists u.
  destruct auto_approve, lip_sync; eexists;
    (split;
     [ unfold run_pipeline; repeat run_bind; unfold stage_video; repeat run_bind;
       rewrite Hu; reflexivity
     | split; [exact Hu | split; [exact Hsel | split; [exact Hmp4 |]]];
       repeat split; repeat constructor ]).
Qed.

Lemma end_to_end_scenario_witness :
  exists u w',
    run_pipeline (scenario_env tts_answer (video_item "completed")) 3 "Ada" "female"
      "a portrait" "Hello" "voice-1" 1024 768 true false (fresh_world 0)
    = (Ret tt, w')
    /\ _first_url_from (video_item "completed") video_exts = Some u
    /\ selection path_ends_ci video_exts (collect (video_item "completed")) (Some u)
    /\ ((exists v, In v (collect (video_item "completed")) /\ path_ends_ci v ".mp4") ->
        first_such (fun v => path_ends_ci v ".mp4")
          (collect (video_item "completed")) u)
    /\ List.head (log w') = Some (EvPrint "✅ Best-guess video URL: {}" [VStr u])
    /\ sleeps (log w') = 2%nat
    /\ sleeps_last default_poll_s (log w')
    /\ fetches is_get_avatar (log w') = 3%nat
    /\ fetches is_video_generate (log w') = 1%nat
    /\ sleeps (since is_video_generate (log w')) = 0%nat
    /\ fetches is_aws_result (since is_video_generate (log w')) = 1%nat.
Proof.
  apply (end_to_end_scenario (video_item "completed") "Ada" "female" "a portrait"
           "Hello" "voice-1" 1024 768 true false 3);
    [lia | reflexivity | reflexivity | vm_compute; discriminate].
Defined.

Example scenario_prints_the_mp4_url :
  _first_url_from (video_item "completed") video_exts
  = Some "https://cdn.test/v/out.MP4?sig=1".
Proof. reflexivity. Qed.

(* ================================================================== *)
(** * More on the extractor *)
(* ================================================================== *)

Lemma take_url_chars_stops (s : string) :
  exists rest, s = Re.take_url_chars s ++ rest /\ stops_match rest.
Proof.
  induction s as [|c s (rest & Hs & Hstop)]; simpl.
  - exists "". split; [reflexivity | now left].
  - destruct (Re.url_char c) eqn:Hc; simpl.
    + exists rest. split; [now rewrite <- Hs | assumption].
    + exists (String c s). split; [reflexivity |]. right. now exists c, s.
Qed.

(** A match at the head of a text is as long as the pattern allows. *)
Lemma match_here_greedy (s m : string) :
  Re.match_here s = Some m -> exists post, s = m ++ post /\ stops_match post.
Proof.
  unfold Re.match_here, Re.after_scheme. intros H.
  assert (Hgen : forall scheme,
             String.prefix scheme s = true ->
             match Re.take_url_chars
                     (String.substring (String.length scheme)
                        (String.length s - String.length scheme) s) with
             | "" => None
             | body => Some (scheme ++ body)
             end = Some m ->
             exists post, s = m ++ post /\ stops_match post).
  { clear H. intros scheme Hp Hm. apply prefix_split in Hp.
    set (tail := String.substring (String.length scheme) _ s) in *.
    destruct (take_url_chars_stops tail) as (rest & Htail & Hstop).
    destruct (Re.take_url_chars tail) as [|c body] eqn:Hb; [discriminate |].
    injection Hm as <-. exists rest. split; [| assumption].
    now rewrite append_assoc, <- Htail. }
  destruct (String.prefix "https://" s) eqn:Hs.
  - now apply (Hgen "https://").
  - destruct (String.prefix "http://" s) eqn:Hp; [| discriminate].
    now apply (Hgen "http://").
Qed.

Lemma scan_matches (s : string) (skip : nat) (m : string) :
  In m (Re.scan skip s) ->
  exists pre post, s = pre ++ m ++ post /\ url_shaped m /\ stops_match post.
Proof.
  revert skip. induction s as [|c s IH]; intros skip Hin; simpl in Hin;
    [contradiction |].
  assert (Htail : forall k, In m (Re.scan k s) ->
            exists pre post,
              String c s = pre ++ m ++ post /\ url_shaped m /\ stops_match post).
  { intros k Hk. destruct (IH k Hk) as (pre & post & -> & Hshape & Hstop).
    now exists (String c pre), post. }
  destruct skip as [|k]; [| now apply (Htail k)].
  destruct (Re.match_here (String c s)) as [m0|] eqn:Hm; [| now apply (Htail 0%nat)].
  destruct Hin as [<- | Hin]; [| now apply (Htail _ Hin)].
  destruct (match_here_greedy _ _ Hm) as (post & Hs & Hstop).
  exists "", post. split; [exact Hs |]. split; [| assumption].
  now apply match_here_shape in Hm.
Qed.

(** X1. Every text [re.findall] returns for the URL pattern stands in the
    scanned string as it is, has the shape of the pattern (scheme http or
    https, then one or more characters free of white space and quotes) and
    is greedy: it ends at the end of the string or before a character the
    pattern does not admit. *)
Theorem findall_matches_are_maximal (s m : string) :
  In m (Re.findall s) ->
  exists pre post, s = pre ++ m ++ post /\ url_shaped m /\ stops_match post.
Proof. apply scan_matches. Qed.

Lemma findall_matches_are_maximal_witness :
  exists pre post,
    "poster: 'https://x/p.png', clip http://x/c.mp4"
    = pre ++ "https://x/p.png" ++ post
    /\ url_shaped "https://x/p.png" /\ stops_match post.
Proof.
  apply (findall_matches_are_maximal
           "poster: 'https://x/p.png', clip http://x/c.mp4" "https://x/p.png").
  vm_compute. left. reflexivity.
Defined.

(** X2. The extractor invents nothing: the URL it returns, whatever the
    list of extensions, stands as it is in some string leaf of the value and
    has the shape of the URL pattern. *)
Theorem extractor_returns_a_leaf_url (obj : value) (exts : list string) (u : string) :
  _first_url_from obj exts = Some u ->
  exists s pre post, leaf obj s /\ s = pre ++ u ++ post /\ url_shaped u.
Proof.
  intros Hu. apply first_url_in in Hu.
  destruct (collect_from_leaf obj u Hu) as (s & Hleaf & Hin).
  destruct (scan_matches s 0 u Hin) as (pre & post & Hs & Hshape & _).
  now exists s, pre, post.
Qed.

Lemma extractor_returns_a_leaf_url_witness :
  exists s pre post,
    leaf two_url_payload s /\ s = pre ++ jpg_url ++ post /\ url_shaped jpg_url.
Proof.
  apply (extractor_returns_a_leaf_url two_url_payload [".png"] jpg_url).
  reflexivity.
Defined.

(** What a leaf holds the walk collects. *)
Lemma leaf_collected (obj : value) (s u : string) :
  leaf obj s -> In u (Re.findall s) -> In u (collect obj).
Proof.
  intros Hleaf Hu.
  induction Hleaf as [s | items v s Hin _ IH | items k v s Hin _ IH].
  - exact Hu.
  - specialize (IH Hu). simpl.
    induction items as [|x items IHi]; [contradiction |].
    apply in_or_app. destruct Hin as [-> | Hin]; [now left | right; now apply IHi].
  - specialize (IH Hu). simpl.
    induction items as [|[k' x] items IHi]; [contradiction |].
    apply in_or_app. destruct Hin as [Heq | Hin];
      [injection Heq as _ ->; now left | right; now apply IHi].
Qed.

(** X3. The extractor answers [None] exactly when no string leaf of the
    value holds a substring of the URL shape: as soon as one leaf holds one,
    some URL is returned, whatever the list of extensions. *)
Theorem extractor_none_iff_no_url (obj : value) (exts : list string) :
  _first_url_from obj exts = None <-> (forall s, leaf obj s -> ~ has_url s).
Proof.
  split.
  - intros Hnone s Hleaf Hurl.
    destruct (Re.findall s) as [|u urls] eqn:Hfind;
      [now apply (findall_complete s Hurl) |].
    assert (Hin : In u (collect obj))
      by (apply (leaf_collected obj s u Hleaf); rewrite Hfind; now left).
    destruct (first_url_some obj exts) as [v Hv]; [| congruence].
    intros Hempty. rewrite Hempty in Hin. contradiction.
  - intros Hno.
    assert (Hempty : collect obj = []).
    { destruct (collect obj) as [|u urls] eqn:Hc; [reflexivity | exfalso].
      destruct (collect_from_leaf obj u) as (s & Hleaf & Hin).
      { rewrite Hc. now left. }
      rewrite (findall_no_url s (Hno s Hleaf)) in Hin. contradiction. }
    unfold _first_url_from. rewrite Hempty.
    induction exts as [|e exts IH]; simpl; [reflexivity | exact IH].
Qed.

Lemma before_query_app (u q : string) :
  Str.before_query (u ++ "?" ++ q) = Str.before_query u.
Proof.
  change ("?" ++ q) with (String "?"%char q).
  induction u as [|c u IH]; simpl; [reflexivity |].
  destruct (Ascii.eqb c "?"); [reflexivity | now rewrite IH].
Qed.

Lemma lower_app (a b : string) : Str.lower (a ++ b) = Str.lower a ++ Str.lower b.
Proof. induction a as [|c a IH]; simpl; [reflexivity | now rewrite IH]. Qed.

Lemma url_has_ext_query (ext u q : string) :
  url_has_ext ext (u ++ "?" ++ q) = url_has_ext ext u.
Proof.
  unfold url_has_ext. now rewrite !lower_before_query, before_query_app.
Qed.

Lemma find_map_invariant (f : string -> bool) (g : string -> string)
    (urls : list string) :
  (forall u, f (g u) = f u) ->
  List.find f (List.map g urls) = option_map g (List.find f urls).
Proof.
  intros Hfg. induction urls as [|u urls IH]; simpl; [reflexivity |].
  rewrite Hfg. destruct (f u); [reflexivity | exact IH].
Qed.

(** X4. A query string plays no part in the choice by extension: the test
    of the inner loop answers the same for a URL and for the URL with
    [?query] appended, and so the two loops over a list of URLs that all got
    the same query string appended choose the URL that was chosen before,
    with the query string. *)
Theorem query_string_is_ignored (exts urls : list string) (q : string) :
  (forall ext u, url_has_ext ext (u ++ "?" ++ q) = url_has_ext ext u)
  /\ prefer exts (List.map (fun u => u ++ "?" ++ q) urls)
     = option_map (fun u => u ++ "?" ++ q) (prefer exts urls).
Proof.
  split; [intros ext u; apply url_has_ext_query |].
  induction exts as [|ext exts IH]; cbn [prefer]; [reflexivity |].
  rewrite (find_map_invariant (url_has_ext ext) (fun u => u ++ "?" ++ q) urls
             (fun u => url_has_ext_query ext u q)).
  destruct (List.find (url_has_ext ext) urls); [reflexivity | exact IH].
Qed.

Lemma endswith_empty (s : string) : Str.endswith s "" = true.
Proof. apply endswith_spec. exists s. now rewrite append_nil_r. Qed.

(** X5. With no extension to prefer, or with the empty extension first
    (every URL ends with it), the extractor returns the first URL found; and
    a value that holds a single URL yields it whatever the list. *)
Theorem extractor_fallbacks (obj : value) (exts : list string) :
  _first_url_from obj [] = List.head (collect obj)
  /\ _first_url_from obj ("" :: exts) = List.head (collect obj)
  /\ (forall u, collect obj = [u] -> _first_url_from obj exts = Some u).
Proof.
  split; [reflexivity |]. split.
  - unfold _first_url_from. simpl.
    destruct (collect obj) as [|u urls]; simpl.
    + induction exts as [|e exts IH]; simpl; [reflexivity | exact IH].
    + unfold url_has_ext. now rewrite endswith_empty.
  - intros u Hone. destruct (first_url_some obj exts) as [v Hv];
      [rewrite Hone; discriminate |].
    pose proof (first_url_in obj exts v Hv) as Hin. rewrite Hone in Hin.
    destruct Hin as [<- | []]. exact Hv.
Qed.

Lemma extractor_fallbacks_witness :
  _first_url_from (VStr "get https://x/a.unknownext now") default_exts
  = Some "https://x/a.unknownext".
Proof.
  apply (proj2 (proj2 (extractor_fallbacks
                         (VStr "get https://x/a.unknownext now") default_exts))).
  reflexivity.
Defined.

(* ================================================================== *)
(** * More on the Poller *)
(* ================================================================== *)

Section PollerTraces.

Variable E : env.
Variable J : job.
Variables (id : value) (start timeout_s poll_s : Z).

Let body := poller_body E J id start timeout_s poll_s.

(** What one iteration adds to the log: one fetch, at most the status
    line, and a sleep exactly when the loop is to go on. *)
Lemma poller_body_trace (w : world) :
  exists evs,
    log (snd (body w)) = (evs ++ log w)%list
    /\ Forall (own_event J id poll_s) evs
    /\ fetches any_request evs = 1%nat
    /\ sleeps evs = (match fst (body w) with Ret None => 1 | _ => 0 end)%nat
    /\ (fst (body w) = Ret None ->
        0 <= fst (remote E (log w) (fetch J)) ->
        now w + poll_s <= now (snd (body w))
        /\ now w - start <= timeout_s).
Proof.
  unfold body, poller_body.
  destruct (remote E (log w) (fetch J)) as [latency [item|]] eqn:Hr; simpl;
    [| exists [EvHttp (fetch J) latency Failed];
       repeat (split; [reflexivity || (repeat constructor) |]); discriminate].
  destruct (status_of J item) as [status| e |]; simpl;
    [| exists [EvHttp (fetch J) latency (Reply item)];
       repeat (split; [reflexivity || (repeat constructor) |]); discriminate
     | exists [EvHttp (fetch J) latency (Reply item)];
       repeat (split; [reflexivity || (repeat constructor) |]); discriminate].
  assert (Hline : own_event J id poll_s (EvPrint (line J) [id; status]))
    by (split; [reflexivity | now exists status]).
  assert (Hshort : forall r : outcome (option value), r <> Ret None ->
    exists evs,
      log (fetched J id latency item status w) = (evs ++ log w)%list
      /\ Forall (own_event J id poll_s) evs
      /\ fetches any_request evs = 1%nat
      /\ sleeps evs = (match r with Ret None => 1 | _ => 0 end)%nat
      /\ (r = Ret None -> 0 <= latency ->
          now w + poll_s <= now (fetched J id latency item status w)
          /\ now w - start <= timeout_s)).
  { intros r Hr'. exists [EvPrint (line J) [id; status];
                          EvHttp (fetch J) latency (Reply item)].
    split; [reflexivity |].
    split; [constructor; [exact Hline | constructor; [reflexivity | constructor]] |].
    split; [reflexivity |]. split; [| contradiction].
    destruct r as [[a|]| |]; try reflexivity. contradiction. }
  assert (Hd : exists evs,
    log (snd (deadline_then_sleep J id start timeout_s poll_s
                (fetched J id latency item status w)))
    = (evs ++ log w)%list
    /\ Forall (own_event J id poll_s) evs
    /\ fetches any_request evs = 1%nat
    /\ sleeps evs
       = (match fst (deadline_then_sleep J id start timeout_s poll_s
                       (fetched J id latency item status w)) with
          | Ret None => 1 | _ => 0 end)%nat
    /\ (fst (deadline_then_sleep J id start timeout_s poll_s
               (fetched J id latency item status w)) = Ret None ->
        0 <= latency ->
        now w + poll_s
        <= now (snd (deadline_then_sleep J id start timeout_s poll_s
                       (fetched J id latency item status w)))
        /\ now w - start <= timeout_s)).
  { unfold deadline_then_sleep. cbn [now fetched].
    destruct (now w + latency - start >? timeout_s) eqn:Hgt;
      [apply Hshort; discriminate |].
    destruct (poll_s <? 0) eqn:Hneg; [apply Hshort; discriminate |].
    exists [EvSleep poll_s; EvPrint (line J) [id; status];
            EvHttp (fetch J) latency (Reply item)].
    split; [reflexivity |].
    split; [constructor; [reflexivity |];
            constructor; [exact Hline | constructor; [reflexivity | constructor]] |].
    split; [reflexivity |]. split; [reflexivity |].
    intros _ Hlat. simpl. lia. }
  unfold verdict.
  destruct status as [ | b | n | f | s | l | l ]; try exact Hd;
    try (apply Hshort; discriminate).
  destruct (classify (success J) (failure J) s); try exact Hd;
    apply Hshort; discriminate.
Qed.

(** A run of the loop: the events are the job's own, every sleep is
    followed by one more fetch, and there are no more sleeps than fuel. *)
Lemma poller_loop_trace (fuel : nat) (w : world) :
  exists evs,
    log (snd (while_true fuel body w)) = (evs ++ log w)%list
    /\ Forall (own_event J id poll_s) evs
    /\ (fetches any_request evs = S (sleeps evs)
        \/ (fst (while_true fuel body w) = OutOfFuel
            /\ fetches any_request evs = sleeps evs))
    /\ (sleeps evs <= fuel)%nat.
Proof.
  revert w. induction fuel as [|fuel IH]; intros w.
  - exists []. split; [reflexivity |]. split; [constructor |].
    split; [right; split; reflexivity | simpl; lia].
  - rewrite while_true_step.
    destruct (poller_body_trace w) as (evs & Hlog & Hown & Hfetch & Hsleep & _).
    destruct (body w) as [[[a|]| e |] w1]; simpl in *;
      try (exists evs; split; [assumption |]; split; [assumption |];
           split; [left; lia | lia]).
    destruct (IH w1) as (evs' & Hlog' & Hown' & Hcount & Hfuel).
    exists (evs' ++ evs)%list.
    split; [rewrite Hlog', Hlog; now rewrite app_assoc |].
    split; [now apply Forall_app |].
    rewrite fetches_app, sleeps_app. split; [| lia].
    destruct Hcount as [Hc | [Hout Hc]]; [left; lia | right; split; [assumption | lia]].
Qed.

(** With answers that do not come early, the [k]-th sleep begins no later
    than the deadline and no sooner than [k - 1] intervals after the start
    of the iteration the run began with. *)
Lemma poller_loop_sleep_bound (fuel : nat) (w : world) :
  never_early E (fetch J) ->
  exists evs,
    log (snd (while_true fuel body w)) = (evs ++ log w)%list
    /\ (sleeps evs = 0%nat
        \/ (now w - start) + (Z.of_nat (sleeps evs) - 1) * poll_s <= timeout_s).
Proof.
  intros Hlat. revert w. induction fuel as [|fuel IH]; intros w.
  - exists []. split; [reflexivity | now left].
  - rewrite while_true_step.
    destruct (poller_body_trace w) as (evs & Hlog & _ & _ & Hsleep & Hgo).
    specialize (Hlat (log w)).
    destruct (body w) as [[[a|]| e |] w1]; simpl in *;
      try (exists evs; split; [assumption | now left]).
    destruct (Hgo eq_refl Hlat) as [Hnow Hwithin].
    destruct (IH w1) as (evs' & Hlog' & Hbound).
    exists (evs' ++ evs)%list.
    split; [rewrite Hlog', Hlog; now rewrite app_assoc |].
    right. rewrite sleeps_app, Hsleep.
    destruct Hbound as [-> | Hbound]; [simpl; lia |].
    assert (0 <= Z.of_nat (sleeps evs')) by lia. nia.
Qed.

End PollerTraces.

(** X6. A fetch that fails (bad HTTP status, connection trouble, a body
    that is no JSON) is not caught by either wait loop: in whatever
    iteration it happens the exception of [requests] leaves the loop at
    once; nothing is printed, no sleep and no retry follow. *)
Theorem fetch_failure_is_not_retried (E : env) (self : A2EClient) (id : value)
    (start timeout_s poll_s : Z) (fuel : nat) (w : world) (latency : Z) :
  (remote E (log w) (GetAvatar id) = (latency, Failed) ->
   let failed :=
     (Raise RequestsError,
      {| now := now w + latency;
         log := EvHttp (GetAvatar id) latency Failed :: log w |}) in
   while_true (S fuel) (avatar_body E self id start timeout_s poll_s) w = failed
   /\ wait_until_avatar_ready E (S fuel) self id timeout_s poll_s w = failed)
  /\ (remote E (log w) (AwsResult id) = (latency, Failed) ->
      let failed :=
        (Raise RequestsError,
         {| now := now w + latency;
            log := EvHttp (AwsResult id) latency Failed :: log w |}) in
      while_true (S fuel) (video_body E self id start timeout_s poll_s) w = failed
      /\ wait_until_video_ready E (S fuel) self id timeout_s poll_s w = failed).
Proof.
  split; intros Hr failed; subst failed.
  - split.
    + rewrite (while_true_ext _ _ (avatar_body_is_poller E self id start timeout_s poll_s)).
      rewrite while_true_step. unfold poller_body. cbn [fetch avatar_job].
      now rewrite Hr.
    + rewrite wait_until_avatar_ready_is_poller. unfold poller.
      rewrite while_true_step. unfold poller_body. cbn [fetch avatar_job].
      now rewrite Hr.
  - split.
    + rewrite (while_true_ext _ _ (video_body_is_poller E self id start timeout_s poll_s)).
      rewrite while_true_step. unfold poller_body. cbn [fetch video_job].
      now rewrite Hr.
    + rewrite wait_until_video_ready_is_poller. unfold poller.
      rewrite while_true_step. unfold poller_body. cbn [fetch video_job].
      now rewrite Hr.
Qed.

Lemma fetch_failure_is_not_retried_witness :
  wait_until_avatar_ready (scripted_env None None (fun _ => Failed)) 9 a_client
    (VStr "av-1") 1800 20 (fresh_world 0)
  = (Raise RequestsError,
     {| now := 1; log := [EvHttp (GetAvatar (VStr "av-1")) 1 Failed] |})
  /\ wait_until_video_ready (scripted_env None None (fun _ => Failed)) 9 a_client
       (VStr "task-1") 1800 20 (fresh_world 0)
     = (Raise RequestsError,
        {| now := 1; log := [EvHttp (AwsResult (VStr "task-1")) 1 Failed] |}).
Proof.
  split.
  - apply (proj1 (fetch_failure_is_not_retried (scripted_env None None (fun _ => Failed))
                    a_client (VStr "av-1") 0 1800 20 8 (fresh_world 0) 1)).
    reflexivity.
  - apply (proj2 (fetch_failure_is_not_retried (scripted_env None None (fun _ => Failed))
                    a_client (VStr "task-1") 0 1800 20 8 (fresh_world 0) 1)).
    reflexivity.
Defined.

(** X7. Whatever the remote answers and however a wait ends, what it did
    is this and nothing else: it sent the status fetch of its own job, with
    the id it was given; it printed status lines for that id; it slept the
    poll interval, never another length. Every sleep was followed by one
    more fetch (one fetch more than sleeps, unless the run stopped for lack
    of fuel right after a sleep), and a run of [fuel] iterations slept at
    most [fuel] times. *)
Theorem wait_does_only_its_own (E : env) (self : A2EClient) (id : value)
    (timeout_s poll_s : Z) (fuel : nat) (w : world) :
  (exists evs,
     log (snd (wait_until_avatar_ready E fuel self id timeout_s poll_s w))
     = (evs ++ log w)%list
     /\ Forall (own_event (avatar_job id) id poll_s) evs
     /\ (fetches any_request evs = S (sleeps evs)
         \/ (fst (wait_until_avatar_ready E fuel self id timeout_s poll_s w)
             = OutOfFuel
             /\ fetches any_request evs = sleeps evs))
     /\ (sleeps evs <= fuel)%nat)
  /\ (exists evs,
        log (snd (wait_until_video_ready E fuel self id timeout_s poll_s w))
        = (evs ++ log w)%list
        /\ Forall (own_event (video_job id) id poll_s) evs
        /\ (fetches any_request evs = S (sleeps evs)
            \/ (fst (wait_until_video_ready E fuel self id timeout_s poll_s w)
                = OutOfFuel
                /\ fetches any_request evs = sleeps evs))
        /\ (sleeps evs <= fuel)%nat).
Proof.
  split.
  - rewrite wait_until_avatar_ready_is_poller.
    apply (poller_loop_trace E (avatar_job id) id (now w) timeout_s poll_s fuel w).
  - rewrite wait_until_video_ready_is_poller.
    apply (poller_loop_trace E (video_job id) id (now w) timeout_s poll_s fuel w).
Qed.

Lemma sleeps_within_timeout (timeout_s poll_s : Z) (k : nat) :
  0 < poll_s ->
  k = 0%nat \/ 0 + (Z.of_nat k - 1) * poll_s <= timeout_s ->
  Z.of_nat k <= Z.max 0 (timeout_s / poll_s + 1).
Proof.
  intros Hpoll [-> | Hk]; [simpl; lia |].
  assert (Z.of_nat k - 1 <= timeout_s / poll_s)
    by (apply Z.div_le_lower_bound; lia).
  lia.
Qed.

(** X8. The number of sleeps of a wait is bounded by its arguments: when
    the poll interval is positive and no answer comes back before it was
    asked for, a wait sleeps at most [timeout_s / poll_s + 1] times (not at
    all for a negative time-out), however long it is let run and whatever
    the remote answers. With the defaults, 1800 and 20, that is 91 sleeps
    and so 92 fetches at most. *)
Theorem sleeps_are_bounded (E : env) (self : A2EClient) (id : value)
    (timeout_s poll_s : Z) (fuel : nat) (w : world) :
  0 < poll_s ->
  (never_early E (GetAvatar id) ->
   exists evs,
     log (snd (wait_until_avatar_ready E fuel self id timeout_s poll_s w))
     = (evs ++ log w)%list
     /\ Z.of_nat (sleeps evs) <= Z.max 0 (timeout_s / poll_s + 1))
  /\ (never_early E (AwsResult id) ->
      exists evs,
        log (snd (wait_until_video_ready E fuel self id timeout_s poll_s w))
        = (evs ++ log w)%list
        /\ Z.of_nat (sleeps evs) <= Z.max 0 (timeout_s / poll_s + 1)).
Proof.
  intros Hpoll. split; intros Hlat.
  - rewrite wait_until_avatar_ready_is_poller. unfold poller.
    destruct (poller_loop_sleep_bound E (avatar_job id) id (now w) timeout_s poll_s
                fuel w Hlat) as (evs & Hlog & Hbound).
    exists evs. split; [assumption |].
    apply sleeps_within_timeout; [assumption |].
    destruct Hbound as [H0 | Hb]; [now left | right; lia].
  - rewrite wait_until_video_ready_is_poller. unfold poller.
    destruct (poller_loop_sleep_bound E (video_job id) id (now w) timeout_s poll_s
                fuel w Hlat) as (evs & Hlog & Hbound).
    exists evs. split; [assumption |].
    apply sleeps_within_timeout; [assumption |].
    destruct Hbound as [H0 | Hb]; [now left | right; lia].
Qed.

Lemma sleeps_are_bounded_witness :
  exists evs,
    log (snd (wait_until_avatar_ready (steady_env 3 "training") 500 a_client
                (VStr "av-1") default_timeout_s default_poll_s (fresh_world 0)))
    = (evs ++ log (fresh_world 0))%list
    /\ Z.of_nat (sleeps evs) <= Z.max 0 (default_timeout_s / default_poll_s + 1).
Proof.
  apply (proj1 (sleeps_are_bounded (steady_env 3 "training") a_client (VStr "av-1")
                  default_timeout_s default_poll_s 500 (fresh_world 0)
                  ltac:(reflexivity))).
  intros h. simpl. lia.
Defined.

Example default_wait_sleeps_at_most_91_times :
  Z.max 0 (default_timeout_s / default_poll_s + 1) = 91.
Proof. reflexivity. Qed.

Lemma verdict_other_type (J : job) (id item status : value)
    (start timeout_s poll_s : Z) (w : world) :
  is_text status = false ->
  verdict J id item status start timeout_s poll_s w
  = if unhashable status then (Raise TypeError, w)
    else deadline_then_sleep J id start timeout_s poll_s w.
Proof. destruct status; try reflexivity; discriminate. Qed.

(** X9. A status that is no text: [None], a boolean or a number is in
    neither vocabulary and counts as pending (deadline, then sleep); a list
    or a dict cannot be looked up in a set, and the iteration raises
    [TypeError] once the status line is printed. *)
Theorem status_of_another_type (E : env) (self : A2EClient) (id : value)
    (start timeout_s poll_s : Z) (w : world)
    (latency : Z) (item status : value) :
  is_text status = false ->
  (remote E (log w) (GetAvatar id) = (latency, Reply item) ->
   avatar_status item = Ret status ->
   avatar_body E self id start timeout_s poll_s w
   = let w1 := fetched (avatar_job id) id latency item status w in
     if unhashable status then (Raise TypeError, w1)
     else deadline_then_sleep (avatar_job id) id start timeout_s poll_s w1)
  /\ (remote E (log w) (AwsResult id) = (latency, Reply item) ->
      video_status item = Ret status ->
      video_body E self id start timeout_s poll_s w
      = let w1 := fetched (video_job id) id latency item status w in
        if unhashable status then (Raise TypeError, w1)
        else deadline_then_sleep (video_job id) id start timeout_s poll_s w1).
Proof.
  intros Htext. split; intros Hr Hst.
  - rewrite avatar_body_is_poller.
    rewrite (poller_body_fetched E (avatar_job id) id start timeout_s poll_s
               w latency item status Hr Hst).
    now apply verdict_other_type.
  - rewrite video_body_is_poller.
    rewrite (poller_body_fetched E (video_job id) id start timeout_s poll_s
               w latency item status Hr Hst).
    now apply verdict_other_type.
Qed.

Lemma status_of_another_type_witness :
  avatar_body (fixed_env listed_status_answer) a_client (VStr "av-1") 0 1800 20
    (fresh_world 0)
  = (Raise TypeError,
     {| now := 1;
        log := [EvPrint "[avatar:{}] status = {}" [VStr "av-1"; VList [VStr "ready"]];
                EvHttp (GetAvatar (VStr "av-1")) 1 (Reply listed_status_answer)] |})
  /\ video_body (fixed_env numbered_status_answer) a_client (VStr "task-1") 0 1800 20
       (fresh_world 0)
     = (Ret None,
        {| now := 21;
           log := [EvSleep 20;
                   EvPrint "[video:{}] status = {}" [VStr "task-1"; VInt 2];
                   EvHttp (AwsResult (VStr "task-1")) 1 (Reply numbered_status_answer)] |}).
Proof.
  split.
  - apply (proj1 (status_of_another_type (fixed_env listed_status_answer) a_client
                    (VStr "av-1") 0 1800 20 (fresh_world 0) 1 listed_status_answer
                    (VList [VStr "ready"]) eq_refl));
      reflexivity.
  - apply (proj2 (status_of_another_type (fixed_env numbered_status_answer) a_client
                    (VStr "task-1") 0 1800 20 (fresh_world 0) 1 numbered_status_answer
                    (VInt 2) eq_refl));
      reflexivity.
Defined.

Lemma avatar_unusable_status (item : value) :
  avatar_answer_unusable item -> avatar_status item = Raise AttributeError.
Proof.
  unfold avatar_status, and_then, Py.get, Py.or_.
  intros [it Hd | fields data Hl Ht Hd].
  - destruct it; try reflexivity; discriminate.
  - rewrite Hl, Ht. destruct data; try reflexivity; discriminate.
Qed.

(** X10. An answer on which the status cannot be read stops the wait with
    [AttributeError] right after the fetch, nothing printed, no sleep: for
    the avatar an answer that is no dict, or whose [data] is truthy but no
    dict (only a missing or falsy [data] is replaced by an empty dict); for
    the video an answer that is no dict. *)
Theorem unreadable_answer_is_attribute_error (E : env) (self : A2EClient)
    (id : value) (timeout_s poll_s : Z) (fuel : nat) (w : world)
    (latency : Z) (item : value) :
  (remote E (log w) (GetAvatar id) = (latency, Reply item) ->
   avatar_answer_unusable item ->
   wait_until_avatar_ready E (S fuel) self id timeout_s poll_s w
   = (Raise AttributeError,
      {| now := now w + latency;
         log := EvHttp (GetAvatar id) latency (Reply item) :: log w |}))
  /\ (remote E (log w) (AwsResult id) = (latency, Reply item) ->
      Py.is_dict item = false ->
      wait_until_video_ready E (S fuel) self id timeout_s poll_s w
      = (Raise AttributeError,
         {| now := now w + latency;
            log := EvHttp (AwsResult id) latency (Reply item) :: log w |})).
Proof.
  split.
  - intros Hr Hbad. rewrite wait_until_avatar_ready_is_poller. unfold poller.
    rewrite while_true_step. unfold poller_body. cbn [fetch status_of avatar_job].
    now rewrite Hr, (avatar_unusable_status item Hbad).
  - intros Hr Hbad. rewrite wait_until_video_ready_is_poller. unfold poller.
    rewrite while_true_step. unfold poller_body. cbn [fetch status_of video_job].
    rewrite Hr.
    assert (Hst : video_status item = Raise AttributeError)
      by (destruct item; try reflexivity; discriminate).
    now rewrite Hst.
Qed.

Lemma unreadable_answer_is_attribute_error_witness :
  wait_until_avatar_ready (fixed_env listed_data_answer) 4 a_client (VStr "av-1")
    1800 20 (fresh_world 0)
  = (Raise AttributeError,
     {| now := 1;
        log := [EvHttp (GetAvatar (VStr "av-1")) 1 (Reply listed_data_answer)] |})
  /\ wait_until_video_ready (fixed_env (VStr "busy")) 4 a_client (VStr "task-1")
       1800 20 (fresh_world 0)
     = (Raise AttributeError,
        {| now := 1;
           log := [EvHttp (AwsResult (VStr "task-1")) 1 (Reply (VStr "busy"))] |}).
Proof.
  split.
  - apply (proj1 (unreadable_answer_is_attribute_error (fixed_env listed_data_answer)
                    a_client (VStr "av-1") 1800 20 3 (fresh_world 0) 1
                    listed_data_answer));
      [reflexivity |].
    apply (data_no_dict _ (VList [VDict [("current_status", VStr "ready")]]));
      reflexivity.
  - apply (proj2 (unreadable_answer_is_attribute_error (fixed_env (VStr "busy"))
                    a_client (VStr "task-1") 1800 20 3 (fresh_world 0) 1 (VStr "busy")));
      reflexivity.
Defined.

(** X11. A negative poll interval is found out late: the fetch is sent and
    the status judged first, so a success still returns; only a pending
    status within the deadline reaches the sleep, which raises [ValueError],
    and past the deadline the time-out error comes first. *)
Theorem negative_poll_interval (E : env) (self : A2EClient) (id : value)
    (timeout_s poll_s : Z) (fuel : nat) (w : world)
    (latency : Z) (item status : value) :
  poll_s < 0 ->
  (remote E (log w) (GetAvatar id) = (latency, Reply item) ->
   avatar_status item = Ret status ->
   pending (avatar_job id) status ->
   wait_until_avatar_ready E (S fuel) self id timeout_s poll_s w
   = (Raise (if latency >? timeout_s
             then TimeoutError "Timed out waiting for avatar {} to be ready" [id]
             else ValueError),
      fetched (avatar_job id) id latency item status w))
  /\ (remote E (log w) (AwsResult id) = (latency, Reply item) ->
      video_status item = Ret status ->
      pending (video_job id) status ->
      wait_until_video_ready E (S fuel) self id timeout_s poll_s w
      = (Raise (if latency >? timeout_s
                then TimeoutError "Timed out waiting for video task {} to be ready"
                       [id]
                else ValueError),
         fetched (video_job id) id latency item status w)).
Proof.
  intros Hneg.
  assert (Hlt : (poll_s <? 0) = true) by lia.
  assert (Hsame : (now w + latency - now w >? timeout_s) = (latency >? timeout_s))
    by (f_equal; lia).
  split; intros Hr Hst Hp.
  - rewrite wait_until_avatar_ready_is_poller. unfold poller.
    rewrite while_true_step.
    rewrite (poller_body_fetched E (avatar_job id) id (now w) timeout_s poll_s
               w latency item status Hr Hst).
    rewrite (verdict_pending (avatar_job id) id (now w) timeout_s poll_s _ item
               status Hp).
    unfold deadline_then_sleep. cbn [now fetched]. rewrite Hsame, Hlt.
    now destruct (latency >? timeout_s).
  - rewrite wait_until_video_ready_is_poller. unfold poller.
    rewrite while_true_step.
    rewrite (poller_body_fetched E (video_job id) id (now w) timeout_s poll_s
               w latency item status Hr Hst).
    rewrite (verdict_pending (video_job id) id (now w) timeout_s poll_s _ item
               status Hp).
    unfold deadline_then_sleep. cbn [now fetched]. rewrite Hsame, Hlt.
    now destruct (latency >? timeout_s).
Qed.

Lemma negative_poll_interval_witness :
  wait_until_avatar_ready (steady_env 1 "training") 4 a_client (VStr "av-1") 1800 (-5)
    (fresh_world 0)
  = (Raise ValueError,
     fetched (avatar_job (VStr "av-1")) (VStr "av-1") 1 (avatar_item "training")
       (VStr "training") (fresh_world 0)).
Proof.
  apply (proj1 (negative_poll_interval (steady_env 1 "training") a_client
                  (VStr "av-1") 1800 (-5) 3 (fresh_world 0) 1
                  (avatar_item "training") (VStr "training") ltac:(lia)));
    [reflexivity | reflexivity | split; vm_compute; reflexivity].
Defined.

(* ================================================================== *)
(** * More on the driver *)
(* ================================================================== *)

Lemma get_field (key : string) (fields : list (string * value)) :
  Py.get (VDict fields) key = Ret (field key fields).
Proof. reflexivity. Qed.

Ltac unfold_driver :=
  unfold stage_image, stage_approval, stage_train, stage_tts, stage_video,
    start_avatar_training_from_image, text2image, download_file,
    list_custom_anchors, create_video, video_result, generate_tts, _print_json,
    input, path_resolve;
  unfold bind, print, emit, http, lift, raise, ret; cbn [log now].

Ltac tidy := cbv beta iota zeta; cbn [log now].

(** X12. Without the token in the environment the driver stops at once
    with the error on the missing variable: nothing is printed and no call
    leaves the program. *)
Theorem missing_token_stops_the_run (E : env) (fuel : nat)
    (name gender prompt script voice_id : string) (width height : Z)
    (auto_approve lip_sync : bool) (w : world) :
  getenv E "A2E_API_TOKEN" = None ->
  run_pipeline E fuel name gender prompt script voice_id width height
    auto_approve lip_sync w
  = (Raise (RuntimeError "Missing required env var: {}" [VStr "A2E_API_TOKEN"]), w).
Proof. intros Hnone. unfold run_pipeline, _env. now rewrite Hnone. Qed.

Lemma missing_token_stops_the_run_witness :
  run_pipeline (scripted_env None (Some "y") happy_answer) 3 "Ada" "female"
    "a portrait" "Hello" "voice-1" 1024 768 true true (fresh_world 0)
  = (Raise (RuntimeError "Missing required env var: {}" [VStr "A2E_API_TOKEN"]),
     fresh_world 0).
Proof.
  apply (missing_token_stops_the_run (scripted_env None (Some "y") happy_answer)).
  reflexivity.
Defined.

Lemma no_image_urls_found (fields : list (string * value)) :
  no_image_urls fields ->
  exists found,
    Py.get (Py.or_ (field "data" fields) (VDict [])) "image_urls" = Ret found
    /\ Py.truthy (Py.or_ found (VList [])) = false.
Proof.
  unfold field, Py.or_.
  intros [f H | f data H Hd | f data H Hu | f data urls H Hu Ht]; rewrite H.
  - exists VNone. split; reflexivity.
  - rewrite Hd. exists VNone. split; reflexivity.
  - exists VNone. destruct data; [split; reflexivity |].
    cbn [Py.truthy Py.get]. rewrite Hu. split; reflexivity.
  - exists urls. destruct data; [discriminate |].
    cbn [Py.truthy Py.get]. rewrite Hu. unfold Py.or_ in Ht |- *.
    rewrite Ht. split; reflexivity.
Qed.

(** X13. When the answer to the image generation is a dict that holds no
    picture (no [data] or a falsy one, no [image_urls] or an empty one), the
    driver stops with the error on the missing image URLs once the answer is
    printed: nothing is downloaded and no training is started. *)
Theorem no_picture_stops_the_run (E : env) (fuel : nat)
    (name gender prompt script voice_id : string) (width height : Z)
    (auto_approve lip_sync : bool) (w : world)
    (secret : string) (latency : Z) (fields : list (string * value)) :
  getenv E "A2E_API_TOKEN" = Some secret ->
  remote E (EvPrint "[1/6] Generating image from prompt…" [] :: log w)
    (Text2Image name prompt width height) = (latency, Reply (VDict fields)) ->
  no_image_urls fields ->
  run_pipeline E fuel name gender prompt script voice_id width height
    auto_approve lip_sync w
  = (Raise (RuntimeError "No image_urls returned from text2image." []),
     {| now := now w + latency;
        log := EvPrint "{}" [VDict fields]
               :: EvPrint "== {} ==" [VStr "text2image response"]
               :: EvHttp (Text2Image name prompt width height) latency
                    (Reply (VDict fields))
               :: EvPrint "[1/6] Generating image from prompt…" [] :: log w |}).
Proof.
  intros Htoken Hr Hnone.
  destruct (no_image_urls_found fields Hnone) as (found & Hfound & Hfalsy).
  unfold run_pipeline, _env. rewrite Htoken.
  rewrite (bind_run _ _ w w secret eq_refl).
  apply bind_raise. unfold_driver. rewrite Hr, get_field. cbv beta iota.
  rewrite Hfound. cbv beta iota. now rewrite Hfalsy.
Qed.

Lemma no_picture_stops_the_run_witness :
  run_pipeline
    (scripted_env (Some "secret") (Some "y")
       (answer_but is_text2image (Reply (VDict [("code", VInt 0); ("data", VNone)]))))
    3 "Ada" "female" "a portrait" "Hello" "voice-1" 1024 768 true true (fresh_world 0)
  = (Raise (RuntimeError "No image_urls returned from text2image." []),
     {| now := 0 + 1;
        log := [EvPrint "{}" [VDict [("code", VInt 0); ("data", VNone)]];
                EvPrint "== {} ==" [VStr "text2image response"];
                EvHttp (Text2Image "Ada" "a portrait" 1024 768) 1
                  (Reply (VDict [("code", VInt 0); ("data", VNone)]));
                EvPrint "[1/6] Generating image from prompt…" []] |}).
Proof.
  apply (no_picture_stops_the_run
           (scripted_env (Some "secret") (Some "y")
              (answer_but is_text2image
                 (Reply (VDict [("code", VInt 0); ("data", VNone)]))))
           3 "Ada" "female" "a portrait" "Hello" "voice-1" 1024 768 true true
           (fresh_world 0) "secret" 1 [("code", VInt 0); ("data", VNone)]);
    [reflexivity | reflexivity |].
  apply (image_data_falsy _ VNone); reflexivity.
Defined.

Lemma yes_answers (ans : string) :
  ans ∈ ({[ "y"; "yes" ]} : gset string) <-> ans = "y" \/ ans = "yes".
Proof. set_solver. Qed.

(** X14. The approval gate. With [auto_approve] nothing is asked. Without
    it the line typed is stripped of surrounding white space and
    lower-cased, and only [y] and [yes] let the run go on; after any other
    line the driver prints that it was aborted and returns normally, no
    training request sent; when the input is at its end, [EOFError] is
    raised. *)
Theorem approval_gate (E : env) (fuel : nat)
    (name gender prompt script voice_id : string) (width height : Z)
    (lip_sync : bool) (w wa : world) (secret image_url : string) :
  let question := "Proceed to train avatar with this image? [y/N] " in
  let asked typed :=
    {| now := now wa; log := EvInput question typed :: log wa |} in
  stage_approval E true wa = (Ret true, wa)
  /\ (stdin E (log wa) = None ->
      stage_approval E false wa = (Raise EOFError, asked None))
  /\ (forall typed,
        stdin E (log wa) = Some typed ->
        (Str.lower (Str.strip typed) = "y" \/ Str.lower (Str.strip typed) = "yes") ->
        stage_approval E false wa = (Ret true, asked (Some typed)))
  /\ (forall typed,
        stdin E (log wa) = Some typed ->
        Str.lower (Str.strip typed) <> "y" ->
        Str.lower (Str.strip typed) <> "yes" ->
        getenv E "A2E_API_TOKEN" = Some secret ->
        stage_image E
          {| token := secret;
             base := match getenv E "A2E_BASE" with
                     | Some b => b
                     | None => "https://video.a2e.ai"
                     end;
             timeout := 60 |} name prompt width height w
        = (Ret image_url, wa) ->
        run_pipeline E fuel name gender prompt script voice_id width height
          false lip_sync w
        = (Ret tt,
           {| now := now wa;
              log := EvPrint "Aborted by user before training." []
                     :: EvInput question (Some typed) :: log wa |})).
Proof.
  intros question asked. split; [reflexivity |]. split; [| split].
  - intros Hin. unfold_driver. cbn [negb]. cbv beta zeta. now rewrite Hin.
  - intros typed Hin Hyes. unfold_driver. cbn [negb]. cbv beta zeta. rewrite Hin.
    apply yes_answers in Hyes. now rewrite (bool_decide_eq_true_2 _ Hyes).
  - intros typed Hin Hy Hyes Htoken Himage.
    assert (Hno : Str.lower (Str.strip typed) ∉ ({[ "y"; "yes" ]} : gset string))
      by (rewrite yes_answers; tauto).
    assert (Hgate : stage_approval E false wa
                    = (Ret false,
                       {| now := now wa;
                          log := EvPrint "Aborted by user before training." []
                                 :: EvInput question (Some typed) :: log wa |})).
    { unfold_driver. cbn [negb]. cbv beta zeta. rewrite Hin.
      now rewrite (bool_decide_eq_false_2 _ Hno). }
    unfold run_pipeline, _env. rewrite Htoken.
    rewrite (bind_run _ _ w w secret eq_refl). cbv zeta.
    rewrite (bind_run _ _ _ _ _ Himage), (bind_run _ _ _ _ _ Hgate).
    reflexivity.
Qed.

Lemma approval_gate_witness :
  stage_approval (scripted_env (Some "secret") (Some "  YES ") happy_answer) false
    (fresh_world 0)
  = (Ret true,
     {| now := 0;
        log := [EvInput "Proceed to train avatar with this image? [y/N] "
                  (Some "  YES ")] |})
  /\ exists wa,
       run_pipeline (scripted_env (Some "secret") (Some "yes please") happy_answer)
         3 "Ada" "female" "a portrait" "Hello" "voice-1" 1024 768 false true
         (fresh_world 0)
       = (Ret tt,
          {| now := now wa;
             log := EvPrint "Aborted by user before training." []
                    :: EvInput "Proceed to train avatar with this image? [y/N] "
                         (Some "yes please")
                    :: log wa |}).
Proof.
  split.
  - apply (proj1 (proj2 (proj2
             (approval_gate (scripted_env (Some "secret") (Some "  YES ") happy_answer)
                3 "Ada" "female" "a portrait" "Hello" "voice-1" 1024 768 true
                (fresh_world 0) (fresh_world 0) "secret" "")))
             "  YES ");
      [reflexivity | right; reflexivity].
  - eexists.
    eapply (proj2 (proj2 (proj2
              (approval_gate
                 (scripted_env (Some "secret") (Some "yes please") happy_answer)
                 3 "Ada" "female" "a portrait" "Hello" "voice-1" 1024 768 true
                 (fresh_world 0) _ "secret" _)))
              "yes please");
      [reflexivity | discriminate | discriminate | reflexivity | run_to_unknown].
Defined.

(** X15. An image URL with a blank in it never leaves the client: the
    training call raises [ValueError] before anything is sent, the world
    untouched; any other URL is sent as it is, in one request. *)
Theorem training_url_has_no_blank (E : env) (self : A2EClient)
    (name gender image_url : string) (w : world) :
  (Str.has_blank image_url = true ->
   start_avatar_training_from_image E self name gender image_url w
   = (Raise ValueError, w))
  /\ (Str.has_blank image_url = false ->
      exists latency rp,
        log (snd (start_avatar_training_from_image E self name gender image_url w))
        = EvHttp (StartTraining name gender image_url) latency rp :: log w).
Proof.
  unfold start_avatar_training_from_image. split; intros Hb; rewrite Hb;
    [reflexivity |].
  unfold bind, lift, raise, ret, http.
  destruct (remote E (log w) (StartTraining name gender image_url))
    as [latency [data|]]; [| now exists latency, Failed].
  exists latency, (Reply data).
  destruct data; try reflexivity. cbn [Py.get].
  destruct (negb _); reflexivity.
Qed.

Lemma training_url_has_no_blank_witness :
  start_avatar_training_from_image (scripted_env None None happy_answer) a_client
    "Ada" "female" "https://cdn.test/img/my face.png" (fresh_world 0)
  = (Raise ValueError, fresh_world 0)
  /\ exists latency rp,
       log (snd (start_avatar_training_from_image
                   (scripted_env None None happy_answer) a_client
                   "Ada" "female" "https://cdn.test/img/my%20face.png" (fresh_world 0)))
       = EvHttp (StartTraining "Ada" "female" "https://cdn.test/img/my%20face.png")
           latency rp
         :: log (fresh_world 0).
Proof.
  split.
  - apply (proj1 (training_url_has_no_blank (scripted_env None None happy_answer)
                    a_client "Ada" "female" "https://cdn.test/img/my face.png"
                    (fresh_world 0))).
    reflexivity.
  - apply (proj2 (training_url_has_no_blank (scripted_env None None happy_answer)
                    a_client "Ada" "female" "https://cdn.test/img/my%20face.png"
                    (fresh_world 0))).
    reflexivity.
Defined.

(** X16. How step 3 ends on the answer to the training start. A dict with
    a code other than [0] and [None] is turned into an API error by the
    client, before the answer is printed. A dict without a code passes the
    client, which takes [None] for success, and is then refused by the
    driver, which wants [0]. An answer that is no dict passes the client
    unchecked and makes the driver raise [AttributeError]. A code [0]
    without an avatar id is the error on the missing id. In none of these
    cases is the avatar status fetched. *)
Theorem training_start_answer (E : env) (fuel : nat) (client : A2EClient)
    (name gender image_url : string) (w : world) (latency : Z) (data : value) :
  let call := StartTraining name gender image_url in
  let announced := EvPrint "[2/6] Starting avatar training from image URL…" [] in
  let sent :=
    {| now := now w + latency;
       log := EvHttp call latency (Reply data) :: announced :: log w |} in
  let printed :=
    {| now := now w + latency;
       log := EvPrint "{}" [data]
              :: EvPrint "== {} ==" [VStr "startTraining response"] :: log sent |} in
  Str.has_blank image_url = false ->
  remote E (announced :: log w) call = (latency, Reply data) ->
  (forall fields,
     data = VDict fields -> client_accepts (field "code" fields) = false ->
     stage_train E fuel client name gender image_url w
     = (Raise (RuntimeError "A2E API error (code={}): {}"
                 [field "code" fields;
                  Py.or_ (field "msg" fields) (field "message" fields)]),
        sent))
  /\ (forall fields,
        data = VDict fields -> field "code" fields = VNone ->
        stage_train E fuel client name gender image_url w
        = (Raise (RuntimeError "Avatar startTraining failed." []), printed))
  /\ (Py.is_dict data = false ->
      stage_train E fuel client name gender image_url w
      = (Raise AttributeError, printed))
  /\ (forall fields avatar_id,
        data = VDict fields -> Py.eq_zero (field "code" fields) = true ->
        Py.get (Py.or_ (field "data" fields) (VDict [])) "_id" = Ret avatar_id ->
        Py.truthy avatar_id = false ->
        stage_train E fuel client name gender image_url w
        = (Raise (RuntimeError "No avatar_id returned from startTraining." []),
           printed)).
Proof.
  intros call announced sent printed Hblank Hr. subst call announced sent printed.
  split; [| split; [| split]].
  - intros fields -> Hcode. unfold_driver. rewrite Hblank. tidy.
    rewrite Hr, !get_field. tidy. unfold client_accepts in Hcode.
    now rewrite Hcode.
  - intros fields -> Hcode. unfold_driver. rewrite Hblank. tidy.
    rewrite Hr, !get_field. tidy. rewrite Hcode.
    cbn [Py.eq_zero Py.is_none negb orb]. tidy. rewrite !get_field, Hcode.
    reflexivity.
  - intros Hd. unfold_driver. rewrite Hblank. tidy. rewrite Hr.
    destruct data; try reflexivity; discriminate.
  - intros fields avatar_id -> Hcode Hid Hfalsy. unfold_driver. rewrite Hblank.
    tidy. rewrite Hr, !get_field. tidy. rewrite Hcode.
    cbn [negb orb]. tidy. rewrite !get_field, Hcode. cbn [negb]. tidy.
    rewrite Hid. tidy. now rewrite Hfalsy.
Qed.

Lemma training_start_answer_witness :
  stage_train
    (scripted_env (Some "secret") None
       (answer_but is_start_training (Reply codeless_answer)))
    3 a_client "Ada" "female" "https://cdn.test/img/face.png" (fresh_world 0)
  = (Raise (RuntimeError "Avatar startTraining failed." []),
     {| now := 0 + 1;
        log := [EvPrint "{}" [codeless_answer];
                EvPrint "== {} ==" [VStr "startTraining response"];
                EvHttp (StartTraining "Ada" "female" "https://cdn.test/img/face.png")
                  1 (Reply codeless_answer);
                EvPrint "[2/6] Starting avatar training from image URL…" []] |}).
Proof.
  apply (proj1 (proj2
           (training_start_answer
              (scripted_env (Some "secret") None
                 (answer_but is_start_training (Reply codeless_answer)))
              3 a_client "Ada" "female" "https://cdn.test/img/face.png"
              (fresh_world 0) 1 codeless_answer eq_refl eq_refl))
           [("data", VDict [("_id", VStr "av-1")])]);
    reflexivity.
Defined.

(** X17. The follow-up training. Without [lip_sync] the step does nothing.
    With it, a failure of the follow-up call itself is fatal, but whatever
    the second wait raises (failure status, time-out, a malformed answer, a
    failed fetch) is caught: the step prints a warning with the exception
    and ends normally, so the run goes on to the speech synthesis. *)
Theorem lip_sync_wait_errors_are_swallowed (E : env) (fuel : nat)
    (client : A2EClient) (avatar_id : value) (w : world) (latency : Z) :
  let call := ContinueTraining avatar_id in
  let announced :=
    EvPrint "[4/6] Triggering follow-up lip-sync training (continueTranining)…" [] in
  let rechecking cont :=
    {| now := now w + latency;
       log := EvPrint "Re-checking avatar readiness after continueTranining…" []
              :: EvPrint "{}" [cont]
              :: EvPrint "== {} ==" [VStr "continueTranining response"]
              :: EvHttp call latency (Reply cont) :: announced :: log w |} in
  stage_lip_sync E fuel client false avatar_id w = (Ret tt, w)
  /\ (remote E (announced :: log w) call = (latency, Failed) ->
      stage_lip_sync E fuel client true avatar_id w
      = (Raise RequestsError,
         {| now := now w + latency;
            log := EvHttp call latency Failed :: announced :: log w |}))
  /\ (forall cont,
        remote E (announced :: log w) call = (latency, Reply cont) ->
        (forall e, fst (stage_lip_sync E fuel client true avatar_id w) <> Raise e)
        /\ (forall e w1,
              wait_until_avatar_ready E fuel client avatar_id
                default_timeout_s default_poll_s (rechecking cont)
              = (Raise e, w1) ->
              stage_lip_sync E fuel client true avatar_id w
              = (Ret tt,
                 {| now := now w1;
                    log := EvPrintExn "Warning: post-continue wait error: {}" e
                           :: log w1 |}))).
Proof.
  intros call announced rechecking. subst call announced rechecking.
  split; [reflexivity |]. split.
  - intros Hr. unfold stage_lip_sync, continue_training.
    unfold bind at 1. unfold print, emit. tidy.
    unfold bind at 1. unfold http. tidy. now rewrite Hr.
  - intros cont Hr.
    assert (Hstep : forall (k : M unit),
      (print "[4/6] Triggering follow-up lip-sync training (continueTranining)…" [] ;;;
       cont0 <- continue_training E client avatar_id ;;
       _print_json "continueTranining response" cont0 ;;; k) w
      = k {| now := now w + latency;
             log := EvPrint "{}" [cont]
                    :: EvPrint "== {} ==" [VStr "continueTranining response"]
                    :: EvHttp (ContinueTraining avatar_id) latency (Reply cont)
                    :: EvPrint
                         "[4/6] Triggering follow-up lip-sync training (continueTranining)…"
                         []
                    :: log w |}).
    { intros k. unfold continue_training, _print_json.
      unfold bind, print, emit, http. tidy. now rewrite Hr. }
    unfold stage_lip_sync. rewrite Hstep. split.
    + intros e. unfold try_except, bind, print, emit, _print_json. tidy.
      destruct (wait_until_avatar_ready E fuel client avatar_id default_timeout_s
                  default_poll_s _) as [[a| e' |] w']; simpl; discriminate.
    + intros e w1 Hwait. unfold try_except, bind, print, emit. tidy.
      now rewrite Hwait.
Qed.

Lemma lip_sync_wait_errors_are_swallowed_witness :
  exists w1,
    stage_lip_sync
      (scripted_env (Some "secret") None
         (answer_but is_get_avatar (Reply (avatar_item "failed"))))
      3 a_client true (VStr "av-1") (fresh_world 0)
    = (Ret tt,
       {| now := now w1;
          log := EvPrintExn "Warning: post-continue wait error: {}"
                   (RuntimeError "Avatar training failed: {}" [avatar_item "failed"])
                 :: log w1 |}).
Proof.
  eexists.
  eapply (proj2 (proj2 (proj2
            (lip_sync_wait_errors_are_swallowed
               (scripted_env (Some "secret") None
                  (answer_but is_get_avatar (Reply (avatar_item "failed"))))
               3 a_client (VStr "av-1") (fresh_world 0) 1))
            (envelope VNone) eq_refl)).
  run_to_unknown.
Defined.

(** X18. Without a custom anchor no video is asked for: when the answer to
    the anchor lookup is no dict, or its [data] is missing, null or an empty
    list, step 6 stops with the error on the missing anchors once the answer
    is printed; the video generation is not called. *)
Theorem no_anchor_no_video (E : env) (client : A2EClient) (name : string)
    (avatar_id audio_src : value) (w : world) (latency : Z) (anchors : value) :
  let announced := EvPrint "[6/6] Fetching custom anchors for this avatar…" [] in
  remote E (announced :: log w) (CharacterList avatar_id) = (latency, Reply anchors) ->
  Py.truthy (direct_data anchors) = false ->
  stage_video E client name avatar_id audio_src w
  = (Raise (RuntimeError
              "No custom anchors found for this avatar. Ensure your account supports custom anchors."
              []),
     {| now := now w + latency;
        log := EvPrint "{}" [anchors]
               :: EvPrint "== {} ==" [VStr "character_list (custom) response"]
               :: EvHttp (CharacterList avatar_id) latency (Reply anchors)
               :: announced :: log w |}).
Proof.
  intros announced Hr Hfalsy. subst announced. unfold_driver. rewrite Hr. tidy.
  destruct anchors; cbn [Py.is_dict]; tidy; try reflexivity.
  rewrite get_field. tidy. unfold Py.or_.
  change (field "data" items) with (direct_data (VDict items)).
  rewrite Hfalsy. reflexivity.
Qed.

Lemma no_anchor_no_video_witness :
  stage_video
    (scripted_env (Some "secret") None
       (answer_but is_character_list (Reply (envelope (VList [])))))
    a_client "Ada" (VStr "av-1") (VStr "https://cdn.test/a/speech.mp3") (fresh_world 0)
  = (Raise (RuntimeError
              "No custom anchors found for this avatar. Ensure your account supports custom anchors."
              []),
     {| now := 0 + 1;
        log := [EvPrint "{}" [envelope (VList [])];
                EvPrint "== {} ==" [VStr "character_list (custom) response"];
                EvHttp (CharacterList (VStr "av-1")) 1 (Reply (envelope (VList [])));
                EvPrint "[6/6] Fetching custom anchors for this avatar…" []] |}).
Proof.
  apply (no_anchor_no_video
           (scripted_env (Some "secret") None
              (answer_but is_character_list (Reply (envelope (VList [])))))
           a_client "Ada" (VStr "av-1") (VStr "https://cdn.test/a/speech.mp3")
           (fresh_world 0) 1 (envelope (VList [])));
    reflexivity.
Defined.

Section VideoStage.

Variable E : env.
Variables (client : A2EClient) (name : string) (avatar_id audio_src : value).
Variable w : world.
Variables (l1 l2 : Z) (anchors : list (string * value)).
Variables (first : list (string * value)) (more : list value) (vid : value).

Let announced := EvPrint "[6/6] Fetching custom anchors for this avatar…" [].
Let anchor_id := field "_id" first.
Let call := VideoGenerate (name ++ " Greeting Video") anchor_id audio_src.

(** The log once the anchor is chosen. *)
Let chosen : list event :=
  EvPrint "anchor_id = {}" [anchor_id]
  :: EvPrint "{}" [VDict anchors]
  :: EvPrint "== {} ==" [VStr "character_list (custom) response"]
  :: EvHttp (CharacterList avatar_id) l1 (Reply (VDict anchors))
  :: announced :: log w.

Hypothesis Hanchors :
  remote E (announced :: log w) (CharacterList avatar_id)
  = (l1, Reply (VDict anchors)).
Hypothesis Hfirst : field "data" anchors = VList (VDict first :: more).
Hypothesis Hid : Py.truthy anchor_id = true.
Hypothesis Hvid : remote E chosen call = (l2, Reply vid).

(** With a usable anchor, step 6 comes to the check of the answer to the
    video generation, that answer printed. *)
Lemma stage_video_generated :
  stage_video E client name avatar_id audio_src w
  = after_generation E client vid
      {| now := now w + l1 + l2;
         log := EvPrint "{}" [vid]
                :: EvPrint "== {} ==" [VStr "video generate response"]
                :: EvHttp call l2 (Reply vid) :: chosen |}.
Proof.
  unfold after_generation. subst chosen call anchor_id announced.
  unfold stage_video, list_custom_anchors, create_video, _print_json.
  unfold bind at 1. unfold print at 1, emit. tidy.
  unfold bind at 1. unfold http at 1. tidy. rewrite Hanchors. tidy.
  unfold bind at 1 2. unfold print at 1, emit. tidy.
  unfold print at 1, emit. tidy.
  unfold bind at 1. cbn [Py.is_dict]. unfold bind at 1, lift at 1, ret at 1.
  rewrite get_field, Hfirst. tidy. cbn [Py.or_ Py.truthy negb]. tidy.
  unfold bind at 1, lift at 1. cbn [Py.index0]. tidy.
  unfold bind at 1, lift at 1. rewrite get_field. tidy. rewrite Hid. cbn [negb]. tidy.
  unfold bind at 1. unfold print at 1, emit. tidy.
  unfold bind at 1. unfold http at 1. tidy. rewrite Hvid. tidy.
  unfold bind at 1 2. unfold print at 1, emit. tidy. unfold print at 1, emit. tidy.
  reflexivity.
Qed.

End VideoStage.

(** C7. In the speech-synthesis step the audio source is the [data] field
    of the answer when the answer is a dict whose [data] is truthy (present
    and not empty, null, zero or false), and otherwise what the extractor
    finds in the whole answer with the audio extensions. A source that is
    found is printed and is what the step returns; the driver hands it to
    step 6, where it is the audio of the video generation request. When
    both yield nothing, the step, and a run that has reached it, end in the
    error on the missing audio source: the log ends with the printed
    answer, and neither the anchor lookup nor the video generation is
    called. *)
Theorem tts_audio_source (E : env) (fuel : nat)
    (name gender prompt script voice_id : string) (width height : Z)
    (auto_approve lip_sync : bool) (w wa wb wc wd : world)
    (secret image_url : string) (avatar_id tts : value) (latency : Z) :
  let client :=
    {| token := secret;
       base := match getenv E "A2E_BASE" with
               | Some b => b
               | None => "https://video.a2e.ai"
               end;
       timeout := 60 |} in
  let answered :=
    {| now := now wd + latency;
       log := EvPrint "{}" [tts]
              :: EvPrint "== {} ==" [VStr "send_tts response"]
              :: EvHttp (SendTTS script voice_id) latency (Reply tts)
              :: EvPrint "[5/6] Generating TTS audio…" [] :: log wd |} in
  let named src :=
    {| now := now wd + latency;
       log := EvPrint "audioSrc = {}" [src] :: log answered |} in
  remote E (EvPrint "[5/6] Generating TTS audio…" [] :: log wd)
    (SendTTS script voice_id) = (latency, Reply tts) ->
  ((Py.truthy (direct_data tts) = true ->
    stage_tts E client script voice_id wd
    = (Ret (direct_data tts), named (direct_data tts)))
   /\ (forall u,
         Py.truthy (direct_data tts) = false ->
         _first_url_from tts audio_exts = Some u ->
         stage_tts E client script voice_id wd = (Ret (VStr u), named (VStr u)))
   /\ (Py.truthy (direct_data tts) = false ->
       _first_url_from tts audio_exts = None ->
       stage_tts E client script voice_id wd = (Raise tts_failure, answered)))
  /\ (getenv E "A2E_API_TOKEN" = Some secret ->
      stage_image E client name prompt width height w = (Ret image_url, wa) ->
      stage_approval E auto_approve wa = (Ret true, wb) ->
      stage_train E fuel client name gender image_url wb = (Ret avatar_id, wc) ->
      stage_lip_sync E fuel client lip_sync avatar_id wc = (Ret tt, wd) ->
      (Py.truthy (direct_data tts) = true ->
       run_pipeline E fuel name gender prompt script voice_id width height
         auto_approve lip_sync w
       = stage_video E client name avatar_id (direct_data tts)
           (named (direct_data tts)))
      /\ (forall u,
            Py.truthy (direct_data tts) = false ->
            _first_url_from tts audio_exts = Some u ->
            run_pipeline E fuel name gender prompt script voice_id width height
              auto_approve lip_sync w
            = stage_video E client name avatar_id (VStr u) (named (VStr u)))
      /\ (Py.truthy (direct_data tts) = false ->
          _first_url_from tts audio_exts = None ->
          run_pipeline E fuel name gender prompt script voice_id width height
            auto_approve lip_sync w
          = (Raise tts_failure, answered)))
  /\ (forall (src : value) (l1 l2 : Z) (anchors first : list (string * value))
             (more : list value) (vid : value),
        let announced := EvPrint "[6/6] Fetching custom anchors for this avatar…" [] in
        let anchor_id := field "_id" first in
        let call := VideoGenerate (name ++ " Greeting Video") anchor_id src in
        let chosen :=
          EvPrint "anchor_id = {}" [anchor_id]
          :: EvPrint "{}" [VDict anchors]
          :: EvPrint "== {} ==" [VStr "character_list (custom) response"]
          :: EvHttp (CharacterList avatar_id) l1 (Reply (VDict anchors))
          :: announced :: log (named src) in
        remote E (announced :: log (named src)) (CharacterList avatar_id)
        = (l1, Reply (VDict anchors)) ->
        field "data" anchors = VList (VDict first :: more) ->
        Py.truthy anchor_id = true ->
        remote E chosen call = (l2, Reply vid) ->
        stage_video E client name avatar_id src (named src)
        = after_generation E client vid
            {| now := now wd + latency + l1 + l2;
               log := EvPrint "{}" [vid]
                      :: EvPrint "== {} ==" [VStr "video generate response"]
                      :: EvHttp call l2 (Reply vid) :: chosen |}).
Proof.
  intros client answered named Htts.
  assert (Hfound : forall src,
            Py.or_ (direct_data tts) (Py.of_option (_first_url_from tts audio_exts))
            = src ->
            Py.truthy src = true ->
            stage_tts E client script voice_id wd = (Ret src, named src)).
  { intros src Hsrc Htruthy. unfold stage_tts, generate_tts, _print_json.
    unfold bind, print, emit, http, lift, raise, ret. cbn [log now].
    rewrite Htts, audio_src_of_direct, Hsrc, Htruthy. reflexivity. }
  assert (Hdirect : Py.truthy (direct_data tts) = true ->
            stage_tts E client script voice_id wd
            = (Ret (direct_data tts), named (direct_data tts))).
  { intros Hd. apply Hfound; [| exact Hd]. unfold Py.or_. now rewrite Hd. }
  assert (Hextracted : forall u,
            Py.truthy (direct_data tts) = false ->
            _first_url_from tts audio_exts = Some u ->
            stage_tts E client script voice_id wd = (Ret (VStr u), named (VStr u))).
  { intros u Hd Hu. apply Hfound.
    - unfold Py.or_. now rewrite Hd, Hu.
    - pose proof (collected_nonempty tts u (first_url_in tts audio_exts u Hu)) as Hne.
      simpl. now destruct (String.eqb_spec u ""). }
  assert (Hnothing : Py.truthy (direct_data tts) = false ->
            _first_url_from tts audio_exts = None ->
            stage_tts E client script voice_id wd = (Raise tts_failure, answered)).
  { intros Hd Hnone. unfold stage_tts, generate_tts, _print_json.
    unfold bind, print, emit, http, lift, raise. cbn [log now].
    rewrite Htts, audio_src_of_direct. unfold Py.or_. rewrite Hd, Hnone.
    reflexivity. }
  split; [split; [exact Hdirect | split; [exact Hextracted | exact Hnothing]] |].
  split.
  - intros Htoken Himage Happroval Htrain Hlip.
    assert (Hrun : run_pipeline E fuel name gender prompt script voice_id width
                     height auto_approve lip_sync w
                   = bind (stage_tts E client script voice_id)
                       (fun audio_src => stage_video E client name avatar_id audio_src)
                       wd).
    { unfold run_pipeline, _env. rewrite Htoken.
      rewrite (bind_run _ _ w w secret eq_refl). fold client.
      rewrite (bind_run _ _ _ _ _ Himage), (bind_run _ _ _ _ _ Happroval).
      cbn [negb].
      now rewrite (bind_run _ _ _ _ _ Htrain), (bind_run _ _ _ _ _ Hlip). }
    rewrite Hrun. split; [| split].
    + intros Hd. now rewrite (bind_run _ _ _ _ _ (Hdirect Hd)).
    + intros u Hd Hu. now rewrite (bind_run _ _ _ _ _ (Hextracted u Hd Hu)).
    + intros Hd Hnone. apply bind_raise. now apply Hnothing.
  - intros src l1 l2 anchors first more vid announced anchor_id call chosen
      Hanchors Hfirst Hid Hvid.
    exact (stage_video_generated E client name avatar_id src (named src) l1 l2
             anchors first more vid Hanchors Hfirst Hid Hvid).
Qed.

(** The premises of a statement on a run that has reached step 5, for a
    mock remote: each stage is run in turn, and gives the world the next
    one starts from. *)
Ltac reach_step_5 :=
  try (match goal with |- getenv _ _ = _ => reflexivity end);
  try (match goal with |- stage_image _ _ _ _ _ _ _ = _ => run_to_unknown end);
  try (match goal with |- stage_approval _ _ _ = _ => run_to_unknown end);
  try (match goal with |- stage_train _ _ _ _ _ _ _ = _ => run_to_unknown end);
  try (match goal with |- stage_lip_sync _ _ _ _ _ _ = _ => run_to_unknown end);
  try reflexivity.

Lemma tts_audio_source_witness :
  (exists wd,
     run_pipeline (scenario_env tts_answer VNone) 3 "Ada" "female"
       "a portrait" "Hello" "voice-1" 1024 768 true false (fresh_world 0)
     = stage_video (scenario_env tts_answer VNone) a_client "Ada" (VStr "av-1")
         (VStr "https://cdn.test/a/speech.mp3")
         {| now := now wd + 1;
            log := EvPrint "audioSrc = {}" [VStr "https://cdn.test/a/speech.mp3"]
                   :: EvPrint "{}" [tts_answer]
                   :: EvPrint "== {} ==" [VStr "send_tts response"]
                   :: EvHttp (SendTTS "Hello" "voice-1") 1 (Reply tts_answer)
                   :: EvPrint "[5/6] Generating TTS audio…" [] :: log wd |})
  /\ (exists wd,
        run_pipeline (scenario_env tts_answer_in_words VNone) 3 "Ada" "female"
          "a portrait" "Hello" "voice-1" 1024 768 true false (fresh_world 0)
        = stage_video (scenario_env tts_answer_in_words VNone) a_client "Ada"
            (VStr "av-1") (VStr "https://cdn.test/a/speech.MP3?sig=1")
            {| now := now wd + 1;
               log := EvPrint "audioSrc = {}"
                        [VStr "https://cdn.test/a/speech.MP3?sig=1"]
                      :: EvPrint "{}" [tts_answer_in_words]
                      :: EvPrint "== {} ==" [VStr "send_tts response"]
                      :: EvHttp (SendTTS "Hello" "voice-1") 1
                           (Reply tts_answer_in_words)
                      :: EvPrint "[5/6] Generating TTS audio…" [] :: log wd |})
  /\ (exists wd,
        run_pipeline (scenario_env silent_tts_answer VNone) 3 "Ada" "female"
          "a portrait" "Hello" "voice-1" 1024 768 true false (fresh_world 0)
        = (Raise tts_failure,
           {| now := now wd + 1;
              log := EvPrint "{}" [silent_tts_answer]
                     :: EvPrint "== {} ==" [VStr "send_tts response"]
                     :: EvHttp (SendTTS "Hello" "voice-1") 1 (Reply silent_tts_answer)
                     :: EvPrint "[5/6] Generating TTS audio…" [] :: log wd |})).
Proof.
  split; [| split]; eexists.
  - unshelve eapply
      (proj1 (proj1 (proj2 (tts_audio_source (scenario_env tts_answer VNone) 3
                              "Ada" "female" "a portrait" "Hello" "voice-1" 1024 768
                              true false (fresh_world 0) _ _ _ _ "secret" _ _
                              tts_answer 1 _)) _ _ _ _ _));
      reach_step_5.
  - unshelve eapply
      (proj1 (proj2 (proj1 (proj2 (tts_audio_source
                              (scenario_env tts_answer_in_words VNone) 3
                              "Ada" "female" "a portrait" "Hello" "voice-1" 1024 768
                              true false (fresh_world 0) _ _ _ _ "secret" _ _
                              tts_answer_in_words 1 _)) _ _ _ _ _)));
      reach_step_5.
  - unshelve eapply
      (proj2 (proj2 (proj1 (proj2 (tts_audio_source
                              (scenario_env silent_tts_answer VNone) 3
                              "Ada" "female" "a portrait" "Hello" "voice-1" 1024 768
                              true false (fresh_world 0) _ _ _ _ "secret" _ _
                              silent_tts_answer 1 _)) _ _ _ _ _)));
      reach_step_5.
Defined.

(** X19. When the answer to the video generation is refused, the result is
    never fetched. With a usable anchor, step 6 ends once that answer is
    printed: in the error on the failed generation when its code is not [0]
    (a missing code included), in [AttributeError] when it is no dict, in
    the error on the missing task id when the code is [0] and no id comes
    with it. *)
Theorem refused_generation_is_not_fetched (E : env) (client : A2EClient)
    (name : string) (avatar_id audio_src : value) (w : world) (l1 l2 : Z)
    (anchors first : list (string * value)) (more : list value) (vid : value) :
  let announced := EvPrint "[6/6] Fetching custom anchors for this avatar…" [] in
  let anchor_id := field "_id" first in
  let call := VideoGenerate (name ++ " Greeting Video") anchor_id audio_src in
  let chosen :=
    EvPrint "anchor_id = {}" [anchor_id]
    :: EvPrint "{}" [VDict anchors]
    :: EvPrint "== {} ==" [VStr "character_list (custom) response"]
    :: EvHttp (CharacterList avatar_id) l1 (Reply (VDict anchors))
    :: announced :: log w in
  let printed :=
    {| now := now w + l1 + l2;
       log := EvPrint "{}" [vid]
              :: EvPrint "== {} ==" [VStr "video generate response"]
              :: EvHttp call l2 (Reply vid) :: chosen |} in
  remote E (announced :: log w) (CharacterList avatar_id)
  = (l1, Reply (VDict anchors)) ->
  field "data" anchors = VList (VDict first :: more) ->
  Py.truthy anchor_id = true ->
  remote E chosen call = (l2, Reply vid) ->
  (forall fields,
     vid = VDict fields -> Py.eq_zero (field "code" fields) = false ->
     stage_video E client name avatar_id audio_src w
     = (Raise (RuntimeError "Video generation failed; see response above." []),
        printed))
  /\ (Py.is_dict vid = false ->
      stage_video E client name avatar_id audio_src w
      = (Raise AttributeError, printed))
  /\ (forall fields task_id,
        vid = VDict fields -> Py.eq_zero (field "code" fields) = true ->
        Py.get (Py.or_ (field "data" fields) (VDict [])) "_id" = Ret task_id ->
        Py.truthy task_id = false ->
        stage_video E client name avatar_id audio_src w
        = (Raise (RuntimeError "No task _id returned from video generation." []),
           printed)).
Proof.
  intros announced anchor_id call chosen printed Hanchors Hfirst Hid Hvid.
  rewrite (stage_video_generated E client name avatar_id audio_src w l1 l2
             anchors first more vid Hanchors Hfirst Hid Hvid).
  fold announced anchor_id call chosen printed.
  unfold after_generation. split; [| split].
  - intros fields -> Hcode. unfold bind, lift, raise. rewrite get_field, Hcode.
    reflexivity.
  - intros Hd. unfold bind, lift. destruct vid; try reflexivity; discriminate.
  - intros fields task_id -> Hcode Htask Hfalsy. unfold bind, lift, raise.
    rewrite !get_field, Hcode. cbn [negb]. tidy. rewrite Htask. tidy.
    now rewrite Hfalsy.
Qed.

Lemma refused_generation_is_not_fetched_witness :
  exists printed,
    stage_video
      (scripted_env (Some "secret") None (answer_but is_video_generate (Reply refusal)))
      a_client "Ada" (VStr "av-1") (VStr "https://cdn.test/a/speech.mp3")
      (fresh_world 0)
    = (Raise (RuntimeError "Video generation failed; see response above." []), printed)
    /\ fetches is_aws_result (log printed) = 0%nat.
Proof.
  eexists. split.
  - eapply (proj1
              (refused_generation_is_not_fetched
                 (scripted_env (Some "secret") None
                    (answer_but is_video_generate (Reply refusal)))
                 a_client "Ada" (VStr "av-1") (VStr "https://cdn.test/a/speech.mp3")
                 (fresh_world 0) 1 1
                 [("code", VInt 0); ("data", VList [VDict [("_id", VStr "anchor-1")]])]
                 [("_id", VStr "anchor-1")] [] refusal
                 eq_refl eq_refl eq_refl eq_refl)
              [("code", VInt 1001); ("msg", VStr "no credit")]);
      reflexivity.
  - reflexivity.
Defined.

(** X20. The driver never looks at the status in the video result. With a
    usable anchor and an accepted generation (code [0], a task id), the one
    fetch of the result ends the run normally whatever the answer holds, a
    failed or pending status or no URL at all included: the answer is
    printed, then the URL the extractor chooses with the video extensions,
    or a note that none was found. Only a failed fetch is fatal. *)
Theorem result_answer_is_not_judged (E : env) (client : A2EClient)
    (name : string) (avatar_id audio_src : value) (w : world) (l1 l2 l3 : Z)
    (anchors first fields : list (string * value)) (more : list value)
    (task_id : value) :
  let announced := EvPrint "[6/6] Fetching custom anchors for this avatar…" [] in
  let anchor_id := field "_id" first in
  let call := VideoGenerate (name ++ " Greeting Video") anchor_id audio_src in
  let chosen :=
    EvPrint "anchor_id = {}" [anchor_id]
    :: EvPrint "{}" [VDict anchors]
    :: EvPrint "== {} ==" [VStr "character_list (custom) response"]
    :: EvHttp (CharacterList avatar_id) l1 (Reply (VDict anchors))
    :: announced :: log w in
  let started :=
    EvPrint "video task_id = {}" [task_id]
    :: EvPrint "{}" [VDict fields]
    :: EvPrint "== {} ==" [VStr "video generate response"]
    :: EvHttp call l2 (Reply (VDict fields)) :: chosen in
  remote E (announced :: log w) (CharacterList avatar_id)
  = (l1, Reply (VDict anchors)) ->
  field "data" anchors = VList (VDict first :: more) ->
  Py.truthy anchor_id = true ->
  remote E chosen call = (l2, Reply (VDict fields)) ->
  Py.eq_zero (field "code" fields) = true ->
  Py.get (Py.or_ (field "data" fields) (VDict [])) "_id" = Ret task_id ->
  Py.truthy task_id = true ->
  (forall result,
     remote E started (AwsResult task_id) = (l3, Reply result) ->
     stage_video E client name avatar_id audio_src w
     = (Ret tt,
        {| now := now w + l1 + l2 + l3;
           log := closing_line (_first_url_from result video_exts)
                  :: EvPrint "{}" [result]
                  :: EvPrint "== {} ==" [VStr "video awsResult response"]
                  :: EvHttp (AwsResult task_id) l3 (Reply result) :: started |}))
  /\ (remote E started (AwsResult task_id) = (l3, Failed) ->
      stage_video E client name avatar_id audio_src w
      = (Raise RequestsError,
         {| now := now w + l1 + l2 + l3;
            log := EvHttp (AwsResult task_id) l3 Failed :: started |})).
Proof.
  intros announced anchor_id call chosen started
    Hanchors Hfirst Hid Hvid Hcode Htask Htruthy.
  rewrite (stage_video_generated E client name avatar_id audio_src w l1 l2
             anchors first more (VDict fields) Hanchors Hfirst Hid Hvid).
  fold announced anchor_id call chosen.
  unfold after_generation, video_result, _print_json.
  split; [intros result Hr | intros Hr];
    (unfold bind at 1, lift at 1; rewrite get_field, Hcode; cbn [negb]; tidy;
     unfold bind at 1, lift at 1; rewrite get_field; tidy;
     unfold bind at 1, lift at 1; rewrite Htask; tidy; rewrite Htruthy;
     cbn [negb]; tidy;
     unfold bind at 1; unfold print at 1, emit; tidy; fold started;
     unfold bind at 1; unfold http; tidy; rewrite Hr; tidy).
  - unfold bind, print, emit. tidy.
    destruct (_first_url_from result video_exts); reflexivity.
  - reflexivity.
Qed.

Lemma result_answer_is_not_judged_witness :
  exists w',
    stage_video
      (scripted_env (Some "secret") None (answer_but is_aws_result (Reply failed_result)))
      a_client "Ada" (VStr "av-1") (VStr "https://cdn.test/a/speech.mp3")
      (fresh_world 0)
    = (Ret tt, w')
    /\ List.head (log w') = Some (closing_line None).
Proof.
  eexists. split.
  - eapply (proj1
              (result_answer_is_not_judged
                 (scripted_env (Some "secret") None
                    (answer_but is_aws_result (Reply failed_result)))
                 a_client "Ada" (VStr "av-1") (VStr "https://cdn.test/a/speech.mp3")
                 (fresh_world 0) 1 1 1
                 [("code", VInt 0); ("data", VList [VDict [("_id", VStr "anchor-1")]])]
                 [("_id", VStr "anchor-1")]
                 [("code", VInt 0); ("data", VDict [("_id", VStr "task-1")])]
                 [] (VStr "task-1")
                 eq_refl eq_refl eq_refl eq_refl eq_refl eq_refl eq_refl)
              failed_result).
    reflexivity.
  - reflexivity.
Defined.

(** ** The name of the saved picture *)

Lemma has_char_app (c : ascii) (a b : string) :
  has_char c (a ++ b) = has_char c a || has_char c b.
Proof.
  induction a as [|d a IH]; simpl; [reflexivity|].
  rewrite IH. now rewrite orb_assoc.
Qed.

Lemma length_app (a b : string) :
  String.length (a ++ b) = (String.length a + String.length b)%nat.
Proof. induction a as [|d a IH]; simpl; [reflexivity | now rewrite IH]. Qed.

Lemma substring_app_right (a b : string) :
  String.substring (String.length a) (String.length b) (a ++ b) = b.
Proof. induction a as [|d a IH]; simpl; [apply substring_all | exact IH]. Qed.

Lemma split_slash_no_slash (cur s : string) :
  has_char "/" s = false -> Pathlib.split_slash cur s = [cur ++ s].
Proof.
  revert cur. induction s as [|c s IH]; intros cur H; simpl in *.
  - now rewrite append_nil_r.
  - apply orb_false_iff in H as [Hc Hs]. rewrite Hc, (IH _ Hs).
    now rewrite append_assoc.
Qed.

Lemma split_slash_app (cur a b : string) :
  Pathlib.split_slash cur (a ++ "/" ++ b)
  = (Pathlib.split_slash cur a ++ Pathlib.split_slash "" b)%list.
Proof.
  revert cur. induction a as [|c a IH]; intros cur.
  - reflexivity.
  - change (String c a ++ "/" ++ b) with (String c (a ++ "/" ++ b)).
    cbn [Pathlib.split_slash]. destruct (Ascii.eqb c "/").
    + now rewrite IH.
    + apply IH.
Qed.

Lemma parts_app (a b : string) :
  Pathlib.parts (a ++ "/" ++ b) = (Pathlib.parts a ++ Pathlib.parts b)%list.
Proof. unfold Pathlib.parts. now rewrite split_slash_app, List.filter_app. Qed.

(** A slash at the end of a path, or a slash and a dot, add no component. *)
Lemma suffix_trailing_slash (s : string) :
  Pathlib.suffix (s ++ "/") = Pathlib.suffix s
  /\ Pathlib.suffix (s ++ "/.") = Pathlib.suffix s.
Proof.
  unfold Pathlib.suffix, Pathlib.name. split.
  - change (s ++ "/") with (s ++ "/" ++ ""). rewrite parts_app.
    change (Pathlib.parts "") with (@nil string). now rewrite app_nil_r.
  - change (s ++ "/.") with (s ++ "/" ++ "."). rewrite parts_app.
    change (Pathlib.parts ".") with (@nil string). now rewrite app_nil_r.
Qed.

Lemma name_of_last (dir nm : string) :
  has_char "/" nm = false -> nm <> "" -> nm <> "." ->
  Pathlib.name (dir ++ "/" ++ nm) = nm.
Proof.
  intros Hslash Hne Hdot. unfold Pathlib.name. rewrite parts_app.
  unfold Pathlib.parts at 2.
  rewrite (split_slash_no_slash "" nm Hslash). simpl (""  ++ nm). simpl.
  destruct (String.eqb_spec nm ""); [contradiction|].
  destruct (String.eqb_spec nm "."); [contradiction|].
  simpl. apply last_last.
Qed.

Lemma rfind_dot_no_dot (s : string) :
  has_char "." s = false -> Pathlib.rfind_dot s = None.
Proof.
  induction s as [|c s IH]; simpl; [reflexivity|]. intros H.
  apply orb_false_iff in H as [Hc Hs]. now rewrite (IH Hs), Hc.
Qed.

Lemma rfind_dot_app (stem e : string) :
  has_char "." e = false ->
  Pathlib.rfind_dot (stem ++ "." ++ e) = Some (String.length stem).
Proof.
  intros He. induction stem as [|c stem IH].
  - change ("" ++ "." ++ e) with (String "." e). cbn [Pathlib.rfind_dot].
    now rewrite (rfind_dot_no_dot e He).
  - change (String c stem ++ "." ++ e) with (String c (stem ++ "." ++ e)).
    cbn [Pathlib.rfind_dot]. now rewrite IH.
Qed.

Lemma suffix_of_last (dir stem e : string) :
  has_char "/" stem = false -> stem <> "" ->
  has_char "/" e = false -> has_char "." e = false -> e <> "" ->
  Pathlib.suffix (dir ++ "/" ++ stem ++ "." ++ e) = "." ++ e.
Proof.
  intros Hs Hstem He Hdot Hne. unfold Pathlib.suffix.
  rewrite name_of_last.
  - rewrite (rfind_dot_app stem e Hdot), length_app.
    change (String.length ("." ++ e)) with (S (String.length e)).
    assert (0 < String.length stem)%nat as Hl
      by (destruct stem; [contradiction | simpl; lia]).
    assert (0 < String.length e)%nat as Hle
      by (destruct e; [contradiction | simpl; lia]).
    destruct (Nat.ltb_spec 0 (String.length stem)); [|lia].
    destruct (Nat.ltb_spec (String.length stem)
                (String.length stem + S (String.length e) - 1)); [|lia].
    simpl andb. cbv iota.
    replace (String.length stem + S (String.length e) - String.length stem)%nat
      with (String.length ("." ++ e)) by (simpl; lia).
    apply substring_app_right.
  - rewrite has_char_app, Hs. simpl. exact He.
  - destruct stem; [contradiction | discriminate].
  - destruct stem as [|c [|d stem]]; [contradiction | | discriminate].
    simpl. discriminate.
Qed.

(** A name that begins with its only dot, or ends with a dot, has no
    suffix. *)
Lemma suffix_of_dotfile (dir nm : string) :
  has_char "/" nm = false -> has_char "." nm = false -> nm <> "" ->
  Pathlib.suffix (dir ++ "/." ++ nm) = "".
Proof.
  intros Hs Hdot Hne. unfold Pathlib.suffix.
  change (dir ++ "/." ++ nm) with (dir ++ "/" ++ String "." nm).
  rewrite name_of_last.
  - change (String "." nm) with ("" ++ "." ++ nm).
    now rewrite (rfind_dot_app "" nm Hdot).
  - simpl. exact Hs.
  - discriminate.
  - intros [= ->]. contradiction.
Qed.

Lemma suffix_trailing_dot (dir stem : string) :
  has_char "/" stem = false -> stem <> "" ->
  Pathlib.suffix (dir ++ "/" ++ stem ++ ".") = "".
Proof.
  intros Hs Hne. unfold Pathlib.suffix. rewrite name_of_last.
  - change (stem ++ ".") with (stem ++ "." ++ "").
    rewrite (rfind_dot_app stem "" eq_refl), length_app. simpl String.length.
    destruct (Nat.ltb_spec (String.length stem) (String.length stem + 1 - 1));
      [lia |]. now rewrite andb_false_r.
  - rewrite has_char_app, Hs. reflexivity.
  - destruct stem; [contradiction | discriminate].
  - destruct stem as [|c [|d stem]]; [contradiction | discriminate | discriminate].
Qed.

Lemma suffix_without_dot (dir nm : string) :
  has_char "/" nm = false -> has_char "." nm = false -> nm <> "" ->
  Pathlib.suffix (dir ++ "/" ++ nm) = "".
Proof.
  intros Hs Hdot Hne. unfold Pathlib.suffix.
  rewrite name_of_last; trivial.
  - now rewrite (rfind_dot_no_dot nm Hdot).
  - intros ->. discriminate.
Qed.

(** X21. The choice and the saving of the picture. From a list of image
    URLs the driver takes the first element and no other. When it is a text
    the picture is downloaded to [picture_file], the file [avatar] with the
    suffix [pathlib] reads off the URL or with [.jpg] when it reads none,
    the last line printed is the absolute path the file system resolves
    that name to, and the URL is what the stage hands on; a failed download
    is fatal and nothing more is printed. When the first element is no text
    the driver raises [TypeError] once it has printed it, and nothing is
    downloaded. The suffix is that of the last component of the URL, a
    slash or a slash and a dot at the end of the URL left aside: the
    component from its last dot on (a query string included) when a
    non-empty stem stands before that dot and something after it; a last
    component without a dot, or with one dot at its head, or ending with a
    dot, gives [avatar.jpg]. *)
Theorem picture_choice (E : env) (client : A2EClient) (name prompt : string)
    (width height : Z) (w : world) (l1 l2 : Z)
    (fields : list (string * value)) (first : value) (more : list value) :
  let announced := EvPrint "[1/6] Generating image from prompt…" [] in
  let call := Text2Image name prompt width height in
  let selected :=
    EvPrint "Selected image URL: {}" [first]
    :: EvPrint "{}" [VDict fields]
    :: EvPrint "== {} ==" [VStr "text2image response"]
    :: EvHttp call l1 (Reply (VDict fields)) :: announced :: log w in
  let target url := EvPrint "Downloading to: {} …" [VStr (picture_file url)] in
  let fetched url body :=
    EvHttp (Download url (picture_file url)) l2 (Reply body)
    :: target url :: selected in
  remote E (announced :: log w) call = (l1, Reply (VDict fields)) ->
  Py.get (Py.or_ (field "data" fields) (VDict [])) "image_urls"
  = Ret (VList (first :: more)) ->
  (forall url body,
     first = VStr url ->
     remote E (target url :: selected) (Download url (picture_file url))
     = (l2, Reply body) ->
     stage_image E client name prompt width height w
     = (Ret url,
        {| now := now w + l1 + l2;
           log := EvPrint "Saved -> {}"
                    [VStr (resolve E (fetched url body) (picture_file url))]
                  :: fetched url body |}))
  /\ (forall url,
        first = VStr url ->
        remote E (target url :: selected) (Download url (picture_file url))
        = (l2, Failed) ->
        stage_image E client name prompt width height w
        = (Raise RequestsError,
           {| now := now w + l1 + l2;
              log := EvHttp (Download url (picture_file url)) l2 Failed
                     :: target url :: selected |}))
  /\ (is_text first = false ->
      stage_image E client name prompt width height w
      = (Raise TypeError, {| now := now w + l1; log := selected |}))
  /\ (forall dir stem e,
        has_char "/" stem = false -> stem <> "" ->
        has_char "/" e = false -> has_char "." e = false -> e <> "" ->
        picture_file (dir ++ "/" ++ stem ++ "." ++ e) = "avatar." ++ e)
  /\ (forall dir nm,
        has_char "/" nm = false -> has_char "." nm = false -> nm <> "" ->
        picture_file (dir ++ "/" ++ nm) = "avatar.jpg"
        /\ picture_file (dir ++ "/." ++ nm) = "avatar.jpg")
  /\ (forall dir stem,
        has_char "/" stem = false -> stem <> "" ->
        picture_file (dir ++ "/" ++ stem ++ ".") = "avatar.jpg")
  /\ (forall url,
        picture_file (url ++ "/") = picture_file url
        /\ picture_file (url ++ "/.") = picture_file url).
Proof.
  intros announced call selected target fetched Hr Hurls.
  subst announced call selected target fetched.
  split; [intros url body Hfirst Hd
         | split; [intros url Hfirst Hd
                  | split; [intros Hfirst | split; [| split; [| split]]]]].
  1-3: unfold_driver; rewrite Hr; tidy; rewrite get_field; tidy; rewrite Hurls;
       tidy; cbn [Py.or_ Py.truthy negb Py.index0]; tidy.
  - subst first. tidy. fold (picture_file url). rewrite Hd. reflexivity.
  - subst first. tidy. fold (picture_file url). rewrite Hd. reflexivity.
  - destruct first; try reflexivity; discriminate.
  - intros dir stem e Hs Hstem He Hdot Hne. unfold picture_file.
    rewrite (suffix_of_last dir stem e Hs Hstem He Hdot Hne). reflexivity.
  - intros dir nm Hs Hdot Hne. unfold picture_file.
    rewrite (suffix_without_dot dir nm Hs Hdot Hne).
    rewrite (suffix_of_dotfile dir nm Hs Hdot Hne). split; reflexivity.
  - intros dir stem Hs Hne. unfold picture_file.
    rewrite (suffix_trailing_dot dir stem Hs Hne). reflexivity.
  - intros url. unfold picture_file.
    destruct (suffix_trailing_slash url) as [-> ->]. split; reflexivity.
Qed.

Lemma picture_choice_witness :
  exists w',
    stage_image (scripted_env (Some "secret") None happy_answer) a_client "Ada"
      "a portrait" 1024 768 (fresh_world 0)
    = (Ret "https://cdn.test/img/face.png", w')
    /\ List.head (log w') = Some (EvPrint "Saved -> {}" [VStr "/work/avatar.png"])
    /\ fetches is_download (log w') = 1%nat.
Proof.
  eexists. split.
  - eapply (proj1
              (picture_choice (scripted_env (Some "secret") None happy_answer) a_client
                 "Ada" "a portrait" 1024 768 (fresh_world 0) 1 1
                 [("code", VInt 0);
                  ("data", VDict [("image_urls",
                                   VList [VStr "https://cdn.test/img/face.png"])])]
                 (VStr "https://cdn.test/img/face.png") [] eq_refl eq_refl)
              "https://cdn.test/img/face.png" VNone eq_refl).
    reflexivity.
  - split; reflexivity.
Defined.
